(** * star-tidy: the classification and reconciliation pipeline

    A shallow embedding of [utils/repo_analyzer.py], [utils/star_list_manager.py]
    and the two pipeline stages of [nodes.py] that use them, with the properties
    the specification states about them.  It is followed by the rest of the list
    manager, the mode decision of [nodes.py], the pagination of
    [utils/github_client.py], the client of [utils/call_llm.py] and the exclusion
    list of [utils/config.py] and [main.py], with further properties of that code.

    - Python values are typed: a repository and a remote list are records whose
      fields are the keys the code reads; a key read with [d.get(k, default)] is
      an [option]; a key read with [d[k]] is a plain field.
    - A [dict] is an association list in insertion order ([Py.dict_set] keeps the
      position of a key that is already there, as Python does).
    - The two gateways (the language model and the repository host) are section
      variables acting on an abstract gateway state; every call is recorded, with
      its arguments, in a trace.
    - An exception is identified with its message, [str(e)]. *)

From Stdlib Require Import List String Ascii ZArith Bool Lia Floats Sorted Permutation.
From Stdlib Require Import DecimalString.
Import ListNotations.

Set Warnings "-inexact-float,-register-all".
#[local] Open Scope string_scope.
#[local] Open Scope list_scope.

(* ================================================================== *)
(** * Python built-ins used by the code *)
(* ================================================================== *)

Module Py.

(** ** Strings *)

(** [str.isspace] on the ASCII range: TAB, LF, VT, FF, CR, FS, GS, RS, US and
    the space.  (White space outside ASCII is not modelled: a [string] here is a
    sequence of bytes.) *)
Definition isspace (c : ascii) : bool :=
  let n := nat_of_ascii c in
  (((9 <=? n) && (n <=? 13)) || ((28 <=? n) && (n <=? 32)))%nat.

Fixpoint lstrip (s : string) : string :=
  match s with
  | EmptyString => EmptyString
  | String c s' => if isspace c then lstrip s' else s
  end.

Fixpoint rstrip (s : string) : string :=
  match s with
  | EmptyString => EmptyString
  | String c s' =>
      match rstrip s' with
      | EmptyString => if isspace c then EmptyString else String c EmptyString
      | r => String c r
      end
  end.

(** [s.strip()] *)
Definition strip (s : string) : string := rstrip (lstrip s).

(** [sub in s] *)
Fixpoint contains (sub s : string) : bool :=
  prefix sub s ||
  match s with
  | EmptyString => false
  | String _ s' => contains sub s'
  end.

(** [s.split(sep)] for a non-empty [sep]: the pieces between the occurrences of
    [sep], found from left to right without overlap.  [skip] counts the
    characters of a separator just matched that are still to be dropped. *)
Fixpoint split_from (sep : string) (skip : nat) (s : string) : list string :=
  match s with
  | EmptyString => [EmptyString]
  | String c s' =>
      match skip with
      | S k => split_from sep k s'
      | O =>
          if prefix sep s then EmptyString :: split_from sep (String.length sep - 1) s'
          else match split_from sep 0 s' with
               | piece :: rest => String c piece :: rest
               | [] => [String c EmptyString]
               end
      end
  end.

Definition split (sep s : string) : list string := split_from sep 0 s.

(** [sep.join(l)] *)
Fixpoint join (sep : string) (l : list string) : string :=
  match l with
  | [] => EmptyString
  | [x] => x
  | x :: rest => x ++ sep ++ join sep rest
  end.

(** Truth value of a string: the empty string is false. *)
Definition truthy (s : string) : bool := negb (String.eqb s EmptyString).

(** ** Dictionaries, in insertion order *)

Definition dict (K V : Type) := list (K * V).

Section Dict.
Context {K V : Type} (eqb : K -> K -> bool).

(** [d.get(k)] *)
Fixpoint dict_get (k : K) (d : dict K V) : option V :=
  match d with
  | [] => None
  | (k', v) :: d' => if eqb k' k then Some v else dict_get k d'
  end.

(** [d[k] = v] *)
Fixpoint dict_set (k : K) (v : V) (d : dict K V) : dict K V :=
  match d with
  | [] => [(k, v)]
  | (k', v') :: d' => if eqb k' k then (k', v) :: d' else (k', v') :: dict_set k v d'
  end.

(** [k in d] *)
Definition dict_mem (k : K) (d : dict K V) : bool :=
  match dict_get k d with Some _ => true | None => false end.

(** [d.keys()] *)
Definition keys (d : dict K V) : list K := map fst d.
End Dict.

(** ** [sorted(items, key=..., reverse=True)]

    Python's sort is stable, also with [reverse=True]: items with equal keys
    keep their original order.  Insertion from the right gives that order. *)
Section Sorted.
Context {A : Type} (key : A -> nat).

Fixpoint insert_desc (x : A) (l : list A) : list A :=
  match l with
  | [] => [x]
  | y :: l' => if (key y <=? key x)%nat then x :: l else y :: insert_desc x l'
  end.

Definition sorted_desc (l : list A) : list A := fold_right insert_desc [] l.
End Sorted.

(** ** Integers as text *)

(** [str(n)] *)
Definition str_of_Z (z : Z) : string := NilZero.string_of_int (Z.to_int z).
Definition str_of_nat (n : nat) : string := str_of_Z (Z.of_nat n).

(** Digits grouped by three from the right, separated by commas. *)
Fixpoint group3 (rev_digits : list ascii) (k : nat) : list ascii :=
  match rev_digits with
  | [] => []
  | d :: rest =>
      match k, rest with
      | 2, _ :: _ => d :: ","%char :: group3 rest 0
      | _, _ => d :: group3 rest (S k)
      end
  end.

(** [f"{n:,}"] *)
Definition format_thousands (z : Z) : string :=
  let digits := list_ascii_of_string (str_of_Z (Z.abs z)) in
  let grouped := string_of_list_ascii (rev (group3 (rev digits) 0)) in
  if (z <? 0)%Z then String "-"%char grouped else grouped.

End Py.

(** ** Fallible computations *)

(** A value, or the message of the exception raised. *)
Inductive Result (A : Type) : Type :=
| Ok (a : A)
| Raise (e : string).
Arguments Ok {A} a.
Arguments Raise {A} e.

Definition bindR {A B : Type} (m : Result A) (k : A -> Result B) : Result B :=
  match m with
  | Ok a => k a
  | Raise e => Raise e
  end.

Notation "x <~ m ;; k" := (bindR m (fun x => k))
  (at level 61, m at next level, right associativity).

(** [l[i]] *)
Definition index {A : Type} (l : list A) (i : nat) : Result A :=
  match nth_error l i with
  | Some x => Ok x
  | None => Raise "list index out of range"
  end.

(* ================================================================== *)
(** * Values read from YAML, and [float(...)] *)
(* ================================================================== *)

(** What [yaml.safe_load] builds from the core YAML schema. *)
Inductive yaml : Type :=
| YNull
| YBool (b : bool)
| YInt (z : Z)
| YFloat (f : float)
| YStr (s : string)
| YSeq (items : list yaml)
| YMap (entries : list (yaml * yaml)).

(** Lookup of a string key in a loaded mapping. *)
Definition is_key (k : string) (y : yaml) : bool :=
  match y with
  | YStr s => String.eqb s k
  | _ => false
  end.

Definition yaml_get (k : string) (entries : list (yaml * yaml)) : option yaml :=
  match find (fun kv => is_key k (fst kv)) entries with
  | Some (_, v) => Some v
  | None => None
  end.

(** [float(n)] for an [int]: rounded to the nearest double, ties to even;
    [OverflowError] beyond the range of a double. *)
Definition float_of_Z (z : Z) : Result float :=
  match SpecFloat.binary_normalize prec emax z 0 false with
  | SpecFloat.S754_infinity _ => Raise "int too large to convert to float"
  | sf => Ok (SF2Prim sf)
  end.

(** The closed interval the specification gives for a confidence. *)
Definition in_unit_interval (c : float) : bool :=
  (PrimFloat.leb 0 c && PrimFloat.leb c 1)%float.

(* ================================================================== *)
(** * Data model *)
(* ================================================================== *)

(** A starred repository, as the host returns it. *)
Module Repo.
Record t : Type := mk {
  id : Z;
  name : option string;
  full_name : string;
  description : option string;
  language : option string;
  topics : list string;
  stargazers_count : option Z
}.
End Repo.

(** An existing star list, as the host returns it. *)
Module RemoteList.
Record t : Type := mk {
  id : Z;
  name : string;
  description : option string
}.
End RemoteList.

(** The result of classifying one repository.  [category] and [reason] are
    whatever the model's YAML holds under these keys, hence the parameter [V]:
    the classifier produces [t yaml]; the list manager, whose categories name
    lists, is stated for [t string]. *)
Module Classification.
Record t (V : Type) : Type := mk {
  category : V;
  reason : V;
  confidence : float
}.
Arguments mk {V}.
Arguments category {V}.
Arguments reason {V}.
Arguments confidence {V}.
End Classification.

(** [self.summary_options] of the list manager. *)
Record SummaryOptions : Type := {
  auto_complete : bool;
  enhance_existing : bool;
  use_ai_summary : bool;
  include_stats : bool
}.

(** [config["summary_options"]]: any of the four keys may be absent. *)
Record SummaryOverrides : Type := {
  o_auto_complete : option bool;
  o_enhance_existing : option bool;
  o_use_ai_summary : option bool;
  o_include_stats : option bool
}.

Record Config : Type := {
  exclude_repos : list string;
  dry_run : bool;
  config_summary_options : SummaryOverrides
}.

(** The entries of the shared store that the classification stage reads. *)
Record Shared : Type := {
  starred_repos : list Repo.t;
  config : Config;
  existing_categories : list string;
  mode : string
}.

(** The result recorded for one category; a key that is not set is [None]. *)
Record OperationResult : Type := {
  success : bool;
  action : option string;
  list_id : option Z;
  repos_added : option nat;
  repos_count : option nat;
  repos : option (list string);
  error : option string;
  enhanced_description : option string
}.

Record StarListManager : Type := {
  _list_cache : Py.dict string RemoteList.t;
  summary_options : SummaryOptions
}.

(** ** Gateways *)

(** A call that left the process. *)
Inductive Call : Type :=
| LlmCall (prompt : string)
| GetUserLists
| CreateStarList (name description : string)
| UpdateStarList (list_id : Z) (description : string)
| AddReposToList (list_id : Z) (repo_ids : list Z).

(** The language-model service and the repository host, over a state [W] of
    their own: each call returns a value or raises, and moves that state. *)
Class Gateways (W : Type) : Type := {
  call_llm_with_config : string -> W -> Result string * W;
  get_user_lists : W -> Result (list RemoteList.t) * W;
  create_star_list : string -> string -> W -> Result RemoteList.t * W;
  update_star_list : Z -> string -> W -> Result unit * W;
  add_repos_to_list : Z -> list Z -> W -> Result unit * W
}.

(** Library functions the parser calls: [yaml.safe_load] and [float] on a
    [str]. *)
Class Library : Type := {
  yaml_safe_load : string -> Result yaml;
  float_of_str : string -> Result float
}.

(** The prompt texts.  Their wording is immaterial to every property below,
    which therefore hold for any text. *)
Class Prompts : Type := {
  _build_auto_categorization_prompt :
    string -> string -> string -> list string -> string -> string;
  _build_existing_categories_prompt :
    list string -> string -> string -> string -> list string -> string -> string;
  summary_prompt : string -> list Repo.t -> string;
  enhance_prompt : string -> string -> list Repo.t -> string
}.

(** [float(v)] *)
Definition py_float `{Library} (v : yaml) : Result float :=
  match v with
  | YFloat f => Ok f
  | YInt z => float_of_Z z
  | YBool b => Ok (if b then 1%float else 0%float)
  | YStr s => float_of_str s
  | YNull => Raise "float() argument must be a string or a real number, not 'NoneType'"
  | YSeq _ => Raise "float() argument must be a string or a real number, not 'list'"
  | YMap _ => Raise "float() argument must be a string or a real number, not 'dict'"
  end.

(** The options of a new manager. *)
Definition default_summary_options : SummaryOptions :=
  {| auto_complete := true; enhance_existing := true;
     use_ai_summary := true; include_stats := true |}.

(** [StarListManager(github_client, config)] *)
Definition new_manager : StarListManager :=
  {| _list_cache := []; summary_options := default_summary_options |}.

(** The state a run threads: the gateways' own state [W], the calls made so
    far, and the list manager in use. *)
Record State {W : Type} : Type := {
  gateway : W;
  trace : list Call;
  self : StarListManager
}.
Arguments State W : clear implicits.

(* ================================================================== *)
(** * Scenarios *)
(* ================================================================== *)

(** Concrete gateways, library and data on which the properties below are
    exercised. *)
Module Scenario.

Definition repo (id : Z) (full_name : string) (language : option string)
    (stars : Z) : Repo.t :=
  Repo.mk id (Some full_name) full_name None language [] (Some stars).

(** The three repositories of the specification's scenario. *)
Definition ax : Repo.t := repo 1 "a/x" (Some "Python") 10.
Definition ay : Repo.t := repo 2 "a/y" (Some "Python") 5.
Definition az : Repo.t := repo 3 "a/z" (Some "Go") 1.

(** The existing list of the specification's scenario. *)
Definition web : RemoteList.t := RemoteList.mk 7 "Web" (Some "old desc").

Definition tools_doc : string := "category: Tools".
Definition overconfident_doc : string := "category: Tools
confidence: 1.5".
Definition vague_doc : string := "category: Tools
confidence: high".

(** [yaml.safe_load] on the documents used here, and on nothing else. *)
Definition load (s : string) : Result yaml :=
  if String.eqb s tools_doc then
    Ok (YMap [(YStr "category", YStr "Tools")])
  else if String.eqb s overconfident_doc then
    Ok (YMap [(YStr "category", YStr "Tools"); (YStr "confidence", YFloat 1.5%float)])
  else if String.eqb s vague_doc then
    Ok (YMap [(YStr "category", YStr "Tools"); (YStr "confidence", YStr "high")])
  else Raise "could not determine a constructor".

(** [float] on the strings used here: none of them is a number. *)
Definition to_float (s : string) : Result float :=
  Raise ("could not convert string to float: '" ++ s ++ "'").

Definition library : Library :=
  {| yaml_safe_load := load; float_of_str := to_float |}.

Definition prompts : Prompts :=
  {| _build_auto_categorization_prompt := fun name _ _ _ _ => ("classify " ++ name)%string;
     _build_existing_categories_prompt := fun _ name _ _ _ _ => ("choose for " ++ name)%string;
     summary_prompt := fun category _ => ("describe " ++ category)%string;
     enhance_prompt := fun _ category _ => ("enhance " ++ category)%string |}.

(** A host that holds [lists] and numbers the lists it creates with its
    state, and a model that answers every prompt with [reply]. *)
Definition gateways (reply : string -> Result string) (lists : list RemoteList.t)
  : Gateways Z :=
  {| call_llm_with_config := fun prompt w => (reply prompt, w);
     get_user_lists := fun w => (Ok lists, w);
     create_star_list := fun name description w =>
       (Ok (RemoteList.mk w name (Some description)), (w + 1)%Z);
     update_star_list := fun _ _ w => (Ok tt, w);
     add_repos_to_list := fun _ _ w => (Ok tt, w) |}.

Definition timeout : string -> Result string := fun _ => Raise "timeout".

(** A model whose call fails for "a/y" and answers for the others. *)
Definition tools_response : string := "```yaml
category: Tools
```".
Definition flaky (prompt : string) : Result string :=
  if String.eqb prompt "classify a/y" then Raise "timeout" else Ok tools_response.

(** A model that is too sure of itself. *)
Definition overconfident_response : string := "```yaml
category: Tools
confidence: 1.5
```".
Definition overconfident : string -> Result string :=
  fun _ => Ok overconfident_response.

(** A model that words its confidence. *)
Definition vague_response : string := "```yaml
category: Tools
confidence: high
```".

(** A model that answers with white space. *)
Definition blank : string -> Result string := fun _ => Ok "   ".

Definition no_overrides : SummaryOverrides :=
  {| o_auto_complete := None; o_enhance_existing := None;
     o_use_ai_summary := None; o_include_stats := None |}.

Definition cfg : Config :=
  {| exclude_repos := ["a/y"]; dry_run := false;
     config_summary_options := no_overrides |}.

Definition shared : Shared :=
  {| starred_repos := [ax; ay; az]; config := cfg;
     existing_categories := []; mode := "auto" |}.

Definition item_of (r : Repo.t) : Repo.t * list string * string * Config :=
  (r, [], "auto", cfg).

(** All three repositories classified as "Tools", and one as "Web". *)
Definition tools (confidence : float) : Classification.t string :=
  Classification.mk "Tools" "a tool" confidence.
Definition all_tools : Py.dict string (Classification.t string) :=
  [("a/x", tools 0.9%float); ("a/y", tools 0.8%float); ("a/z", tools 0.7%float)].
Definition one_web : Py.dict string (Classification.t string) :=
  [("a/x", Classification.mk "Web" "a web application" 0.9%float)].

(** A run starts with no call made and a new manager. *)
Definition start : State Z :=
  {| gateway := 0%Z; trace := []; self := new_manager |}.

(** A manager that has fetched the list "Web" and does not enhance existing
    descriptions. *)
Definition keeping : State Z :=
  {| gateway := 0%Z; trace := [GetUserLists];
     self := {| _list_cache := [("Web", web)];
                summary_options :=
                  {| auto_complete := true; enhance_existing := false;
                     use_ai_summary := true; include_stats := true |} |} |}.

End Scenario.

(* ================================================================== *)
(** * Words of the specification *)
(* ================================================================== *)

(** [s] without its first [n] characters. *)
Fixpoint drop (n : nat) (s : string) : string :=
  match n, s with
  | S k, String _ s' => drop k s'
  | _, _ => s
  end.

(** The text before the first occurrence of [sep]; all of [s] when there is
    none. *)
Fixpoint before_first (sep s : string) : string :=
  if prefix sep s then EmptyString
  else match s with
       | EmptyString => EmptyString
       | String c s' => String c (before_first sep s')
       end.

(** The text after the first occurrence of [sep], when there is one. *)
Fixpoint after_first (sep s : string) : option string :=
  if prefix sep s then Some (drop (String.length sep) s)
  else match s with
       | EmptyString => None
       | String _ s' => after_first sep s'
       end.

(** The payload the parsing policy selects: the block after the first yaml
    tag, that is, of the text between that tag and the next yaml tag (or the
    end), what comes before the first fence; failing that, the content of the
    first fenced block, that is, what comes between the first fence and the
    next (or the end); failing that, the whole response.  White space around it
    is removed. *)
Definition payload (response : string) : string :=
  match after_first "```yaml" response with
  | Some rest => Py.strip (before_first "```" (before_first "```yaml" rest))
  | None =>
      match after_first "```" response with
      | Some rest => Py.strip (before_first "```" rest)
      | None => Py.strip response
      end
  end.

(* ================================================================== *)
(** * The clients and the settings *)
(* ================================================================== *)

(** ** [utils/github_client.py]: the starred repositories *)

Module GitHubClient.
Section Client.

(** The state of the host. *)
Context {W : Type}.

(** [self._make_request("GET", endpoint, params={"per_page": per_page, "page": page})]
    on an endpoint that lists repositories: the page the host answers with, or
    the exception of the request.  (An answer without content reads as [{}],
    which is false like the empty page.) *)
Variable get_page : string -> Z -> Z -> W -> Result (list Repo.t) * W.

Definition starred_endpoint (username : option string) : string :=
  match username with
  | Some u => if Py.truthy u then ("users/" ++ u ++ "/starred")%string else "user/starred"
  | None => "user/starred"
  end.

(** The loop of [get_starred_repos].  [fuel] bounds the number of turns, each
    of which makes one request; [None] is a loop that has not ended within
    them. *)
Fixpoint starred_loop (fuel : nat) (endpoint : string) (per_page page : Z)
    (repos : list Repo.t) (w : W) : option (Result (list Repo.t) * W) :=
  match fuel with
  | O => None
  | S fuel' =>
      match get_page endpoint per_page page w with
      | (Raise e, w') => Some (Raise e, w')
      | (Ok [], w') => Some (Ok repos, w')
      | (Ok page_repos, w') =>
          let repos := repos ++ page_repos in
          if (Z.of_nat (List.length page_repos) <? per_page)%Z
             || (1000 <=? List.length repos)%nat
          then Some (Ok repos, w')
          else starred_loop fuel' endpoint per_page (page + 1)%Z repos w'
      end
  end.

(** [GitHubClient.get_starred_repos] *)
Definition get_starred_repos (fuel : nat) (username : option string) (per_page : Z)
    (w : W) : option (Result (list Repo.t) * W) :=
  starred_loop fuel (starred_endpoint username) per_page 1%Z [] w.

(** A host that returns at most [per_page] repositories when asked for a page
    of [per_page]. *)
Definition honours (per_page : Z) : Prop :=
  forall endpoint page w page_repos w',
    get_page endpoint per_page page w = (Ok page_repos, w') ->
    (Z.of_nat (List.length page_repos) <= per_page)%Z.

End Client.
End GitHubClient.

(** ** [utils/call_llm.py] *)

Module CallLlm.

(** The environment variables the module reads. *)
Record Environ : Type := {
  OPENAI_API_KEY : option string;
  OPENAI_API_BASE : option string;
  AI_MODEL : option string
}.

(** [request_params]: the model, the content of the one user message, and the
    two optional parameters. *)
Record Request : Type := {
  request_model : string;
  request_content : string;
  request_max_tokens : option Z;
  request_temperature : option float
}.


(** [a or b], on values that are [None] or a string. *)
Definition py_or (a b : option string) : option string :=
  match a with
  | Some s => if Py.truthy s then a else b
  | None => b
  end.

(** [os.environ.get(name, default)] *)
Definition getenv (value : option string) (default : string) : string :=
  match value with
  | Some v => v
  | None => default
  end.

Definition key_required : string :=
  "OpenAI API key is required. Set OPENAI_API_KEY environment variable or pass api_key parameter.".

Definition empty_response : string := "LLM returned empty response".

Section Llm.

(** The clients, and the state of the service. *)
Context {C W : Type}.

Variable environ : Environ.

(** [OpenAI(api_key=..., base_url=...)] *)
Variable OpenAI : string -> string -> Result C.

(** [client.chat.completions.create], called with [request_params], followed by
    [response.choices[0].message.content]: the content of the first choice,
    which may be [None], or the exception raised on the way. *)
Variable create : C -> Request -> W -> Result (option string) * W.

(** The module's [_client_cache] and the service. *)
Record Process : Type := {
  _client_cache : Py.dict string C;
  service : W
}.

(** [f"{api_key[:8]}_{base_url}"] *)
Definition cache_key (api_key base_url : string) : string :=
  (substring 0 8 api_key ++ "_" ++ base_url)%string.

(** [get_llm_client] *)
Definition get_llm_client (api_key base_url : option string) (p : Process)
  : Result C * Process :=
  let api_key := py_or api_key (OPENAI_API_KEY environ) in
  let base_url :=
    match py_or base_url
            (Some (getenv (OPENAI_API_BASE environ) "https://api.openai.com/v1")) with
    | Some b => b
    | None => ""
    end in
  match py_or api_key None with
  | None => (Raise key_required, p)
  | Some api_key =>
      match Py.dict_get String.eqb (cache_key api_key base_url) (_client_cache p) with
      | Some client => (Ok client, p)
      | None =>
          match OpenAI api_key base_url with
          | Ok client =>
              (Ok client,
               {| _client_cache :=
                    Py.dict_set String.eqb (cache_key api_key base_url) client
                      (_client_cache p);
                  service := service p |})
          | Raise e => (Raise e, p)
          end
      end
  end.

(** [if max_tokens:]: zero counts as not given. *)
Definition given_max_tokens (max_tokens : option Z) : option Z :=
  match max_tokens with
  | Some n => if (n =? 0)%Z then None else Some n
  | None => None
  end.

(** [call_llm]; its [except] logs and raises again. *)
Definition call_llm (prompt : string) (model api_key base_url : option string)
    (max_tokens : option Z) (temperature : option float) (p : Process)
  : Result string * Process :=
  let model :=
    match py_or model (Some (getenv (AI_MODEL environ) "gpt-4o-mini")) with
    | Some m => m
    | None => ""
    end in
  match get_llm_client api_key base_url p with
  | (Raise e, p') => (Raise e, p')
  | (Ok client, p') =>
      let request_params :=
        {| request_model := model;
           request_content := prompt;
           request_max_tokens := given_max_tokens max_tokens;
           request_temperature := temperature |} in
      match create client request_params (service p') with
      | (Raise e, w) => (Raise e, {| _client_cache := _client_cache p'; service := w |})
      | (Ok content, w) =>
          let p'' := {| _client_cache := _client_cache p'; service := w |} in
          match py_or content None with
          | Some content => (Ok content, p'')
          | None => (Raise empty_response, p'')
          end
      end
  end.



End Llm.
End CallLlm.

(** ** [utils/config.py] and [main.py]: the excluded repositories *)

(** The names of the repositories to exclude come from the command line and
    pass through [str.split] and [str.strip], which work on characters: here a
    text is the sequence of its code points, and white space is what Python
    counts as such, inside ASCII and outside. *)
Module Text.

Definition t : Type := list N.

(** [c.isspace()] for one character: TAB to CR, FS to the space, U+0085,
    U+00A0, U+1680, U+2000 to U+200A, U+2028, U+2029, U+202F, U+205F and
    U+3000. *)
Definition isspace (c : N) : bool :=
  (((9 <=? c) && (c <=? 13)) || ((28 <=? c) && (c <=? 32))
   || (c =? 133) || (c =? 160) || (c =? 5760)
   || ((8192 <=? c) && (c <=? 8202))
   || (c =? 8232) || (c =? 8233) || (c =? 8239) || (c =? 8287) || (c =? 12288))%N.

Fixpoint lstrip (s : t) : t :=
  match s with
  | [] => []
  | c :: s' => if isspace c then lstrip s' else s
  end.

Fixpoint rstrip (s : t) : t :=
  match s with
  | [] => []
  | c :: s' =>
      match rstrip s' with
      | [] => if isspace c then [] else [c]
      | r => c :: r
      end
  end.

(** [s.strip()] *)
Definition strip (s : t) : t := rstrip (lstrip s).

(** Truth value of a text: the empty text is false. *)
Definition truthy (s : t) : bool :=
  match s with
  | [] => false
  | _ :: _ => true
  end.

(** [s.split(sep)] for a separator of one character. *)
Fixpoint split (sep : N) (s : t) : list t :=
  match s with
  | [] => [[]]
  | c :: s' =>
      if (c =? sep)%N then [] :: split sep s'
      else match split sep s' with
           | piece :: rest => (c :: piece) :: rest
           | [] => [[c]]
           end
  end.

(** [sep.join(l)] for a separator of one character. *)
Fixpoint join (sep : N) (l : list t) : t :=
  match l with
  | [] => []
  | [x] => x
  | x :: rest => x ++ sep :: join sep rest
  end.

Definition comma : N := 44.

(** Whether a text holds the character [c]. *)
Definition holds (c : N) (s : t) : bool := existsb (N.eqb c) s.

(** The text of an ASCII literal. *)
Definition of_string (s : string) : t := map N_of_ascii (list_ascii_of_string s).

End Text.

Module Settings.

(** [[repo.strip() for repo in exclude_repos_str.split(",") if repo.strip()]]:
    the value of ["exclude_repos"] that [Config.load_config] computes from the
    environment. *)
Definition exclude_repos_of (exclude_repos_str : Text.t) : list Text.t :=
  map Text.strip (filter (fun repo => Text.truthy (Text.strip repo))
                    (Text.split Text.comma exclude_repos_str)).

(** The value of [EXCLUDE_REPOS] after the command [star] has handled its
    options [--exclude-repo]: [",".join(exclude_repo)] when there is one, the
    value of the environment otherwise; an unset variable reads as [""]. *)
Definition exclude_repos_env (exclude_repo : list Text.t) (environ : option Text.t)
  : Text.t :=
  match exclude_repo with
  | [] => match environ with Some v => v | None => [] end
  | _ :: _ => Text.join Text.comma exclude_repo
  end.

End Settings.

(** ** Further scenarios *)

Module Cases.

(** A host that creates lists and refuses to attach repositories to them, and
    a model that does not answer. *)
Definition refusing : Gateways Z :=
  {| call_llm_with_config := fun _ w => (Raise "timeout", w);
     get_user_lists := fun w => (Ok [], w);
     create_star_list := fun name description w =>
       (Ok (RemoteList.mk w name (Some description)), (w + 1)%Z);
     update_star_list := fun _ _ w => (Ok tt, w);
     add_repos_to_list := fun _ _ w => (Raise "rate limit", w) |}.

(** A host with three starred repositories, which serves pages of at most two
    whatever the size asked for, and counts the requests. *)
Definition pages (endpoint : string) (per_page page : Z) (w : nat)
  : Result (list Repo.t) * nat :=
  (Ok (if (page =? 1)%Z then [Scenario.ax; Scenario.ay]
       else if (page =? 2)%Z then [Scenario.az]
       else []),
   S w).

(** Clients that are the keys they were built with. *)
Definition client_of (api_key base_url : string) : Result string := Ok api_key.

(** A model that gives a list as the category, and a loader for its answer. *)
Definition listing_doc : string := "category: [a, b]".
Definition listing_response : string := "```yaml
category: [a, b]
```".
Definition listing : string -> Result string := fun _ => Ok listing_response.
Definition listing_library : Library :=
  {| yaml_safe_load := fun s =>
       if String.eqb s listing_doc
       then Ok (YMap [(YStr "category", YSeq [YStr "a"; YStr "b"])])
       else Raise "could not determine a constructor";
     float_of_str := Scenario.to_float |}.

Definition no_environ : CallLlm.Environ :=
  {| CallLlm.OPENAI_API_KEY := None;
     CallLlm.OPENAI_API_BASE := None;
     CallLlm.AI_MODEL := None |}.

Definition fresh : CallLlm.Process (C := string) (W := nat) :=
  {| CallLlm._client_cache := []; CallLlm.service := 0 |}.

End Cases.

(* ================================================================== *)
(** * The program *)
(* ================================================================== *)

Section Program.

Context {W : Type} `{GW : Gateways W} `{LIB : Library} `{PR : Prompts}.

(** ** State and effects *)

(** A computation that reads and writes the state and may raise. *)
Definition M (A : Type) : Type := State W -> Result A * State W.

Definition ret {A : Type} (a : A) : M A := fun st => (Ok a, st).

Definition bind {A B : Type} (m : M A) (k : A -> M B) : M B :=
  fun st =>
    match m st with
    | (Ok a, st') => k a st'
    | (Raise e, st') => (Raise e, st')
    end.

Definition raise {A : Type} (e : string) : M A := fun st => (Raise e, st).

(** [try: body  except Exception as e: handler] *)
Definition try_except {A : Type} (body : M A) (handler : string -> M A) : M A :=
  fun st =>
    match body st with
    | (Ok a, st') => (Ok a, st')
    | (Raise e, st') => handler e st'
    end.

Notation "x <- m ;; k" := (bind m (fun x => k))
  (at level 61, m at next level, right associativity).
Notation "m ;;; k" := (bind m (fun _ => k))
  (at level 61, right associativity).

(** A gateway call: recorded in the trace, then made. *)
Definition call {A : Type} (c : Call) (f : W -> Result A * W) : M A :=
  fun st =>
    let (r, w) := f (gateway st) in
    (r, {| gateway := w; trace := trace st ++ [c]; self := self st |}).

Definition llm (prompt : string) : M string :=
  call (LlmCall prompt) (call_llm_with_config prompt).

Definition get_self : M StarListManager := fun st => (Ok (self st), st).

Definition set_self (m : StarListManager) : M unit :=
  fun st => (Ok tt, {| gateway := gateway st; trace := trace st; self := m |}).

(** [[f(x) for x in l]] *)
Fixpoint map_M {A B : Type} (f : A -> M B) (l : list A) : M (list B) :=
  match l with
  | [] => ret []
  | x :: l' => y <- f x ;; ys <- map_M f l' ;; ret (y :: ys)
  end.

(** [for x in l: acc = body(acc, x)] *)
Fixpoint fold_M {A B : Type} (body : B -> A -> M B) (l : list A) (acc : B) : M B :=
  match l with
  | [] => ret acc
  | x :: l' => acc' <- body acc x ;; fold_M body l' acc'
  end.

(** ** [utils/repo_analyzer.py] *)

Definition fence : string := "```".
Definition yaml_tag : string := "```yaml".

(** The text handed to the YAML loader. *)
Definition yaml_part (response : string) : Result string :=
  if Py.contains yaml_tag response then
    tagged <~ index (Py.split yaml_tag response) 1 ;;
    block <~ index (Py.split fence tagged) 0 ;;
    Ok (Py.strip block)
  else if Py.contains fence response then
    fenced <~ index (Py.split fence response) 1 ;;
    block <~ index (Py.split fence fenced) 0 ;;
    Ok (Py.strip block)
  else Ok (Py.strip response).

(** The result substituted when classification fails. *)
Definition sentinel (reason_text : string) : Classification.t yaml :=
  Classification.mk (YStr "Uncategorized") (YStr reason_text) 0.1%float.

(** The body of the [try] in [_parse_ai_response]. *)
Definition parse_body (response : string) : Result (Classification.t yaml) :=
  part <~ yaml_part response ;;
  result <~ yaml_safe_load part ;;
  match result with
  | YMap entries =>
      match yaml_get "category" entries with
      | None => Raise "Missing 'category' field"
      | Some cat =>
          conf <~ py_float (match yaml_get "confidence" entries with
                            | Some v => v
                            | None => YFloat 0.5%float
                            end) ;;
          Ok (Classification.mk cat
                (match yaml_get "reason" entries with
                 | Some r => r
                 | None => YStr "No reason provided"
                 end)
                conf)
      end
  | _ => Raise "Response is not a valid dictionary"
  end.

(** [RepositoryAnalyzer._parse_ai_response]: any exception of the body becomes
    the sentinel. *)
Definition _parse_ai_response (response : string) : Classification.t yaml :=
  match parse_body response with
  | Ok r => r
  | Raise e => sentinel ("Failed to parse AI response: " ++ e)
  end.

(** Truth value of a list: the empty list is false. *)
Definition nonempty {A : Type} (l : list A) : bool :=
  match l with [] => false | _ :: _ => true end.

Definition get_or (d : string) (o : option string) : string :=
  match o with Some s => s | None => d end.

Record RepositoryAnalyzer : Type := {
  analyzer_categories : list string
}.

(** The prompt [analyze_repository] sends: which of the two texts depends on
    the mode and on whether there are existing categories. *)
Definition build_prompt (this : RepositoryAnalyzer) (repo_info : Repo.t)
    (mode : string) : string :=
  let name := get_or "" (Repo.name repo_info) in
  let description := get_or "" (Repo.description repo_info) in
  let language := get_or "" (Repo.language repo_info) in
  let topics := Repo.topics repo_info in
  let readme_content := "" in
  if String.eqb mode "existing_lists" && nonempty (analyzer_categories this)
  then _build_existing_categories_prompt (analyzer_categories this)
         name description language topics readme_content
  else _build_auto_categorization_prompt
         name description language topics readme_content.

(** [RepositoryAnalyzer.analyze_repository] *)
Definition analyze_repository_method (this : RepositoryAnalyzer)
    (repo_info : Repo.t) (mode : string) : M (Classification.t yaml) :=
  let prompt := build_prompt this repo_info mode in
  try_except
    (response <- llm prompt ;; ret (_parse_ai_response response))
    (fun e => ret (sentinel ("Analysis failed: " ++ e))).

(** The module-level [analyze_repository]. *)
Definition analyze_repository (repo_info : Repo.t) (existing : list string)
    (mode : string) : M (Classification.t yaml) :=
  analyze_repository_method {| analyzer_categories := existing |} repo_info mode.

(** ** [AnalyzeRepositoriesNode] *)

(** An item of the batch: [(repo, existing_categories, mode, config)]. *)
Definition item : Type := Repo.t * list string * string * Config.

(** [AnalyzeRepositoriesNode.prep] *)
Definition analyze_prep (shared : Shared) : list item :=
  let exclude := exclude_repos (config shared) in
  map (fun repo => (repo, existing_categories shared, mode shared, config shared))
    (filter (fun repo => negb (existsb (String.eqb (Repo.full_name repo)) exclude))
       (starred_repos shared)).

(** [AnalyzeRepositoriesNode.exec] *)
Definition analyze_exec (repo_data : item) : M (string * Classification.t yaml) :=
  let '(repo, existing, mode, _) := repo_data in
  try_except
    (result <- analyze_repository repo existing mode ;;
     ret (Repo.full_name repo, result))
    (fun e => ret (Repo.full_name repo, sentinel ("Analysis failed: " ++ e))).

(** The first loop of [AnalyzeRepositoriesNode.post]: the mapping it stores in
    [shared["classification_results"]]. *)
Definition analyze_post (exec_res_list : list (string * Classification.t yaml))
  : Py.dict string (Classification.t yaml) :=
  fold_left (fun d kv => Py.dict_set String.eqb (fst kv) (snd kv) d) exec_res_list [].

(** Whether a value can key a dictionary: a list and a mapping cannot. *)
Definition hashable (v : yaml) : bool :=
  match v with
  | YSeq _ | YMap _ => false
  | _ => true
  end.

(** The message of the [TypeError] raised for a key that is not hashable. *)
Definition unhashable_type (v : yaml) : string :=
  match v with
  | YMap _ => "unhashable type: 'dict'"
  | _ => "unhashable type: 'list'"
  end.

(** The second loop of [AnalyzeRepositoriesNode.post], over the values of the
    mapping: [categories[category] = categories.get(category, 0) + 1].  The
    counts go to the log only; what the loop does to the stage is to raise at
    the first category that cannot key the dictionary of the counts. *)
Fixpoint count_categories (results : list (Classification.t yaml)) : Result unit :=
  match results with
  | [] => Ok tt
  | result :: rest =>
      if hashable (Classification.category result) then count_categories rest
      else Raise (unhashable_type (Classification.category result))
  end.

(** The stage as the flow runs it: [exec] on every item of [prep], in order,
    then [post], which stores the mapping and counts the categories.  When the
    counting raises the flow stops, and the mapping stored is not read again. *)
Definition analyze_run (shared : Shared) : M (Py.dict string (Classification.t yaml)) :=
  exec_res_list <- map_M analyze_exec (analyze_prep shared) ;;
  let classification_results := analyze_post exec_res_list in
  match count_categories (map snd classification_results) with
  | Ok _ => ret classification_results
  | Raise e => raise e
  end.

(** ** [utils/star_list_manager.py] *)

Definition set_cache (c : Py.dict string RemoteList.t) : M unit :=
  m <- get_self ;; set_self {| _list_cache := c; summary_options := summary_options m |}.

Definition override (o : option bool) (b : bool) : bool :=
  match o with Some v => v | None => b end.

(** [set_summary_options]: the keys given replace the current values. *)
Definition set_summary_options (options : SummaryOverrides) : M unit :=
  m <- get_self ;;
  let cur := summary_options m in
  set_self {| _list_cache := _list_cache m;
              summary_options :=
                {| auto_complete := override (o_auto_complete options) (auto_complete cur);
                   enhance_existing := override (o_enhance_existing options) (enhance_existing cur);
                   use_ai_summary := override (o_use_ai_summary options) (use_ai_summary cur);
                   include_stats := override (o_include_stats options) (include_stats cur) |} |}.

(** [StarListManager.get_existing_lists] *)
Definition get_existing_lists : M (list RemoteList.t) :=
  try_except
    (lists <- call GetUserLists get_user_lists ;;
     set_cache (fold_left (fun d lst => Py.dict_set String.eqb (RemoteList.name lst) lst d)
                  lists []) ;;;
     ret lists)
    (fun _ => ret []).

Definition ok_result (act : string) (lid : Z) (added : nat) : OperationResult :=
  {| success := true; action := Some act; list_id := Some lid;
     repos_added := Some added; repos_count := None; repos := None;
     error := None; enhanced_description := None |}.

Definition error_result (e : string) : OperationResult :=
  {| success := false; action := None; list_id := None;
     repos_added := None; repos_count := None; repos := None;
     error := Some e; enhanced_description := None |}.

Definition _create_new_list (list_name description : string)
    (repos_to_add : list Repo.t) : M OperationResult :=
  try_except
    (new_list <- call (CreateStarList list_name description)
                   (create_star_list list_name description) ;;
     let list_id := RemoteList.id new_list in
     (if nonempty repos_to_add then
        let repo_ids := map Repo.id repos_to_add in
        call (AddReposToList list_id repo_ids) (add_repos_to_list list_id repo_ids)
      else ret tt) ;;;
     m <- get_self ;;
     set_cache (Py.dict_set String.eqb list_name new_list (_list_cache m)) ;;;
     ret (ok_result "created" list_id (List.length repos_to_add)))
    (fun e => raise e).

Definition _update_existing_list (existing_list : RemoteList.t) (description : string)
    (repos_to_add : list Repo.t) : M OperationResult :=
  try_except
    (let list_id := RemoteList.id existing_list in
     (if Py.truthy description
         && negb (String.eqb description (get_or "" (RemoteList.description existing_list)))
      then call (UpdateStarList list_id description) (update_star_list list_id description)
      else ret tt) ;;;
     repos_added <-
       (if nonempty repos_to_add then
          let repo_ids_to_add := map Repo.id repos_to_add in
          if nonempty repo_ids_to_add then
            call (AddReposToList list_id repo_ids_to_add)
              (add_repos_to_list list_id repo_ids_to_add) ;;;
            ret (List.length repo_ids_to_add)
          else ret 0
        else ret 0) ;;
     ret (ok_result "updated" list_id repos_added))
    (fun e => raise e).

Definition create_or_update_list (list_name description : string)
    (repos_to_add : list Repo.t) : M OperationResult :=
  try_except
    (m <- get_self ;;
     match Py.dict_get String.eqb list_name (_list_cache m) with
     | Some existing_list => _update_existing_list existing_list description repos_to_add
     | None => _create_new_list list_name description repos_to_add
     end)
    (fun e => ret (error_result e)).

(** [organize_repos_by_category], for categories of any type [V] that can key
    a dictionary, [key_eqb] being the equality of keys. *)
Definition organize_repos_by_category {V : Type} (key_eqb : V -> V -> bool)
    (classification_results : Py.dict string (Classification.t V))
    (starred : list Repo.t) : Py.dict V (list Repo.t) :=
  let repo_map :=
    fold_left (fun d repo => Py.dict_set String.eqb (Repo.full_name repo) repo d) starred [] in
  fold_left
    (fun organized kv =>
       let category := Classification.category (snd kv) in
       match Py.dict_get String.eqb (fst kv) repo_map with
       | Some repo =>
           let group := match Py.dict_get key_eqb category organized with
                        | Some g => g
                        | None => []
                        end in
           Py.dict_set key_eqb category (group ++ [repo]) organized
       | None => organized
       end)
    classification_results [].

(** The language of a repository when it has one: [repo.get("language")] that
    is neither absent nor empty. *)
Definition known_language (repo : Repo.t) : option string :=
  match Repo.language repo with
  | Some lang => if Py.truthy lang then Some lang else None
  | None => None
  end.

(** [languages[lang] = languages.get(lang, 0) + 1] *)
Definition count_language (languages : Py.dict string nat) (lang : string)
  : Py.dict string nat :=
  Py.dict_set String.eqb lang
    (match Py.dict_get String.eqb lang languages with
     | Some n => n
     | None => 0
     end + 1)
    languages.

(** The [languages] dictionary of [_generate_basic_description]. *)
Definition count_languages (repos : list Repo.t) : Py.dict string nat :=
  fold_left
    (fun languages repo =>
       match known_language repo with
       | Some lang => count_language languages lang
       | None => languages
       end)
    repos [].

Definition sum_stars (repos : list Repo.t) : Z :=
  fold_left (fun acc repo => (acc + match Repo.stargazers_count repo with
                                    | Some n => n
                                    | None => 0
                                    end)%Z) repos 0%Z.

Definition _generate_basic_description (opts : SummaryOptions) (category : string)
    (repos : list Repo.t) : string :=
  let repo_count := List.length repos in
  let languages := count_languages repos in
  let top_languages := firstn 3 (Py.sorted_desc snd languages) in
  let lang_text := Py.join ", " (map fst top_languages) in
  let description :=
    ("Auto-categorized " ++ category ++ " repositories ("
       ++ Py.str_of_nat repo_count ++ " repos)")%string in
  let description :=
    if Py.truthy lang_text
    then (description ++ " - Main languages: " ++ lang_text)%string
    else description in
  if include_stats opts then
    let total_stars := sum_stars repos in
    if (0 <? total_stars)%Z
    then (description ++ " - Total stars: " ++ Py.format_thousands total_stars)%string
    else description
  else description.

Definition generate_ai_summary (category : string) (repos : list Repo.t) : M string :=
  m <- get_self ;;
  if negb (use_ai_summary (summary_options m))
  then ret (_generate_basic_description (summary_options m) category repos)
  else
    try_except
      (ai_description <- llm (summary_prompt category repos) ;;
       ret (Py.strip ai_description))
      (fun _ =>
         m <- get_self ;;
         ret (_generate_basic_description (summary_options m) category repos)).

Definition _enhance_existing_description (existing_desc category : string)
    (repos : list Repo.t) : M string :=
  m <- get_self ;;
  if negb (use_ai_summary (summary_options m)) then ret existing_desc
  else
    try_except
      (enhanced <- llm (enhance_prompt existing_desc category repos) ;;
       ret (Py.strip enhanced))
      (fun _ => ret existing_desc).

(** One turn of the loop of [complete_list_summaries]. *)
Definition complete_one (existing_lists : list RemoteList.t)
    (summaries : Py.dict string string) (kv : string * list Repo.t)
  : M (Py.dict string string) :=
  let '(category, repos) := kv in
  match find (fun lst => String.eqb (RemoteList.name lst) category) existing_lists with
  | Some existing_list =>
      let existing_desc := get_or "" (RemoteList.description existing_list) in
      m <- get_self ;;
      if negb (Py.truthy existing_desc) && auto_complete (summary_options m) then
        s <- generate_ai_summary category repos ;;
        ret (Py.dict_set String.eqb category s summaries)
      else if Py.truthy existing_desc && enhance_existing (summary_options m) then
        enhanced <- _enhance_existing_description existing_desc category repos ;;
        if negb (String.eqb enhanced existing_desc)
        then ret (Py.dict_set String.eqb category enhanced summaries)
        else ret (Py.dict_set String.eqb category existing_desc summaries)
      else ret (Py.dict_set String.eqb category existing_desc summaries)
  | None =>
      s <- generate_ai_summary category repos ;;
      ret (Py.dict_set String.eqb category s summaries)
  end.

Definition complete_list_summaries (existing_lists : list RemoteList.t)
    (repos_by_category : Py.dict string (list Repo.t)) : M (Py.dict string string) :=
  fold_M (complete_one existing_lists) repos_by_category [].

(** ** [ManageStarListsNode] *)

Definition dry_run_result (repos : list Repo.t) (enhanced : string) : OperationResult :=
  {| success := true; action := Some "dry_run"; list_id := None;
     repos_added := None; repos_count := Some (List.length repos);
     repos := Some (map Repo.full_name repos);
     error := None; enhanced_description := Some enhanced |}.

Definition with_description (r : OperationResult) (enhanced : string) : OperationResult :=
  {| success := success r; action := action r; list_id := list_id r;
     repos_added := repos_added r; repos_count := repos_count r; repos := repos r;
     error := error r; enhanced_description := Some enhanced |}.

(** One turn of the loop of [ManageStarListsNode.exec]. *)
Definition manage_one (is_dry_run : bool) (enhanced_summaries : Py.dict string string)
    (results : Py.dict string OperationResult) (kv : string * list Repo.t)
  : M (Py.dict string OperationResult) :=
  let '(category, repos) := kv in
  if negb (nonempty repos) then ret results
  else
    let enhanced := match Py.dict_get String.eqb category enhanced_summaries with
                    | Some d => d
                    | None => ""
                    end in
    if is_dry_run then
      ret (Py.dict_set String.eqb category (dry_run_result repos enhanced) results)
    else
      try_except
        (result <- create_or_update_list category enhanced repos ;;
         ret (Py.dict_set String.eqb category (with_description result enhanced) results))
        (fun e => ret (Py.dict_set String.eqb category (error_result e) results)).

Record ManageOutput : Type := {
  organized_repos : Py.dict string (list Repo.t);
  operation_results : Py.dict string OperationResult;
  enhanced_summaries : Py.dict string string
}.

Definition has_overrides (o : SummaryOverrides) : bool :=
  match o_auto_complete o, o_enhance_existing o, o_use_ai_summary o, o_include_stats o with
  | None, None, None, None => false
  | _, _, _, _ => true
  end.

(** [ManageStarListsNode.exec] *)
Definition manage_exec (classification_results : Py.dict string (Classification.t string))
    (starred : list Repo.t) (is_dry_run : bool) (cfg : Config) : M ManageOutput :=
  set_self new_manager ;;;
  (if has_overrides (config_summary_options cfg)
   then set_summary_options (config_summary_options cfg)
   else ret tt) ;;;
  existing_lists <- get_existing_lists ;;
  let organized := organize_repos_by_category String.eqb classification_results starred in
  summaries <- complete_list_summaries existing_lists organized ;;
  results <- fold_M (manage_one is_dry_run summaries) organized [] ;;
  ret {| organized_repos := organized; operation_results := results;
         enhanced_summaries := summaries |}.

(** ** Words of the specification about the program *)

(** The state after the gateway answered [prompt]. *)
Definition after_llm (prompt : string) (st : State W) : State W :=
  {| gateway := snd (call_llm_with_config prompt (gateway st));
     trace := trace st ++ [LlmCall prompt];
     self := self st |}.

(** What the classifier makes of the gateway's answer. *)
Definition classification_of (outcome : Result string) : Classification.t yaml :=
  match outcome with
  | Ok response => _parse_ai_response response
  | Raise e => sentinel ("Analysis failed: " ++ e)
  end.

Definition item_prompt (it : item) : string :=
  let '(repo, existing, mode, _) := it in
  build_prompt {| analyzer_categories := existing |} repo mode.

(** Kinds of host calls. *)
Definition is_create (c : Call) : bool :=
  match c with CreateStarList _ _ => true | _ => false end.

Definition is_update (c : Call) : bool :=
  match c with UpdateStarList _ _ => true | _ => false end.

Definition is_add (c : Call) : bool :=
  match c with AddReposToList _ _ => true | _ => false end.

(** The calls that change something on the host. *)
Definition mutating (c : Call) : bool := is_create c || is_update c || is_add c.

(** The description a list has in the cache: [existing_list.get("description", "")]. *)
Definition cached_description (existing_list : RemoteList.t) : string :=
  get_or "" (RemoteList.description existing_list).

(** Whether an update of an existing list pushes the decided description:
    it is not empty and it is not the cached one. *)
Definition pushes_description (existing_list : RemoteList.t) (description : string) : bool :=
  Py.truthy description && negb (String.eqb description (cached_description existing_list)).

(** The known languages of the repositories of a group, one per repository
    that has one, in the order of the group. *)
Definition known_languages (repos : list Repo.t) : list string :=
  flat_map (fun repo => match known_language repo with
                        | Some lang => [lang]
                        | None => []
                        end) repos.

(** The number of repositories with a language. *)
Definition repo_count (langs : list string) (lang : string) : nat :=
  count_occ string_dec langs lang.

(** The position at which a language is first encountered. *)
Fixpoint first_index (langs : list string) (lang : string) : nat :=
  match langs with
  | [] => 0
  | l :: rest => if String.eqb l lang then 0 else S (first_index rest lang)
  end.

(** [a] ranks before [b]: more repositories, or as many and encountered
    first. *)
Definition ranks_before (langs : list string) (a b : string) : Prop :=
  repo_count langs b < repo_count langs a
  \/ (repo_count langs a = repo_count langs b /\ first_index langs a < first_index langs b).

(** A ranking of the languages of a group: each known language once, by
    decreasing number of repositories, ties in the order of first encounter. *)
Definition is_language_ranking (repos : list Repo.t) (ranking : list string) : Prop :=
  NoDup ranking
  /\ (forall lang, In lang ranking <-> In lang (known_languages repos))
  /\ StronglySorted (ranks_before (known_languages repos)) ranking.

(** The fallback description, given the ranking of the languages. *)
Definition fallback_description (opts : SummaryOptions) (category : string)
    (repos : list Repo.t) (ranking : list string) : string :=
  ("Auto-categorized " ++ category ++ " repositories ("
     ++ Py.str_of_nat (List.length repos) ++ " repos)"
     ++ (if nonempty ranking
         then " - Main languages: " ++ Py.join ", " (firstn 3 ranking)
         else "")
     ++ (if include_stats opts && (0 <? sum_stars repos)%Z
         then " - Total stars: " ++ Py.format_thousands (sum_stars repos)
         else ""))%string.

(** What the counting loop maintains: the dictionary holds each language
    encountered so far once, with its number of repositories, in the order of
    first encounter. *)
Definition counted (langs : list string) (d : Py.dict string nat) : Prop :=
  NoDup (Py.keys d)
  /\ (forall lang, In lang (Py.keys d) <-> In lang langs)
  /\ (forall lang n, In (lang, n) d -> n = repo_count langs lang)
  /\ StronglySorted (fun a b => first_index langs a < first_index langs b) (Py.keys d).

(** The order of the sorted items: by decreasing count, ties in the order of
    first encounter of the language. *)
Definition item_before (langs : list string) (p q : string * nat) : Prop :=
  snd q < snd p
  \/ (snd p = snd q /\ first_index langs (fst p) < first_index langs (fst q)).

(** Building a dictionary from pairs, as a loop of assignments does. *)
Definition assign_all {V : Type} (l : list (string * V)) (d : Py.dict string V)
  : Py.dict string V :=
  fold_left (fun acc kv => Py.dict_set String.eqb (fst kv) (snd kv) acc) l d.

Definition item_name (it : item) : string :=
  let '(repo, _, _, _) := it in Repo.full_name repo.

(** The results of a batch, item by item, and the state it ends in. *)
Fixpoint batch_results (items : list item) (st : State W)
  : list (string * Classification.t yaml) :=
  match items with
  | [] => []
  | it :: rest =>
      (item_name it,
       classification_of (fst (call_llm_with_config (item_prompt it) (gateway st))))
      :: batch_results rest (after_llm (item_prompt it) st)
  end.

Fixpoint batch_state (items : list item) (st : State W) : State W :=
  match items with
  | [] => st
  | it :: rest => batch_state rest (after_llm (item_prompt it) st)
  end.

(** The classification of an item fails when the gateway call raises or the
    response does not parse; the detail is what the sentinel's reason holds. *)
Definition failure_detail (it : item) (w : W) : option string :=
  match call_llm_with_config (item_prompt it) w with
  | (Raise e, _) => Some ("Analysis failed: " ++ e)%string
  | (Ok response, _) =>
      match parse_body response with
      | Raise e => Some ("Failed to parse AI response: " ++ e)%string
      | Ok _ => None
      end
  end.

Definition is_mapping (v : yaml) : bool :=
  match v with YMap _ => true | _ => false end.

Definition or_default (d : yaml) (o : option yaml) : yaml :=
  match o with Some v => v | None => d end.

(** The value [float()] is applied to: [result.get("confidence", 0.5)]. *)
Definition supplied_confidence (entries : list (yaml * yaml)) : yaml :=
  or_default (YFloat 0.5%float) (yaml_get "confidence" entries).

(** ** The rest of the list manager and of the stages *)

(** What [_get_repository_stats] returns. *)
Record RepositoryStats : Type := {
  stats_count : nat;
  stats_languages : Py.dict string nat;
  stats_total_stars : Z;
  stats_topics : Py.dict string nat;
  stats_top_languages : list (string * nat);
  stats_top_topics : list (string * nat)
}.

(** [topics[topic] = topics.get(topic, 0) + 1], for every topic of a
    repository. *)
Definition count_topics (topics : Py.dict string nat) (repo_topics : list string)
  : Py.dict string nat :=
  fold_left count_language repo_topics topics.

(** One turn of the loop of [_get_repository_stats], on the three running
    values: the languages, the stars and the topics. *)
Definition stats_step (acc : Py.dict string nat * Z * Py.dict string nat) (repo : Repo.t)
  : Py.dict string nat * Z * Py.dict string nat :=
  let '(languages, stars, topics) := acc in
  (match known_language repo with
   | Some lang => count_language languages lang
   | None => languages
   end,
   (stars + match Repo.stargazers_count repo with Some n => n | None => 0 end)%Z,
   count_topics topics (Repo.topics repo)).

(** [StarListManager._get_repository_stats] *)
Definition _get_repository_stats (repos : list Repo.t) : RepositoryStats :=
  let '(languages, stars, topics) := fold_left stats_step repos ([], 0%Z, []) in
  {| stats_count := List.length repos;
     stats_languages := languages;
     stats_total_stars := stars;
     stats_topics := topics;
     stats_top_languages := firstn 3 (Py.sorted_desc snd languages);
     stats_top_topics := firstn 5 (Py.sorted_desc snd topics) |}.

(** The class has no method [_generate_list_description]: looking it up raises
    [AttributeError] with this message. *)
Definition no_generate_list_description : string :=
  "'StarListManager' object has no attribute '_generate_list_description'".

Definition batch_dry_run_result (repos : list Repo.t) : OperationResult :=
  {| success := true; action := Some "dry_run"; list_id := None;
     repos_added := None; repos_count := Some (List.length repos);
     repos := Some (map Repo.full_name repos);
     error := None; enhanced_description := None |}.

(** One turn of the loop of [execute_batch_operations]. *)
Definition execute_one (is_dry_run : bool)
    (results : Py.dict string OperationResult) (kv : string * list Repo.t)
  : M (Py.dict string OperationResult) :=
  let '(category, repos) := kv in
  if negb (nonempty repos) then ret results
  else
    try_except
      (if is_dry_run then
         ret (Py.dict_set String.eqb category (batch_dry_run_result repos) results)
       else
         description <- raise no_generate_list_description ;;
         result <- create_or_update_list category description repos ;;
         ret (Py.dict_set String.eqb category result results))
      (fun e => ret (Py.dict_set String.eqb category (error_result e) results)).

(** [StarListManager.execute_batch_operations] *)
Definition execute_batch_operations (organized : Py.dict string (list Repo.t))
    (is_dry_run : bool) : M (Py.dict string OperationResult) :=
  fold_M (execute_one is_dry_run) organized [].

(** What [ModeDecisionNode.exec] returns. *)
Record ModeDecision : Type := {
  decided_mode : string;
  decided_lists : list RemoteList.t;
  decided_categories : list string
}.

(** [ModeDecisionNode.exec] *)
Definition mode_decision_exec (requested : string) : M ModeDecision :=
  if String.eqb requested "existing_lists" then
    set_self new_manager ;;;
    existing_lists <- get_existing_lists ;;
    ret {| decided_mode := requested;
           decided_lists := existing_lists;
           decided_categories := map RemoteList.name existing_lists |}
  else ret {| decided_mode := "auto"; decided_lists := []; decided_categories := [] |}.

(** ** Words for the properties of this code *)

(** The starred repository of a full name: the last one, as in the lookup
    table of [organize_repos_by_category]. *)
Definition starred_named (starred : list Repo.t) (full_name : string) : option Repo.t :=
  find (fun repo => String.eqb (Repo.full_name repo) full_name) (rev starred).

(** The repository a classification entry stands for, if it is starred. *)
Definition entry_repo {V : Type} (starred : list Repo.t)
    (kv : string * Classification.t V) : list Repo.t :=
  match starred_named starred (fst kv) with
  | Some repo => [repo]
  | None => []
  end.

(** The repositories of the entries classified in [category], in the order of
    the entries. *)
Definition members (starred : list Repo.t)
    (classification : Py.dict string (Classification.t string)) (category : string)
  : list Repo.t :=
  flat_map (fun kv => if String.eqb (Classification.category (snd kv)) category
                      then entry_repo starred kv else [])
    classification.

(** The list of a name that the cache holds after a fetch: the last one. *)
Definition list_named (lists : list RemoteList.t) (name : string) : option RemoteList.t :=
  find (fun lst => String.eqb (RemoteList.name lst) name) (rev lists).

(** The summary decided for a category without the model. *)
Definition offline_summary (opts : SummaryOptions) (existing_lists : list RemoteList.t)
    (kv : string * list Repo.t) : string :=
  match find (fun lst => String.eqb (RemoteList.name lst) (fst kv)) existing_lists with
  | Some existing_list =>
      if Py.truthy (cached_description existing_list) then cached_description existing_list
      else if auto_complete opts
           then _generate_basic_description opts (fst kv) (snd kv)
           else ""
  | None => _generate_basic_description opts (fst kv) (snd kv)
  end.

Definition is_llm (c : Call) : bool :=
  match c with LlmCall _ => true | _ => false end.

Definition not_excluded (cfg : Config) (repo : Repo.t) : bool :=
  negb (existsb (String.eqb (Repo.full_name repo)) (exclude_repos cfg)).

(** The lists [get_existing_lists] returns: those of the host, none when the
    call fails. *)
Definition fetched_lists (st : State W) : list RemoteList.t :=
  match fst (get_user_lists (gateway st)) with
  | Ok lists => lists
  | Raise _ => []
  end.

(** [enhanced_summaries.get(category, "")] *)
Definition decided_description (summaries : Py.dict string string) (category : string)
  : string :=
  match Py.dict_get String.eqb category summaries with
  | Some d => d
  | None => ""
  end.

Definition is_listed (lists : list RemoteList.t) (name : string) : bool :=
  match list_named lists name with
  | Some _ => true
  | None => false
  end.

(* ================================================================== *)
(** * Properties *)
(* ================================================================== *)

(** ** The built-ins on examples *)

Example strip_example : Py.strip "  a b
 " = "a b".
Proof. reflexivity. Qed.

Example split_example : Py.split "ab" "xabyabab" = ["x"; "y"; ""; ""].
Proof. reflexivity. Qed.

Example split_overlap_example : Py.split "aa" "aaa" = [""; "a"].
Proof. reflexivity. Qed.

Example join_example : Py.join ", " ["Python"; "Go"] = "Python, Go".
Proof. reflexivity. Qed.

Example format_thousands_example :
  map Py.format_thousands [0; 16; 999; 1000; 1234567; -1234]%Z
  = ["0"; "16"; "999"; "1,000"; "1,234,567"; "-1,234"].
Proof. reflexivity. Qed.

Example sorted_desc_example :
  Py.sorted_desc snd [("a", 1); ("b", 2); ("c", 1); ("d", 2)]
  = [("b", 2); ("d", 2); ("a", 1); ("c", 1)].
Proof. reflexivity. Qed.

Example dict_set_example :
  Py.dict_set String.eqb "a" 3 [("a", 1); ("b", 2)] = [("a", 3); ("b", 2)]
  /\ Py.dict_set String.eqb "c" 3 [("a", 1); ("b", 2)] = [("a", 1); ("b", 2); ("c", 3)].
Proof. split; reflexivity. Qed.

Example float_of_Z_example :
  float_of_Z 2 = Ok 2%float
  /\ float_of_Z (2 ^ 53 + 1) = Ok 9007199254740992%float
  /\ float_of_Z (-3) = Ok (-3)%float.
Proof. repeat split; reflexivity. Qed.

Example payload_example :
  payload "Here it is:
```yaml
category: Tools
```
Done." = "category: Tools"
  /\ payload "```
category: Tools
```" = "category: Tools"
  /\ payload " category: Tools " = "category: Tools".
Proof. repeat split; reflexivity. Qed.

(** ** Splitting a string *)

Lemma drop_empty (n : nat) : drop n EmptyString = EmptyString.
Proof. destruct n; reflexivity. Qed.

(** Dropping the rest of a matched separator and splitting is splitting what
    follows the separator. *)
Lemma split_from_drop (sep : string) (s : string) :
  forall k, Py.split_from sep k s = Py.split_from sep 0 (drop k s).
Proof.
  induction s as [|c s IH]; intros k.
  - rewrite drop_empty. reflexivity.
  - destruct k as [|k].
    + reflexivity.
    + change (Py.split_from sep (S k) (String c s)) with (Py.split_from sep k s).
      change (drop (S k) (String c s)) with (drop k s).
      apply IH.
Qed.

(** The first piece of a split is the text before the first separator; the
    other pieces are the split of the text after it. *)
Lemma split_unfold (a : ascii) (sep' : string) (s : string) :
  let sep := String a sep' in
  Py.split sep s =
  before_first sep s ::
  match after_first sep s with
  | Some rest => Py.split sep rest
  | None => []
  end.
Proof.
  intros sep. unfold Py.split.
  induction s as [|c s IH].
  - reflexivity.
  - cbn [Py.split_from before_first after_first].
    destruct (prefix sep (String c s)) eqn:Hp.
    + f_equal. rewrite split_from_drop.
      unfold sep. cbn [String.length drop Nat.sub]. rewrite Nat.sub_0_r. reflexivity.
    + rewrite IH. reflexivity.
Qed.

Lemma contains_after_first (a : ascii) (sep' : string) (s : string) :
  Py.contains (String a sep') s =
  match after_first (String a sep') s with Some _ => true | None => false end.
Proof.
  induction s as [|c s IH].
  - reflexivity.
  - cbn [Py.contains after_first].
    destruct (prefix (String a sep') (String c s)); [reflexivity|].
    cbn [orb]. exact IH.
Qed.

Lemma prefix_trans (a b c : string) :
  prefix a b = true -> prefix b c = true -> prefix a c = true.
Proof.
  revert b c. induction a as [|x a IH]; intros b c Hab Hbc.
  - destruct c; reflexivity.
  - destruct b as [|y b]; [discriminate|].
    destruct c as [|z c]; [discriminate|].
    cbn in *.
    destruct (ascii_dec x y); [|discriminate].
    destruct (ascii_dec y z); [|discriminate].
    subst. destruct (ascii_dec z z); [|congruence].
    eapply IH; eassumption.
Qed.

Lemma before_first_prefix (sep s : string) : prefix (before_first sep s) s = true.
Proof.
  induction s as [|c s IH]; cbn [before_first].
  - destruct (prefix sep EmptyString); reflexivity.
  - destruct (prefix sep (String c s)); [reflexivity|].
    cbn. destruct (ascii_dec c c); congruence.
Qed.

(** No separator is left in the text before the first separator. *)
Lemma before_first_idem (sep s : string) :
  before_first sep (before_first sep s) = before_first sep s.
Proof.
  induction s as [|c s IH].
  - cbn [before_first]. destruct (prefix sep EmptyString) eqn:E; cbn [before_first]; rewrite ?E; reflexivity.
  - cbn [before_first].
    destruct (prefix sep (String c s)) eqn:Hp.
    + cbn [before_first]. destruct (prefix sep EmptyString); reflexivity.
    + cbn [before_first].
      destruct (prefix sep (String c (before_first sep s))) eqn:Hq.
      * assert (prefix sep (String c s) = true).
        { eapply prefix_trans; [exact Hq|].
          cbn. destruct (ascii_dec c c); [|congruence]. apply before_first_prefix. }
        congruence.
      * rewrite IH. reflexivity.
Qed.

Lemma split_head (a : ascii) (sep' : string) (s : string) :
  index (Py.split (String a sep') s) 0 = Ok (before_first (String a sep') s).
Proof. rewrite split_unfold. reflexivity. Qed.

Lemma split_second (a : ascii) (sep' : string) (s rest : string) :
  after_first (String a sep') s = Some rest ->
  index (Py.split (String a sep') s) 1 = Ok (before_first (String a sep') rest).
Proof.
  intros H. rewrite split_unfold. rewrite H.
  unfold index. cbn [nth_error]. rewrite split_unfold. reflexivity.
Qed.

(** ** The text handed to the YAML loader *)

Lemma yaml_part_payload (response : string) :
  yaml_part response = Ok (payload response).
Proof.
  unfold yaml_part, payload, yaml_tag, fence.
  rewrite !contains_after_first.
  destruct (after_first "```yaml" response) as [rest|] eqn:Htag.
  - rewrite (split_second _ _ _ _ Htag). cbn [bindR].
    rewrite split_head. reflexivity.
  - destruct (after_first "```" response) as [rest|] eqn:Hfence.
    + rewrite (split_second _ _ _ _ Hfence). cbn [bindR].
      rewrite split_head. cbn [bindR]. rewrite before_first_idem. reflexivity.
    + reflexivity.
Qed.

(** ** The response parser *)

Lemma parse_body_load (response : string) :
  parse_body response =
  (result <~ yaml_safe_load (payload response) ;;
   match result with
   | YMap entries =>
       match yaml_get "category" entries with
       | None => Raise "Missing 'category' field"
       | Some cat =>
           conf <~ py_float (or_default (YFloat 0.5%float) (yaml_get "confidence" entries)) ;;
           Ok (Classification.mk cat
                 (or_default (YStr "No reason provided") (yaml_get "reason" entries)) conf)
       end
   | _ => Raise "Response is not a valid dictionary"
   end).
Proof. unfold parse_body. rewrite yaml_part_payload. reflexivity. Qed.

(** C5, as the code has it.  The parser hands to the YAML loader the block
    after the first yaml tag if there is one, else the content of the first
    fenced block, else the whole response, stripped.  It takes the failure path
    when the loader raises, when the loaded value is not a mapping, when the
    mapping has no key "category", and when float() rejects the confidence the
    mapping gives.  Otherwise the result carries the category, the reason
    (default "No reason provided") and the confidence (default 0.5) coerced
    with float(). *)
Theorem parse_ai_response_policy (response : string) :
  yaml_part response = Ok (payload response)
  /\ (forall e, yaml_safe_load (payload response) = Raise e ->
        _parse_ai_response response = sentinel ("Failed to parse AI response: " ++ e))
  /\ (forall v, yaml_safe_load (payload response) = Ok v -> is_mapping v = false ->
        _parse_ai_response response
        = sentinel "Failed to parse AI response: Response is not a valid dictionary")
  /\ (forall entries,
        yaml_safe_load (payload response) = Ok (YMap entries) ->
        yaml_get "category" entries = None ->
        _parse_ai_response response
        = sentinel "Failed to parse AI response: Missing 'category' field")
  /\ (forall entries cat,
        yaml_safe_load (payload response) = Ok (YMap entries) ->
        yaml_get "category" entries = Some cat ->
        (forall c, py_float (supplied_confidence entries) = Ok c ->
           _parse_ai_response response
           = Classification.mk cat
               (or_default (YStr "No reason provided") (yaml_get "reason" entries)) c)
        /\ (forall e, py_float (supplied_confidence entries) = Raise e ->
              _parse_ai_response response
              = sentinel ("Failed to parse AI response: " ++ e))
        /\ (yaml_get "confidence" entries = None ->
            Classification.confidence (_parse_ai_response response) = 0.5%float)
        /\ (yaml_get "reason" entries = None ->
            forall c, py_float (supplied_confidence entries) = Ok c ->
            Classification.reason (_parse_ai_response response) = YStr "No reason provided")).
Proof.
  split; [apply yaml_part_payload|].
  unfold _parse_ai_response. rewrite parse_body_load.
  split; [|split; [|split]].
  - intros e He. rewrite He. reflexivity.
  - intros v Hv Hm. rewrite Hv. destruct v; try discriminate; reflexivity.
  - intros entries Hl Hc. rewrite Hl. cbn [bindR]. rewrite Hc. reflexivity.
  - intros entries cat Hl Hcat.
    rewrite Hl. cbn [bindR]. rewrite Hcat.
    fold (supplied_confidence entries).
    split; [|split; [|split]].
    + intros c Hc. rewrite Hc. reflexivity.
    + intros e He. rewrite He. reflexivity.
    + intros Hn. unfold supplied_confidence. rewrite Hn. reflexivity.
    + intros Hn c Hc. rewrite Hc. cbn. rewrite Hn. reflexivity.
Qed.

(** ** Dictionaries keyed by strings *)

Section DictFacts.
Context {V : Type}.
Implicit Types (d : Py.dict string V) (k : string) (v : V).

Lemma dict_get_set_same d k v :
  Py.dict_get String.eqb k (Py.dict_set String.eqb k v d) = Some v.
Proof.
  induction d as [|[k' v'] d IH]; cbn.
  - rewrite String.eqb_refl. reflexivity.
  - destruct (String.eqb k' k) eqn:E; cbn; rewrite E; [reflexivity|exact IH].
Qed.

Lemma dict_get_set_other d k k' v :
  k <> k' ->
  Py.dict_get String.eqb k (Py.dict_set String.eqb k' v d) = Py.dict_get String.eqb k d.
Proof.
  intros Hne. induction d as [|[k0 v0] d IH]; cbn.
  - destruct (String.eqb_spec k' k); [congruence|reflexivity].
  - destruct (String.eqb_spec k0 k'); cbn.
    + subst k0. destruct (String.eqb_spec k' k); [congruence|reflexivity].
    + rewrite IH. reflexivity.
Qed.

Lemma dict_get_none_keys d k :
  Py.dict_get String.eqb k d = None <-> ~ In k (Py.keys d).
Proof.
  induction d as [|[k' v'] d IH]; cbn.
  - tauto.
  - destruct (String.eqb_spec k' k).
    + split; [discriminate|]. intros H. exfalso. apply H. left. assumption.
    + rewrite IH. tauto.
Qed.

Lemma dict_get_in d k v :
  Py.dict_get String.eqb k d = Some v -> In (k, v) d.
Proof.
  induction d as [|[k' v'] d IH]; cbn; [discriminate|].
  destruct (String.eqb_spec k' k).
  - intros [= ->]. subst. left. reflexivity.
  - intros H. right. apply IH, H.
Qed.

Lemma dict_set_absent d k v :
  Py.dict_get String.eqb k d = None ->
  Py.dict_set String.eqb k v d = d ++ [(k, v)].
Proof.
  induction d as [|[k' v'] d IH]; cbn; [reflexivity|].
  destruct (String.eqb k' k); [discriminate|].
  intros H. rewrite (IH H). reflexivity.
Qed.

Lemma keys_dict_set_present d k v v0 :
  Py.dict_get String.eqb k d = Some v0 ->
  Py.keys (Py.dict_set String.eqb k v d) = Py.keys d.
Proof.
  unfold Py.keys.
  induction d as [|[k' v'] d IH]; cbn; [discriminate|].
  destruct (String.eqb k' k); cbn; [reflexivity|].
  intros H. rewrite (IH H). reflexivity.
Qed.

Lemma in_dict_set d k v k1 v1 :
  In (k1, v1) (Py.dict_set String.eqb k v d) ->
  (k1 = k /\ v1 = v) \/ In (k1, v1) d.
Proof.
  induction d as [|[k' v'] d IH]; cbn.
  - intros [[= <- <-]|[]]. left. split; reflexivity.
  - destruct (String.eqb_spec k' k); cbn.
    + intros [[= <- <-]|H]; [left; split; congruence|right; right; exact H].
    + intros [H|H]; [right; left; exact H|].
      destruct (IH H) as [?|?]; [left; assumption|right; right; assumption].
Qed.

Lemma in_dict_set_nodup d k v k1 v1 :
  NoDup (Py.keys d) ->
  In (k1, v1) (Py.dict_set String.eqb k v d) ->
  (k1 = k /\ v1 = v) \/ (k1 <> k /\ In (k1, v1) d).
Proof.
  unfold Py.keys.
  induction d as [|[k' v'] d IH]; cbn; intros Hnd.
  - intros [[= <- <-]|[]]. left. split; reflexivity.
  - inversion Hnd as [|? ? Hnotin Hnd']; subst.
    destruct (String.eqb_spec k' k); cbn.
    + subst k'. intros [[= <- <-]|H]; [left; split; reflexivity|].
      right. split; [|right; exact H].
      intros ->. apply Hnotin. apply (in_map fst) in H. exact H.
    + intros [[= <- <-]|H]; [right; split; [assumption|left; reflexivity]|].
      destruct (IH Hnd' H) as [?|[? ?]]; [left; assumption|right; split; [assumption|]].
      right. assumption.
Qed.

Lemma assign_all_cons k v l d :
  assign_all ((k, v) :: l) d = assign_all l (Py.dict_set String.eqb k v d).
Proof. reflexivity. Qed.

Lemma assign_all_app l1 l2 d :
  assign_all (l1 ++ l2) d = assign_all l2 (assign_all l1 d).
Proof. apply fold_left_app. Qed.

Lemma assign_all_other l d k :
  ~ In k (map fst l) ->
  Py.dict_get String.eqb k (assign_all l d) = Py.dict_get String.eqb k d.
Proof.
  revert d. induction l as [|[k' v'] l IH]; intros d Hn; [reflexivity|].
  rewrite assign_all_cons. cbn in Hn. rewrite IH by tauto.
  apply dict_get_set_other. intros ->. apply Hn. left. reflexivity.
Qed.

Lemma assign_all_last l1 l2 d k v :
  ~ In k (map fst l2) ->
  Py.dict_get String.eqb k (assign_all (l1 ++ (k, v) :: l2) d) = Some v.
Proof.
  intros Hn. rewrite assign_all_app, assign_all_cons.
  rewrite assign_all_other by exact Hn.
  apply dict_get_set_same.
Qed.

Lemma assign_all_keeps l d k :
  Py.dict_mem String.eqb k d = true ->
  Py.dict_mem String.eqb k (assign_all l d) = true.
Proof.
  revert d. induction l as [|[k' v'] l IH]; intros d H; [exact H|].
  rewrite assign_all_cons. apply IH. unfold Py.dict_mem in *.
  destruct (String.eqb_spec k k').
  - subst. rewrite dict_get_set_same. reflexivity.
  - rewrite dict_get_set_other by assumption. exact H.
Qed.

Lemma assign_all_mem l d k :
  In k (map fst l) -> Py.dict_mem String.eqb k (assign_all l d) = true.
Proof.
  revert d. induction l as [|[k' v'] l IH]; intros d H; cbn in H; [contradiction|].
  rewrite assign_all_cons.
  destruct (String.eqb_spec k' k) as [->|Hne].
  - apply assign_all_keeps. unfold Py.dict_mem. rewrite dict_get_set_same. reflexivity.
  - apply IH. destruct H; [congruence|assumption].
Qed.

Lemma assign_all_in l d k v :
  In (k, v) (assign_all l d) -> In (k, v) l \/ In (k, v) d.
Proof.
  revert d. induction l as [|[k' v'] l IH]; intros d H; [right; exact H|].
  rewrite assign_all_cons in H.
  destruct (IH _ H) as [?|H1]; [left; right; assumption|].
  destruct (in_dict_set _ _ _ _ _ H1) as [[-> ->]|?]; [left; left; reflexivity|right; assumption].
Qed.
End DictFacts.

(** ** The classifier *)

Lemma analyze_post_assign (l : list (string * Classification.t yaml)) :
  analyze_post l = assign_all l [].
Proof. reflexivity. Qed.

(** The classifier makes one gateway call and never raises. *)
Lemma analyze_repository_run (repo : Repo.t) (existing : list string) (mode : string)
    (st : State W) :
  let prompt := build_prompt {| analyzer_categories := existing |} repo mode in
  analyze_repository repo existing mode st =
  (Ok (classification_of (fst (call_llm_with_config prompt (gateway st)))),
   after_llm prompt st).
Proof.
  cbv zeta.
  unfold analyze_repository, analyze_repository_method, try_except, bind, llm, call,
    ret, after_llm.
  destruct (call_llm_with_config _ (gateway st)) as [[response|e] w]; reflexivity.
Qed.

Lemma analyze_exec_run (it : item) (st : State W) :
  analyze_exec it st =
  (Ok (item_name it,
       classification_of (fst (call_llm_with_config (item_prompt it) (gateway st)))),
   after_llm (item_prompt it) st).
Proof.
  destruct it as [[[repo existing] mode] cfg].
  unfold analyze_exec, try_except, bind. rewrite analyze_repository_run.
  reflexivity.
Qed.

Lemma batch_run (items : list item) (st : State W) :
  map_M analyze_exec items st = (Ok (batch_results items st), batch_state items st).
Proof.
  revert st. induction items as [|it rest IH]; intros st; cbn [map_M]; [reflexivity|].
  unfold bind at 1. rewrite analyze_exec_run.
  unfold bind at 1. rewrite IH. reflexivity.
Qed.

Lemma batch_results_names (items : list item) (st : State W) :
  map fst (batch_results items st) = map item_name items.
Proof.
  revert st. induction items as [|it rest IH]; intros st; cbn; [reflexivity|].
  rewrite IH. reflexivity.
Qed.

Lemma batch_state_trace (items : list item) (st : State W) :
  trace (batch_state items st) = trace st ++ map (fun it => LlmCall (item_prompt it)) items.
Proof.
  revert st. induction items as [|it rest IH]; intros st; cbn.
  - rewrite app_nil_r. reflexivity.
  - rewrite IH. cbn. rewrite <- app_assoc. reflexivity.
Qed.

Lemma failure_detail_sentinel (it : item) (w : W) (detail : string) :
  failure_detail it w = Some detail ->
  classification_of (fst (call_llm_with_config (item_prompt it) w)) = sentinel detail.
Proof.
  unfold failure_detail, classification_of, _parse_ai_response.
  destruct (call_llm_with_config (item_prompt it) w) as [[response|e] w']; cbn.
  - destruct (parse_body response); [discriminate|]. intros [= <-]. reflexivity.
  - intros [= <-]. reflexivity.
Qed.

Lemma batch_state_app (l1 l2 : list item) (st : State W) :
  batch_state (l1 ++ l2) st = batch_state l2 (batch_state l1 st).
Proof.
  revert st. induction l1 as [|it l1 IH]; intros st; cbn; [reflexivity|apply IH].
Qed.

Lemma batch_results_app (l1 l2 : list item) (st : State W) :
  batch_results (l1 ++ l2) st
  = batch_results l1 st ++ batch_results l2 (batch_state l1 st).
Proof.
  revert st. induction l1 as [|it l1 IH]; intros st; cbn; [reflexivity|].
  rewrite IH. reflexivity.
Qed.

(** C1.  When the gateway call or the parsing fails for an item of the batch,
    the classifier returns the sentinel (category "Uncategorized", confidence
    0.1, the failure detail as reason) and does not raise.  The batch then goes
    on: its results are those of the items before, the sentinel, and those of
    the items after, each computed from its own gateway answer; the mapping
    built from them has an entry for the repository, which is the sentinel
    when no later item has the same full name. *)
Theorem classifier_failure_is_isolated (pre post : list item) (repo : Repo.t)
    (existing : list string) (mode : string) (cfg : Config) (st : State W)
    (detail : string) :
  let it := (repo, existing, mode, cfg) in
  let st1 := batch_state pre st in
  failure_detail it (gateway st1) = Some detail ->
  map_M analyze_exec pre st = (Ok (batch_results pre st), st1)
  /\ analyze_repository repo existing mode st1
     = (Ok (sentinel detail), after_llm (item_prompt it) st1)
  /\ Classification.category (sentinel detail) = YStr "Uncategorized"
  /\ Classification.reason (sentinel detail) = YStr detail
  /\ Classification.confidence (sentinel detail) = 0.1%float
  /\ map_M analyze_exec post (after_llm (item_prompt it) st1)
     = (Ok (batch_results post (after_llm (item_prompt it) st1)),
        batch_state post (after_llm (item_prompt it) st1))
  /\ map_M analyze_exec (pre ++ it :: post) st
     = (Ok (batch_results pre st
            ++ (Repo.full_name repo, sentinel detail)
            :: batch_results post (after_llm (item_prompt it) st1)),
        batch_state post (after_llm (item_prompt it) st1))
  /\ Py.dict_mem String.eqb (Repo.full_name repo)
       (analyze_post (batch_results (pre ++ it :: post) st)) = true
  /\ (~ In (Repo.full_name repo) (map item_name post) ->
      Py.dict_get String.eqb (Repo.full_name repo)
        (analyze_post (batch_results (pre ++ it :: post) st))
      = Some (sentinel detail)).
Proof.
  intros it st1 Hfail.
  pose proof (failure_detail_sentinel it _ _ Hfail) as Hs.
  assert (Hres : batch_results (pre ++ it :: post) st
                 = batch_results pre st
                   ++ (Repo.full_name repo, sentinel detail)
                   :: batch_results post (after_llm (item_prompt it) st1)).
  { rewrite batch_results_app. cbn [batch_results]. fold st1. rewrite Hs. reflexivity. }
  split; [apply batch_run|].
  split; [rewrite analyze_repository_run; cbv zeta;
          change (build_prompt _ repo mode) with (item_prompt it); rewrite Hs; reflexivity|].
  split; [reflexivity|]. split; [reflexivity|]. split; [reflexivity|].
  split; [apply batch_run|].
  split.
  { rewrite batch_run, Hres. rewrite batch_state_app. reflexivity. }
  split.
  - apply (assign_all_mem (V := Classification.t yaml)).
    rewrite batch_results_names, map_app. apply in_or_app. right. left. reflexivity.
  - intros Hn. rewrite Hres.
    apply (assign_all_last (V := Classification.t yaml)).
    rewrite batch_results_names. exact Hn.
Qed.

(** ** Grouping by category *)

Section AnyKey.
Context {K V : Type} (eqb : K -> K -> bool).

Lemma dict_get_some_in (d : Py.dict K V) (k : K) (v : V) :
  Py.dict_get eqb k d = Some v -> exists k', In (k', v) d.
Proof.
  induction d as [|[k0 v0] d IH]; cbn; [discriminate|].
  destruct (eqb k0 k).
  - intros [= ->]. exists k0. left. reflexivity.
  - intros H. destruct (IH H) as [k' Hk]. exists k'. right. exact Hk.
Qed.

Lemma in_dict_set_value (d : Py.dict K V) (k k1 : K) (v v1 : V) :
  In (k1, v1) (Py.dict_set eqb k v d) -> v1 = v \/ In (k1, v1) d.
Proof.
  induction d as [|[k0 v0] d IH]; cbn.
  - intros [[= _ <-]|[]]. left. reflexivity.
  - destruct (eqb k0 k); cbn.
    + intros [[= _ <-]|H]; [left; reflexivity|right; right; exact H].
    + intros [H|H]; [right; left; exact H|].
      destruct (IH H); [left; assumption|right; right; assumption].
Qed.
End AnyKey.

(** The lookup table of [organize_repos_by_category] maps a full name to a
    starred repository of that name. *)
Lemma repo_map_sound (starred : list Repo.t) (k : string) (repo : Repo.t) :
  Py.dict_get String.eqb k
    (fold_left (fun d r => Py.dict_set String.eqb (Repo.full_name r) r d) starred []) = Some repo ->
  Repo.full_name repo = k /\ In repo starred.
Proof.
  intros H. apply dict_get_in in H.
  assert (G : forall l d, In (k, repo)
                (fold_left (fun d r => Py.dict_set String.eqb (Repo.full_name r) r d) l d) ->
              (Repo.full_name repo = k /\ In repo l) \/ In (k, repo) d).
  { induction l as [|r l IH]; intros d Hin; cbn in *; [right; exact Hin|].
    destruct (IH _ Hin) as [[? ?]|Hd]; [left; tauto|].
    destruct (in_dict_set _ _ _ _ _ Hd) as [[-> ->]|?]; [left; tauto|right; assumption]. }
  destruct (G _ _ H) as [?|[]]. assumption.
Qed.

(** Every repository of a group is a starred repository that has an entry in
    the classification mapping, and no group is empty. *)
Lemma organize_groups {V : Type} (key_eqb : V -> V -> bool)
    (classification : Py.dict string (Classification.t V)) (starred : list Repo.t) :
  Forall (fun kv =>
            snd kv <> [] /\
            Forall (fun repo => In repo starred /\
                                In (Repo.full_name repo) (Py.keys classification))
                   (snd kv))
         (organize_repos_by_category key_eqb classification starred).
Proof.
  unfold organize_repos_by_category.
  match goal with
  | |- context [fold_left ?f starred []] => set (repo_map := fold_left f starred [])
  end.
  set (P := fun (seen : list string) (kv : V * list Repo.t) =>
              snd kv <> [] /\
              Forall (fun repo => In repo starred /\ In (Repo.full_name repo) seen) (snd kv)).
  assert (G : forall l seen organized,
             Forall (P seen) organized ->
             Forall (P (seen ++ Py.keys l))
               (fold_left
                  (fun organized kv =>
                     match Py.dict_get String.eqb (fst kv) repo_map with
                     | Some repo =>
                         Py.dict_set key_eqb (Classification.category (snd kv))
                           (match Py.dict_get key_eqb (Classification.category (snd kv)) organized with
                            | Some g => g
                            | None => []
                            end ++ [repo]) organized
                     | None => organized
                     end) l organized)).
  { induction l as [|[k c] l IH]; intros seen organized Hinv; cbn [fold_left].
    - unfold Py.keys. cbn. rewrite app_nil_r. exact Hinv.
    - assert (Hmono : Forall (P (seen ++ [k])) organized).
      { eapply Forall_impl; [|exact Hinv]. intros kv [Hne Hall]. split; [exact Hne|].
        eapply Forall_impl; [|exact Hall]. cbn. intros r [? ?]. split; [assumption|].
        apply in_or_app. left. assumption. }
      replace (seen ++ Py.keys ((k, c) :: l)) with ((seen ++ [k]) ++ Py.keys l)
        by (unfold Py.keys; cbn; rewrite <- app_assoc; reflexivity).
      apply IH. cbn [fst snd].
      destruct (Py.dict_get String.eqb k repo_map) as [repo|] eqn:Hrepo; [|exact Hmono].
      apply repo_map_sound in Hrepo. destruct Hrepo as [Hname Hin].
      apply Forall_forall. intros [k1 g1] Hk1.
      apply in_dict_set_value in Hk1. destruct Hk1 as [->|Hold].
      + split; cbn [snd].
        * intros Habs. apply app_eq_nil in Habs. destruct Habs; discriminate.
        * apply Forall_app. split.
          -- destruct (Py.dict_get key_eqb (Classification.category c) organized) as [g|] eqn:Hg;
               [|constructor].
             apply dict_get_some_in in Hg. destruct Hg as [k' Hk'].
             rewrite Forall_forall in Hmono. exact (proj2 (Hmono _ Hk')).
          -- constructor; [|constructor]. split; [exact Hin|].
             apply in_or_app. right. left. symmetry. exact Hname.
      + rewrite Forall_forall in Hmono. exact (Hmono _ Hold). }
  exact (G classification [] [] (Forall_nil _)).
Qed.

(** C7.  A repository whose full name is in [exclude_repos] is not among the
    items handed to the classifier; the batch classification of the items
    returns, and its gateway calls are exactly those of the items, one each;
    the classification mapping that [post] stores from its results has no entry
    for that name; and no group built from that mapping holds a repository of
    that name. *)
Theorem excluded_repos_are_left_out (shared : Shared) (st : State W) (name : string) :
  In name (exclude_repos (config shared)) ->
  (forall it, In it (analyze_prep shared) -> item_name it <> name)
  /\ exists exec_res_list st',
       map_M analyze_exec (analyze_prep shared) st = (Ok exec_res_list, st')
       /\ trace st' = trace st ++ map (fun it => LlmCall (item_prompt it)) (analyze_prep shared)
       /\ Py.dict_get String.eqb name (analyze_post exec_res_list) = None
       /\ forall (key_eqb : yaml -> yaml -> bool) category group repo,
            In (category, group)
               (organize_repos_by_category key_eqb (analyze_post exec_res_list)
                  (starred_repos shared)) ->
            In repo group -> Repo.full_name repo <> name.
Proof.
  intros Hex.
  assert (Hitems : forall it, In it (analyze_prep shared) -> item_name it <> name).
  { intros it Hin. unfold analyze_prep in Hin. apply in_map_iff in Hin.
    destruct Hin as [repo [<- Hin]]. apply filter_In in Hin. destruct Hin as [_ Hkeep].
    cbn. intros Heq. apply negb_true_iff in Hkeep.
    assert (existsb (String.eqb (Repo.full_name repo)) (exclude_repos (config shared)) = true).
    { apply existsb_exists. exists name. split; [exact Hex|].
      rewrite Heq. apply String.eqb_refl. }
    congruence. }
  split; [exact Hitems|].
  exists (batch_results (analyze_prep shared) st), (batch_state (analyze_prep shared) st).
  assert (Hnone : Py.dict_get String.eqb name
                    (analyze_post (batch_results (analyze_prep shared) st)) = None).
  { rewrite analyze_post_assign, assign_all_other; [reflexivity|].
    rewrite batch_results_names. intros Hin. apply in_map_iff in Hin.
    destruct Hin as [it [Hn Hin]]. exact (Hitems it Hin Hn). }
  split; [apply batch_run|].
  split; [apply batch_state_trace|].
  split; [exact Hnone|].
  intros key_eqb category group repo Hgroup Hrepo Hname.
  pose proof (organize_groups key_eqb
                (analyze_post (batch_results (analyze_prep shared) st))
                (starred_repos shared)) as Hall.
  rewrite Forall_forall in Hall. destruct (Hall _ Hgroup) as [_ Hmem].
  rewrite Forall_forall in Hmem. destruct (Hmem _ Hrepo) as [_ Hkey].
  rewrite Hname in Hkey. apply dict_get_none_keys in Hnone. contradiction.
Qed.

(** C9, as the code has it.  The classifier always returns a result.  Its
    confidence is 0.1 in the sentinel, which is in the unit interval; otherwise
    it is float() of the value the response gives under "confidence", taken as
    it is: 0.5 when the response gives none, and the very float when it gives
    one, whether in the unit interval or not. *)
Theorem classifier_confidence (repo : Repo.t) (existing : list string) (mode : string)
    (st : State W) :
  exists r st',
    analyze_repository repo existing mode st = (Ok r, st')
    /\ ((exists detail,
           r = sentinel detail
           /\ Classification.confidence r = 0.1%float
           /\ in_unit_interval (Classification.confidence r) = true)
        \/ (exists response entries c,
              fst (call_llm_with_config
                     (build_prompt {| analyzer_categories := existing |} repo mode)
                     (gateway st)) = Ok response
              /\ yaml_safe_load (payload response) = Ok (YMap entries)
              /\ py_float (supplied_confidence entries) = Ok c
              /\ Classification.confidence r = c
              /\ (yaml_get "confidence" entries = None ->
                  c = 0.5%float /\ in_unit_interval c = true)
              /\ (forall f, yaml_get "confidence" entries = Some (YFloat f) -> c = f))).
Proof.
  eexists. eexists. split; [apply analyze_repository_run|].
  cbv zeta.
  destruct (fst (call_llm_with_config _ (gateway st))) as [response|e] eqn:Hcall;
    cbn [classification_of].
  2:{ left. eexists. split; [reflexivity|split; reflexivity]. }
  unfold _parse_ai_response. rewrite parse_body_load.
  destruct (yaml_safe_load (payload response)) as [v|e] eqn:Hload; cbn [bindR].
  2:{ left. eexists. split; [reflexivity|split; reflexivity]. }
  destruct v as [| | | | |items|entries];
    try solve [left; eexists; split; [reflexivity|split; reflexivity]].
  destruct (yaml_get "category" entries) as [cat|];
    [|left; eexists; split; [reflexivity|split; reflexivity]].
  fold (supplied_confidence entries).
  destruct (py_float (supplied_confidence entries)) as [c|e] eqn:Hc; cbn [bindR].
  - right. exists response, entries, c.
    split; [reflexivity|]. split; [exact Hload|]. split; [exact Hc|]. split; [reflexivity|].
    unfold supplied_confidence in Hc. split.
    + intros Hnone. rewrite Hnone in Hc. injection Hc as <-. split; reflexivity.
    + intros f Hf. rewrite Hf in Hc. injection Hc as <-. reflexivity.
  - left. eexists. split; [reflexivity|split; reflexivity].
Qed.

(** ** Creating and updating lists *)

Ltac run_manager :=
  cbv beta iota zeta delta
    [create_or_update_list _create_new_list _update_existing_list
     try_except bind call ret raise get_self set_cache set_self];
  cbn [gateway trace self _list_cache summary_options fst snd].

Ltac calls_are l :=
  cbn [gateway trace self _list_cache summary_options fst snd];
  exists l; cbn [filter is_update is_create is_add app];
  rewrite <- ?app_assoc; cbn [app]; rewrite ?app_nil_r;
  repeat split; intros;
  repeat match goal with
         | H : In _ (_ :: _) |- _ => destruct H as [<-|H]
         | H : In _ [] |- _ => destruct H
         | H : Ok _ = Ok _ |- _ => injection H as <-
         end;
  try discriminate; cbn [List.length nonempty]; rewrite ?length_map; try reflexivity.

(** The calls an update makes: the description is pushed when it is not empty
    and differs from the cached one, then the repositories are attached; no list
    is created and the manager is left as it was. *)
Lemma update_existing_list_calls (existing_list : RemoteList.t) (description : string)
    (repos : list Repo.t) (st : State W) :
  let lid := RemoteList.id existing_list in
  let ids := map Repo.id repos in
  let out := _update_existing_list existing_list description repos st in
  exists calls,
    trace (snd out) = trace st ++ calls
    /\ self (snd out) = self st
    /\ filter is_update calls
       = (if pushes_description existing_list description
          then [UpdateStarList lid description] else [])
    /\ filter is_create calls = []
    /\ (forall c, In c calls -> is_add c = true -> c = AddReposToList lid ids)
    /\ (forall r, fst out = Ok r ->
          r = ok_result "updated" lid (List.length repos)
          /\ filter is_add calls
             = (if nonempty repos then [AddReposToList lid ids] else [])).
Proof.
  cbv zeta. unfold pushes_description, cached_description. run_manager.
  destruct (Py.truthy description
            && negb (String.eqb description (get_or "" (RemoteList.description existing_list))));
    cbn [gateway trace self].
  - destruct (update_star_list _ description (gateway st)) as [[[]|e] w];
      cbn [gateway trace self fst snd].
    + destruct repos as [|repo repos]; cbn [nonempty map gateway trace self fst snd].
      * calls_are [UpdateStarList (RemoteList.id existing_list) description].
      * destruct (add_repos_to_list _ _ w) as [[[]|e] w']; cbn [gateway trace self fst snd];
          calls_are [UpdateStarList (RemoteList.id existing_list) description;
                     AddReposToList (RemoteList.id existing_list)
                       (Repo.id repo :: map Repo.id repos)].
    + calls_are [UpdateStarList (RemoteList.id existing_list) description].
  - destruct repos as [|repo repos]; cbn [nonempty map gateway trace self fst snd].
    + calls_are (@nil Call).
    + destruct (add_repos_to_list _ _ (gateway st)) as [[[]|e] w'];
        cbn [gateway trace self fst snd];
        calls_are [AddReposToList (RemoteList.id existing_list)
                     (Repo.id repo :: map Repo.id repos)].
Qed.

(** The calls a creation makes: one [create_star_list], then the repositories
    are attached; when it succeeds the new list is in the cache under its name. *)
Lemma create_new_list_calls (list_name description : string) (repos : list Repo.t)
    (st : State W) :
  let ids := map Repo.id repos in
  let out := _create_new_list list_name description repos st in
  exists calls,
    trace (snd out) = trace st ++ calls
    /\ filter is_create calls = [CreateStarList list_name description]
    /\ filter is_update calls = []
    /\ (forall e, fst out = Raise e -> self (snd out) = self st)
    /\ (forall r, fst out = Ok r ->
          exists new_list,
            r = ok_result "created" (RemoteList.id new_list) (List.length repos)
            /\ _list_cache (self (snd out))
               = Py.dict_set String.eqb list_name new_list (_list_cache (self st))
            /\ summary_options (self (snd out)) = summary_options (self st)
            /\ filter is_add calls
               = (if nonempty repos
                  then [AddReposToList (RemoteList.id new_list) ids] else [])).
Proof.
  cbv zeta. run_manager.
  destruct (create_star_list list_name description (gateway st)) as [[new_list|e] w];
    cbn [gateway trace self fst snd].
  - destruct repos as [|repo repos];
      cbn [nonempty map gateway trace self _list_cache summary_options fst snd].
    + calls_are [CreateStarList list_name description].
      exists new_list. repeat split.
    + destruct (add_repos_to_list _ _ w) as [[[]|e] w'];
        cbn [gateway trace self _list_cache summary_options fst snd];
        calls_are [CreateStarList list_name description;
                   AddReposToList (RemoteList.id new_list)
                     (Repo.id repo :: map Repo.id repos)].
      exists new_list. repeat split; cbn; rewrite ?length_map; reflexivity.
  - calls_are [CreateStarList list_name description].
Qed.

Lemma create_or_update_list_absent (list_name description : string)
    (repos : list Repo.t) (st : State W) :
  Py.dict_get String.eqb list_name (_list_cache (self st)) = None ->
  create_or_update_list list_name description repos st =
  match _create_new_list list_name description repos st with
  | (Ok r, st') => (Ok r, st')
  | (Raise e, st') => (Ok (error_result e), st')
  end.
Proof.
  intros H. unfold create_or_update_list, try_except, bind, get_self at 1.
  rewrite H. destruct (_create_new_list _ _ _ st) as [[r|e] st']; reflexivity.
Qed.

Lemma create_or_update_list_present (list_name description : string)
    (repos : list Repo.t) (st : State W) (existing_list : RemoteList.t) :
  Py.dict_get String.eqb list_name (_list_cache (self st)) = Some existing_list ->
  create_or_update_list list_name description repos st =
  match _update_existing_list existing_list description repos st with
  | (Ok r, st') => (Ok r, st')
  | (Raise e, st') => (Ok (error_result e), st')
  end.
Proof.
  intros H. unfold create_or_update_list, try_except, bind, get_self at 1.
  rewrite H. destruct (_update_existing_list _ _ _ st) as [[r|e] st']; reflexivity.
Qed.

(** [create_or_update_list] never raises. *)
Lemma create_or_update_list_total (list_name description : string)
    (repos : list Repo.t) (st : State W) :
  exists r, fst (create_or_update_list list_name description repos st) = Ok r.
Proof.
  destruct (Py.dict_get String.eqb list_name (_list_cache (self st))) as [l|] eqn:H.
  - rewrite (create_or_update_list_present _ _ _ _ _ H).
    destruct (_update_existing_list _ _ _ st) as [[r|e] st']; eexists; reflexivity.
  - rewrite (create_or_update_list_absent _ _ _ _ H).
    destruct (_create_new_list _ _ _ st) as [[r|e] st']; eexists; reflexivity.
Qed.


(** C10.  An update with an empty decided description never calls
    [update_star_list], whatever the cached description is; this holds for
    [_update_existing_list] and for [create_or_update_list] on a name that the
    cache holds. *)
Theorem empty_description_is_never_pushed (existing_list : RemoteList.t)
    (repos : list Repo.t) (st : State W) :
  pushes_description existing_list "" = false
  /\ (exists calls,
        trace (snd (_update_existing_list existing_list "" repos st)) = trace st ++ calls
        /\ filter is_update calls = [])
  /\ (forall list_name,
        Py.dict_get String.eqb list_name (_list_cache (self st)) = Some existing_list ->
        exists calls,
          trace (snd (create_or_update_list list_name "" repos st)) = trace st ++ calls
          /\ filter is_update calls = []).
Proof.
  destruct (update_existing_list_calls existing_list "" repos st)
    as [calls (Ht & _ & Hu & _)].
  cbv zeta in *. change (pushes_description existing_list "") with false in Hu.
  split; [reflexivity|].
  split; [exists calls; split; assumption|].
  intros list_name Hcache.
  rewrite (create_or_update_list_present _ _ _ _ _ Hcache).
  exists calls.
  destruct (_update_existing_list existing_list "" repos st) as [[r|e] st'];
    split; assumption.
Qed.

Lemma pushes_description_iff (existing_list : RemoteList.t) (description : string) :
  pushes_description existing_list description = true
  <-> description <> "" /\ description <> cached_description existing_list.
Proof.
  unfold pushes_description, Py.truthy.
  rewrite andb_true_iff, !negb_true_iff.
  destruct (String.eqb_spec description ""), (String.eqb_spec description
                                                (cached_description existing_list));
    split; intros [? ?]; try discriminate; try contradiction; split; auto.
Qed.

(** ** Descriptions *)

Lemma generate_ai_summary_run (category : string) (repos : list Repo.t) (st : State W) :
  let opts := summary_options (self st) in
  let basic := _generate_basic_description opts category repos in
  generate_ai_summary category repos st =
  if use_ai_summary opts then
    (Ok (match fst (call_llm_with_config (summary_prompt category repos) (gateway st)) with
         | Ok ai_description => Py.strip ai_description
         | Raise _ => basic
         end),
     after_llm (summary_prompt category repos) st)
  else (Ok basic, st).
Proof.
  cbv zeta. unfold generate_ai_summary, bind, get_self at 1.
  destruct (use_ai_summary (summary_options (self st))); cbn [negb]; [|reflexivity].
  unfold try_except, bind, llm, call, ret, get_self, after_llm.
  destruct (call_llm_with_config _ (gateway st)) as [[text|e] w]; reflexivity.
Qed.

Lemma enhance_existing_description_run (existing_desc category : string)
    (repos : list Repo.t) (st : State W) :
  _enhance_existing_description existing_desc category repos st =
  if use_ai_summary (summary_options (self st)) then
    (Ok (match fst (call_llm_with_config (enhance_prompt existing_desc category repos)
                      (gateway st)) with
         | Ok enhanced => Py.strip enhanced
         | Raise _ => existing_desc
         end),
     after_llm (enhance_prompt existing_desc category repos) st)
  else (Ok existing_desc, st).
Proof.
  unfold _enhance_existing_description, bind, get_self at 1.
  destruct (use_ai_summary (summary_options (self st))); cbn [negb]; [|reflexivity].
  unfold try_except, bind, llm, call, ret, after_llm.
  destruct (call_llm_with_config _ (gateway st)) as [[text|e] w]; reflexivity.
Qed.

Lemma fold_M_cons {A B : Type} (f : B -> A -> M B) (x : A) (l : list A) (acc : B)
    (st : State W) :
  fold_M f (x :: l) acc st =
  match f acc x st with
  | (Ok acc', st') => fold_M f l acc' st'
  | (Raise e, st') => (Raise e, st')
  end.
Proof. reflexivity. Qed.

Lemma fold_M_app {A B : Type} (f : B -> A -> M B) (l1 l2 : list A) (acc : B) (st : State W) :
  fold_M f (l1 ++ l2) acc st =
  match fold_M f l1 acc st with
  | (Ok acc1, st1) => fold_M f l2 acc1 st1
  | (Raise e, st1) => (Raise e, st1)
  end.
Proof.
  revert acc st. induction l1 as [|x l1 IH]; intros acc st.
  - reflexivity.
  - cbn [app]. rewrite !fold_M_cons.
    destruct (f acc x st) as [[acc'|e] st']; [apply IH|reflexivity].
Qed.

Lemma llm_call_not_mutating (prompt : string) (st : State W) :
  exists calls,
    trace (after_llm prompt st) = trace st ++ calls
    /\ Forall (fun c => mutating c = false) calls.
Proof. exists [LlmCall prompt]. split; [reflexivity|]. repeat constructor. Qed.

(** A turn of [complete_list_summaries] sets the summary of its category, does
    not raise, leaves the manager as it was and calls nothing but the model. *)
Lemma complete_one_shape (existing_lists : list RemoteList.t)
    (summaries : Py.dict string string) (category : string) (repos : list Repo.t)
    (st : State W) :
  exists v st' calls,
    complete_one existing_lists summaries (category, repos) st
    = (Ok (Py.dict_set String.eqb category v summaries), st')
    /\ self st' = self st
    /\ trace st' = trace st ++ calls
    /\ Forall (fun c => mutating c = false) calls.
Proof.
  assert (Hsame : exists calls, trace st = trace st ++ calls
                                /\ Forall (fun c => mutating c = false) calls).
  { exists []. rewrite app_nil_r. split; [reflexivity|constructor]. }
  unfold complete_one.
  destruct (find _ existing_lists) as [existing_list|].
  - unfold bind at 1, get_self at 1.
    destruct (negb (Py.truthy (get_or "" (RemoteList.description existing_list)))
              && auto_complete (summary_options (self st))).
    + unfold bind. rewrite generate_ai_summary_run. cbv zeta.
      destruct (use_ai_summary (summary_options (self st))).
      * destruct (llm_call_not_mutating (summary_prompt category repos) st) as [calls [? ?]].
        eexists _, _, calls. split; [reflexivity|]. split; [reflexivity|]. split; assumption.
      * destruct Hsame as [calls [? ?]].
        eexists _, _, calls. split; [reflexivity|]. split; [reflexivity|]. split; assumption.
    + destruct (Py.truthy (get_or "" (RemoteList.description existing_list))
                && enhance_existing (summary_options (self st))).
      * unfold bind. rewrite enhance_existing_description_run.
        destruct (use_ai_summary (summary_options (self st))).
        -- destruct (llm_call_not_mutating
                       (enhance_prompt (get_or "" (RemoteList.description existing_list))
                          category repos) st) as [calls [? ?]].
           match goal with
           | |- context [if ?b then _ else _] => destruct b
           end; eexists _, _, calls;
             (split; [reflexivity|]; split; [reflexivity|]; split; assumption).
        -- destruct Hsame as [calls [? ?]].
           match goal with
           | |- context [if ?b then _ else _] => destruct b
           end; eexists _, _, calls;
             (split; [reflexivity|]; split; [reflexivity|]; split; assumption).
      * destruct Hsame as [calls [? ?]].
        eexists _, _, calls. split; [reflexivity|]. split; [reflexivity|]. split; assumption.
  - unfold bind. rewrite generate_ai_summary_run. cbv zeta.
    destruct (use_ai_summary (summary_options (self st))).
    + destruct (llm_call_not_mutating (summary_prompt category repos) st) as [calls [? ?]].
      eexists _, _, calls. split; [reflexivity|]. split; [reflexivity|]. split; assumption.
    + destruct Hsame as [calls [? ?]].
      eexists _, _, calls. split; [reflexivity|]. split; [reflexivity|]. split; assumption.
Qed.

(** [complete_list_summaries] does not raise, leaves the manager as it was,
    calls nothing but the model and touches only the keys it is given. *)
Lemma complete_all_shape (existing_lists : list RemoteList.t)
    (l : Py.dict string (list Repo.t)) :
  forall (acc : Py.dict string string) (st : State W),
  exists out st' calls,
    fold_M (complete_one existing_lists) l acc st = (Ok out, st')
    /\ self st' = self st
    /\ trace st' = trace st ++ calls
    /\ Forall (fun c => mutating c = false) calls
    /\ (forall k, ~ In k (Py.keys l) ->
        Py.dict_get String.eqb k out = Py.dict_get String.eqb k acc).
Proof.
  induction l as [|[category repos] l IH]; intros acc st.
  - exists acc, st, []. rewrite app_nil_r. repeat split. constructor.
  - rewrite fold_M_cons.
    destruct (complete_one_shape existing_lists acc category repos st)
      as (v & st1 & calls1 & -> & Hself1 & Htr1 & Hm1).
    destruct (IH (Py.dict_set String.eqb category v acc) st1)
      as (out & st2 & calls2 & -> & Hself2 & Htr2 & Hm2 & Hkeys).
    exists out, st2, (calls1 ++ calls2).
    split; [reflexivity|]. split; [congruence|].
    split; [rewrite Htr2, Htr1, app_assoc; reflexivity|].
    split; [apply Forall_app; split; assumption|].
    intros k Hk. unfold Py.keys in Hk. cbn in Hk.
    rewrite Hkeys by (unfold Py.keys; tauto).
    apply dict_get_set_other. intros ->. tauto.
Qed.

(** An existing description is kept as it is when enhancement is disabled. *)
Lemma complete_one_keep (existing_lists : list RemoteList.t)
    (summaries : Py.dict string string) (category : string) (repos : list Repo.t)
    (st : State W) (existing_list : RemoteList.t) :
  find (fun lst => String.eqb (RemoteList.name lst) category) existing_lists
  = Some existing_list ->
  cached_description existing_list <> "" ->
  enhance_existing (summary_options (self st)) = false ->
  complete_one existing_lists summaries (category, repos) st
  = (Ok (Py.dict_set String.eqb category (cached_description existing_list) summaries), st).
Proof.
  intros Hfind Hne Hoff. unfold complete_one. rewrite Hfind.
  unfold bind, get_self. fold (cached_description existing_list).
  assert (Ht : Py.truthy (cached_description existing_list) = true).
  { unfold Py.truthy. apply negb_true_iff. apply String.eqb_neq. exact Hne. }
  rewrite Ht, Hoff. cbn [negb andb]. reflexivity.
Qed.

(** An existing description is kept as it is when the enhancement call fails. *)
Lemma complete_one_enhance_fails (existing_lists : list RemoteList.t)
    (summaries : Py.dict string string) (category : string) (repos : list Repo.t)
    (st : State W) (existing_list : RemoteList.t) (e : string) :
  find (fun lst => String.eqb (RemoteList.name lst) category) existing_lists
  = Some existing_list ->
  cached_description existing_list <> "" ->
  enhance_existing (summary_options (self st)) = true ->
  fst (call_llm_with_config
         (enhance_prompt (cached_description existing_list) category repos) (gateway st))
  = Raise e ->
  exists st',
    complete_one existing_lists summaries (category, repos) st
    = (Ok (Py.dict_set String.eqb category (cached_description existing_list) summaries), st').
Proof.
  intros Hfind Hne Hon Hfail. unfold complete_one. rewrite Hfind.
  unfold bind at 1, get_self at 1. fold (cached_description existing_list).
  assert (Ht : Py.truthy (cached_description existing_list) = true).
  { unfold Py.truthy. apply negb_true_iff. apply String.eqb_neq. exact Hne. }
  rewrite Ht, Hon. cbn [negb andb].
  unfold bind. rewrite enhance_existing_description_run.
  destruct (use_ai_summary (summary_options (self st))).
  - rewrite Hfail. rewrite String.eqb_refl. cbn [negb]. eexists. reflexivity.
  - rewrite String.eqb_refl. cbn [negb]. eexists. reflexivity.
Qed.

(** C8.  For a category that has an existing list with a non-empty
    description, with enhancement enabled: when the enhancement call made for
    it fails, the decided description is the existing one, unchanged. *)
Theorem failed_enhancement_keeps_description (existing_lists : list RemoteList.t)
    (pre post : Py.dict string (list Repo.t)) (category : string) (repos : list Repo.t)
    (existing_list : RemoteList.t) (st st1 : State W) (summaries1 : Py.dict string string)
    (e : string) :
  find (fun lst => String.eqb (RemoteList.name lst) category) existing_lists
  = Some existing_list ->
  cached_description existing_list <> "" ->
  enhance_existing (summary_options (self st)) = true ->
  ~ In category (Py.keys post) ->
  complete_list_summaries existing_lists pre st = (Ok summaries1, st1) ->
  fst (call_llm_with_config
         (enhance_prompt (cached_description existing_list) category repos) (gateway st1))
  = Raise e ->
  exists summaries st',
    complete_list_summaries existing_lists (pre ++ (category, repos) :: post) st
    = (Ok summaries, st')
    /\ Py.dict_get String.eqb category summaries = Some (cached_description existing_list).
Proof.
  intros Hfind Hne Hon Hpost Hpre Hfail.
  unfold complete_list_summaries in *.
  rewrite fold_M_app, Hpre, fold_M_cons.
  assert (Hself : self st1 = self st).
  { destruct (complete_all_shape existing_lists pre [] st) as (o & s' & c & Hrun & Hs & _).
    rewrite Hrun in Hpre. injection Hpre as _ <-. exact Hs. }
  rewrite <- Hself in Hon.
  destruct (complete_one_enhance_fails existing_lists summaries1 category repos st1
              existing_list e Hfind Hne Hon Hfail) as [st2 ->].
  destruct (complete_all_shape existing_lists post
              (Py.dict_set String.eqb category (cached_description existing_list) summaries1)
              st2)
    as (out & st3 & calls & -> & _ & _ & _ & Hkeys).
  exists out, st3. split; [reflexivity|].
  rewrite (Hkeys _ Hpost). apply dict_get_set_same.
Qed.

(** C6, as the code has it.  An update of an existing list calls
    [update_star_list] exactly when the decided description is not empty and
    differs from the cached one, and then with that description; when the update
    succeeds it reports "updated" and has attached the ids of the grouped
    repositories with one [add_repos_to_list] call.  In particular, for the
    existing list "Web" with description "old desc" and enhancement disabled,
    the decided description is "old desc", no [update_star_list] call is made,
    and the ids are attached all the same. *)
Theorem description_pushed_when_nonempty_and_different (existing_list : RemoteList.t)
    (description : string) (repos : list Repo.t) (st : State W) :
  (exists calls,
     trace (snd (_update_existing_list existing_list description repos st))
     = trace st ++ calls
     /\ (In (UpdateStarList (RemoteList.id existing_list) description) calls
         <-> description <> "" /\ description <> cached_description existing_list)
     /\ (forall c, In c calls -> is_update c = true ->
         c = UpdateStarList (RemoteList.id existing_list) description)
     /\ (forall r, fst (_update_existing_list existing_list description repos st) = Ok r ->
         action r = Some "updated"
         /\ filter is_add calls
            = (if nonempty repos
               then [AddReposToList (RemoteList.id existing_list) (map Repo.id repos)]
               else [])))
  /\ (enhance_existing (summary_options (self st)) = false ->
      complete_list_summaries [Scenario.web] [("Web", repos)] st
      = (Ok [("Web", "old desc")], st)
      /\ exists calls,
           trace (snd (_update_existing_list Scenario.web "old desc" repos st))
           = trace st ++ calls
           /\ filter is_update calls = []
           /\ (forall r, fst (_update_existing_list Scenario.web "old desc" repos st) = Ok r ->
               action r = Some "updated"
               /\ filter is_add calls
                  = (if nonempty repos
                     then [AddReposToList 7 (map Repo.id repos)] else []))).
Proof.
  split.
  - destruct (update_existing_list_calls existing_list description repos st)
      as [calls (Ht & _ & Hu & _ & _ & Hok)].
    cbv zeta in *. exists calls.
    split; [exact Ht|]. split; [|split].
    + rewrite <- pushes_description_iff.
      split.
      * intros Hin.
        assert (Hf : In (UpdateStarList (RemoteList.id existing_list) description)
                       (filter is_update calls))
          by (apply filter_In; split; [exact Hin|reflexivity]).
        rewrite Hu in Hf. destruct (pushes_description existing_list description);
          [reflexivity|destruct Hf].
      * intros Hp. rewrite Hp in Hu.
        assert (Hf : In (UpdateStarList (RemoteList.id existing_list) description)
                       (filter is_update calls))
          by (rewrite Hu; left; reflexivity).
        apply filter_In in Hf. tauto.
    + intros c Hin Hc.
      assert (Hf : In c (filter is_update calls)) by (apply filter_In; tauto).
      rewrite Hu in Hf. destruct (pushes_description existing_list description).
      * destruct Hf as [<-|[]]. reflexivity.
      * destruct Hf.
    + intros r Hr. destruct (Hok r Hr) as [-> Ha]. split; [reflexivity|exact Ha].
  - intros Hoff. split.
    + unfold complete_list_summaries. rewrite fold_M_cons.
      rewrite (complete_one_keep [Scenario.web] [] "Web" repos st Scenario.web);
        [reflexivity|reflexivity|discriminate|exact Hoff].
    + destruct (update_existing_list_calls Scenario.web "old desc" repos st)
        as [calls (Ht & _ & Hu & _ & _ & Hok)].
      cbv zeta in *. exists calls. split; [exact Ht|]. split; [exact Hu|].
      intros r Hr. destruct (Hok r Hr) as [-> Ha]. split; [reflexivity|exact Ha].
Qed.

(** ** The reconciliation stage *)

Lemma get_existing_lists_shape (st : State W) :
  exists lists st',
    get_existing_lists st = (Ok lists, st')
    /\ summary_options (self st') = summary_options (self st)
    /\ trace st' = trace st ++ [GetUserLists].
Proof.
  unfold get_existing_lists, try_except, bind, call, set_cache, get_self, set_self, ret.
  destruct (get_user_lists (gateway st)) as [[lists|e] w]; cbn.
  - eexists _, _. repeat split.
  - eexists _, _. repeat split.
Qed.

(** The groups have distinct names. *)
Lemma organize_keys_nodup (classification : Py.dict string (Classification.t string))
    (starred : list Repo.t) :
  NoDup (Py.keys (organize_repos_by_category String.eqb classification starred)).
Proof.
  unfold organize_repos_by_category.
  match goal with
  | |- context [fold_left ?f classification []] =>
      assert (G : forall l organized, NoDup (Py.keys organized) ->
                                      NoDup (Py.keys (fold_left f l organized)))
  end.
  { induction l as [|[k c] l IH]; intros organized Hnd; cbn [fold_left]; [exact Hnd|].
    apply IH. cbn [fst snd].
    destruct (Py.dict_get String.eqb k _) as [repo|]; [|exact Hnd].
    destruct (Py.dict_get String.eqb (Classification.category c) organized) as [g|] eqn:Hg.
    - rewrite (keys_dict_set_present _ _ _ _ Hg). exact Hnd.
    - rewrite (dict_set_absent _ _ _ Hg). unfold Py.keys. rewrite map_app. cbn.
      apply dict_get_none_keys in Hg.
      apply NoDup_app; [exact Hnd|repeat constructor; intros []|].
      intros x Hx [<-|[]]. exact (Hg Hx). }
  apply G. constructor.
Qed.

Lemma dict_get_nodup {V : Type} (d : Py.dict string V) (k : string) (v : V) :
  NoDup (Py.keys d) -> In (k, v) d -> Py.dict_get String.eqb k d = Some v.
Proof.
  induction d as [|[k' v'] d IH]; cbn; intros Hnd Hin; [contradiction|].
  inversion Hnd as [|? ? Hnotin Hnd']; subst.
  destruct Hin as [[= -> ->]|Hin].
  - rewrite String.eqb_refl. reflexivity.
  - destruct (String.eqb_spec k' k) as [->|Hne]; [|apply IH; assumption].
    exfalso. apply Hnotin. apply (in_map fst) in Hin. exact Hin.
Qed.

(** In a dry run the loop over the groups records a result for every group,
    calls nothing and does not raise. *)
Lemma manage_dry_run (summaries : Py.dict string string)
    (l : Py.dict string (list Repo.t)) :
  forall (results : Py.dict string OperationResult) (st : State W),
    Forall (fun kv => snd kv <> []) l ->
    fold_M (manage_one true summaries) l results st
    = (Ok (assign_all
             (map (fun kv =>
                     (fst kv,
                      dry_run_result (snd kv)
                        (match Py.dict_get String.eqb (fst kv) summaries with
                         | Some d => d
                         | None => ""
                         end))) l)
             results),
       st).
Proof.
  induction l as [|[category repos] l IH]; intros results st Hne; [reflexivity|].
  inversion Hne as [|? ? Hrepos Hrest]; subst. cbn [snd] in Hrepos.
  rewrite fold_M_cons. unfold manage_one at 1.
  destruct repos as [|repo repos]; [contradiction|]. cbn [nonempty negb].
  unfold ret at 1. rewrite (IH _ _ Hrest). reflexivity.
Qed.

Lemma filter_mutating_none (calls : list Call) :
  Forall (fun c => mutating c = false) calls -> filter mutating calls = [].
Proof.
  induction 1 as [|c calls Hc _ IH]; cbn; [reflexivity|]. rewrite Hc. exact IH.
Qed.

(** C2.  With [dry_run] set, the reconciliation stage does not raise and makes
    no [create_star_list], [update_star_list] or [add_repos_to_list] call; every
    group it built is non-empty and has a result with [success] true, action
    "dry_run", the size of the group as [repos_count] and the full names of the
    group as [repos]. *)
Theorem dry_run_purity (classification : Py.dict string (Classification.t string))
    (starred : list Repo.t) (cfg : Config) (st : State W) :
  exists out st' calls,
    manage_exec classification starred true cfg st = (Ok out, st')
    /\ organized_repos out = organize_repos_by_category String.eqb classification starred
    /\ trace st' = trace st ++ calls
    /\ Forall (fun c => mutating c = false) calls
    /\ (forall category group,
          In (category, group) (organized_repos out) ->
          group <> []
          /\ exists r,
               Py.dict_get String.eqb category (operation_results out) = Some r
               /\ success r = true
               /\ action r = Some "dry_run"
               /\ repos_count r = Some (List.length group)
               /\ repos r = Some (map Repo.full_name group)).
Proof.
  set (organized := organize_repos_by_category String.eqb classification starred).
  pose proof (organize_groups String.eqb classification starred) as Hgroups.
  fold organized in Hgroups.
  assert (Hne : Forall (fun kv : string * list Repo.t => snd kv <> []) organized).
  { eapply Forall_impl; [|exact Hgroups]. intros kv [H _]. exact H. }
  pose proof (organize_keys_nodup classification starred) as Hnd. fold organized in Hnd.
  unfold manage_exec. fold organized.
  unfold bind at 1, set_self at 1.
  set (st0 := {| gateway := gateway st; trace := trace st; self := new_manager |}).
  assert (exists st1, (if has_overrides (config_summary_options cfg)
                       then set_summary_options (config_summary_options cfg)
                       else ret tt) st0 = (Ok tt, st1)
                      /\ trace st1 = trace st) as (st1 & Hopt & Htr1).
  { destruct (has_overrides (config_summary_options cfg));
      cbv beta iota zeta delta [set_summary_options bind get_self set_self ret];
      eexists; split; reflexivity. }
  unfold bind at 1. rewrite Hopt.
  destruct (get_existing_lists_shape st1) as (lists & st2 & Hlists & _ & Htr2).
  unfold bind at 1. rewrite Hlists.
  destruct (complete_all_shape lists organized [] st2)
    as (summaries & st3 & calls & Hsum & _ & Htr3 & Hmut & _).
  unfold bind at 1. unfold complete_list_summaries. rewrite Hsum.
  unfold bind at 1. rewrite (manage_dry_run summaries organized [] st3 Hne).
  unfold ret.
  eexists _, st3, (GetUserLists :: calls).
  split; [reflexivity|]. split; [reflexivity|].
  split; [rewrite Htr3, Htr2, Htr1, <- app_assoc; reflexivity|].
  split; [constructor; [reflexivity|exact Hmut]|].
  cbn [organized_repos operation_results].
  intros category group Hin.
  rewrite Forall_forall in Hne. split; [exact (Hne _ Hin)|].
  exists (dry_run_result group
            (match Py.dict_get String.eqb category summaries with
             | Some d => d
             | None => ""
             end)).
  split; [|repeat split].
  destruct (in_split _ _ Hin) as (l1 & l2 & Heq).
  rewrite Heq, map_app. cbn [map fst snd].
  apply assign_all_last.
  rewrite map_map. cbn [fst].
  rewrite Heq in Hnd. unfold Py.keys in Hnd. rewrite map_app in Hnd. cbn in Hnd.
  apply NoDup_remove_2 in Hnd. intros Hc. apply Hnd. apply in_or_app. right. exact Hc.
Qed.

(** ** The fallback description *)

Lemma count_languages_fold (repos : list Repo.t) :
  count_languages repos = fold_left count_language (known_languages repos) [].
Proof.
  unfold count_languages. generalize (@nil (string * nat)).
  induction repos as [|repo repos IH]; intros acc; [reflexivity|].
  cbn [fold_left known_languages flat_map]. rewrite fold_left_app.
  fold (known_languages repos). rewrite IH.
  destruct (known_language repo); reflexivity.
Qed.

Lemma first_index_app_in (langs : list string) (x lang : string) :
  In lang langs -> first_index (langs ++ [x]) lang = first_index langs lang.
Proof.
  induction langs as [|l langs IH]; cbn; [contradiction|].
  intros [->|Hin]; [rewrite String.eqb_refl; reflexivity|].
  destruct (String.eqb l lang); [reflexivity|]. rewrite IH by assumption. reflexivity.
Qed.

Lemma first_index_app_new (langs : list string) (x : string) :
  ~ In x langs -> first_index (langs ++ [x]) x = List.length langs.
Proof.
  induction langs as [|l langs IH]; cbn; intros Hn.
  - rewrite String.eqb_refl. reflexivity.
  - destruct (String.eqb_spec l x); [tauto|]. rewrite IH by tauto. reflexivity.
Qed.

Lemma first_index_lt (langs : list string) (lang : string) :
  In lang langs -> first_index langs lang < List.length langs.
Proof.
  induction langs as [|l langs IH]; cbn; [contradiction|].
  intros [->|Hin]; [rewrite String.eqb_refl; lia|].
  destruct (String.eqb l lang); [lia|]. apply IH in Hin. lia.
Qed.

Lemma repo_count_app (langs : list string) (x lang : string) :
  repo_count (langs ++ [x]) lang
  = repo_count langs lang + (if String.eqb x lang then 1 else 0).
Proof.
  unfold repo_count. rewrite count_occ_app. cbn.
  destruct (string_dec x lang), (String.eqb_spec x lang);
    first [reflexivity | contradiction].
Qed.

Lemma repo_count_pos (langs : list string) (lang : string) :
  In lang langs <-> 0 < repo_count langs lang.
Proof. unfold repo_count. apply count_occ_In. Qed.

Lemma counted_step (langs : list string) (d : Py.dict string nat) (x : string) :
  counted langs d -> counted (langs ++ [x]) (count_language d x).
Proof.
  intros (Hnd & Hkeys & Hvals & Hord). unfold count_language.
  assert (Hmono : forall l, StronglySorted
                    (fun a b => first_index langs a < first_index langs b) l ->
                  (forall a, In a l -> In a langs) ->
                  StronglySorted
                    (fun a b => first_index (langs ++ [x]) a < first_index (langs ++ [x]) b) l).
  { induction l as [|a l IHl]; intros Hs Hin; [constructor|].
    inversion Hs as [|? ? Hs' Hall]; subst. constructor.
    - apply IHl; [exact Hs'|]. intros b Hb. apply Hin. right. exact Hb.
    - rewrite Forall_forall in *. intros b Hb.
      rewrite !first_index_app_in by (apply Hin; cbn; auto). apply Hall, Hb. }
  destruct (Py.dict_get String.eqb x d) as [n|] eqn:Hget.
  - assert (Hx : In x langs).
    { apply Hkeys. apply dict_get_in in Hget. apply (in_map fst) in Hget. exact Hget. }
    unfold counted. rewrite (keys_dict_set_present _ _ _ _ Hget).
    split; [exact Hnd|]. split; [|split].
    + intros lang. rewrite Hkeys, in_app_iff. cbn. split; [tauto|].
      intros [?|[<-|[]]]; assumption.
    + intros lang m Hin. rewrite repo_count_app.
      apply (in_dict_set_nodup _ _ _ _ _ Hnd) in Hin. destruct Hin as [[-> ->]|[Hne Hin]].
      * rewrite String.eqb_refl. apply dict_get_in in Hget. apply Hvals in Hget. lia.
      * destruct (String.eqb_spec x lang) as [<-|_]; [congruence|].
        rewrite (Hvals _ _ Hin). lia.
    + apply Hmono; [exact Hord|]. intros a Ha. apply Hkeys, Ha.
  - assert (Hx : ~ In x langs).
    { rewrite <- Hkeys. apply dict_get_none_keys. exact Hget. }
    rewrite (dict_set_absent _ _ _ Hget). unfold counted, Py.keys. rewrite map_app. cbn [map fst].
    fold (Py.keys d). split; [|split; [|split]].
    + apply NoDup_app; [exact Hnd|repeat constructor; intros []|].
      intros a Ha [<-|[]]. apply Hx, Hkeys, Ha.
    + intros lang. rewrite !in_app_iff, Hkeys. tauto.
    + intros lang m Hin. rewrite repo_count_app. apply in_app_or in Hin.
      destruct Hin as [Hin|[[= <- <-]|[]]].
      * destruct (String.eqb_spec x lang) as [<-|Hne]; [|rewrite (Hvals _ _ Hin); lia].
        exfalso. apply Hx, Hkeys. apply (in_map fst) in Hin. exact Hin.
      * rewrite String.eqb_refl.
        assert (repo_count langs x = 0); [|lia].
        destruct (repo_count langs x) eqn:E; [reflexivity|].
        exfalso. apply Hx, repo_count_pos. lia.
    + assert (Hsnoc : forall l, StronglySorted
                        (fun a b => first_index (langs ++ [x]) a < first_index (langs ++ [x]) b) l ->
                      (forall a, In a l -> In a langs) ->
                      StronglySorted
                        (fun a b => first_index (langs ++ [x]) a < first_index (langs ++ [x]) b)
                        (l ++ [x])).
      { induction l as [|a l IHl]; intros Hs Hin; cbn.
        - repeat constructor.
        - inversion Hs as [|? ? Hs' Hall]; subst. constructor.
          + apply IHl; [exact Hs'|]. intros b Hb. apply Hin. right. exact Hb.
          + apply Forall_app. split; [exact Hall|]. constructor; [|constructor].
            rewrite first_index_app_new by exact Hx.
            rewrite first_index_app_in by (apply Hin; left; reflexivity).
            apply first_index_lt. apply Hin. left. reflexivity. }
      apply Hsnoc; [|intros a Ha; apply Hkeys, Ha].
      apply Hmono; [exact Hord|]. intros a Ha. apply Hkeys, Ha.
Qed.

Lemma counted_all (langs : list string) :
  counted langs (fold_left count_language langs []).
Proof.
  induction langs as [|x langs IH] using rev_ind.
  - repeat split; cbn; try tauto; constructor.
  - rewrite fold_left_app. cbn [fold_left]. apply counted_step. exact IH.
Qed.

Section SortedDesc.
Context {A : Type} (key : A -> nat).

Lemma insert_desc_perm (x : A) (l : list A) :
  Permutation (Py.insert_desc key x l) (x :: l).
Proof.
  induction l as [|y l IH]; cbn; [reflexivity|].
  destruct (key y <=? key x)%nat; [reflexivity|].
  rewrite IH. apply perm_swap.
Qed.

Lemma sorted_desc_perm (l : list A) : Permutation (Py.sorted_desc key l) l.
Proof.
  induction l as [|x l IH]; cbn; [reflexivity|].
  rewrite insert_desc_perm. constructor. exact IH.
Qed.
End SortedDesc.

(** Inserting an item that was encountered before all the others keeps the
    order: it goes before the items that have no more repositories than it. *)
Lemma insert_desc_sorted (langs : list string) (x : string * nat)
    (l : list (string * nat)) :
  StronglySorted (item_before langs) l ->
  Forall (fun y => first_index langs (fst x) < first_index langs (fst y)) l ->
  StronglySorted (item_before langs) (Py.insert_desc snd x l).
Proof.
  induction l as [|y l IH]; intros Hs Hfirst; cbn [Py.insert_desc].
  - repeat constructor.
  - inversion Hs as [|? ? Hs' Hall]; subst.
    inversion Hfirst as [|? ? Hy Hrest]; subst.
    destruct (Nat.leb_spec (snd y) (snd x)) as [Hle|Hgt].
    + constructor; [exact Hs|].
      constructor.
      * unfold item_before. lia.
      * rewrite Forall_forall in *. intros z Hz.
        specialize (Hall z Hz). specialize (Hrest z Hz). unfold item_before in *. lia.
    + constructor; [apply IH; assumption|].
      rewrite Forall_forall in *. intros z Hz.
      apply (Permutation_in _ (insert_desc_perm snd x l)) in Hz.
      destruct Hz as [<-|Hz]; [unfold item_before; lia|apply Hall, Hz].
Qed.

Lemma sorted_desc_sorted (langs : list string) (d : Py.dict string nat) :
  StronglySorted (fun a b => first_index langs a < first_index langs b) (Py.keys d) ->
  StronglySorted (item_before langs) (Py.sorted_desc snd d).
Proof.
  induction d as [|p d IH]; intros Hs; cbn; [constructor|].
  unfold Py.keys in Hs. cbn in Hs. inversion Hs as [|? ? Hs' Hall]; subst.
  apply insert_desc_sorted; [apply IH, Hs'|].
  rewrite Forall_forall in *. intros y Hy.
  apply (Permutation_in _ (sorted_desc_perm snd d)) in Hy.
  apply Hall. apply (in_map fst) in Hy. exact Hy.
Qed.

Lemma ranking_of_items (langs : list string) (l : list (string * nat)) :
  Forall (fun p => snd p = repo_count langs (fst p)) l ->
  StronglySorted (item_before langs) l ->
  StronglySorted (ranks_before langs) (map fst l).
Proof.
  induction l as [|p l IH]; intros Hc Hs; cbn; [constructor|].
  inversion Hc as [|? ? Hp Hc']; subst. inversion Hs as [|? ? Hs' Hall]; subst.
  constructor; [apply IH; assumption|].
  rewrite Forall_forall in *. intros b Hb. apply in_map_iff in Hb.
  destruct Hb as [q [<- Hq]]. specialize (Hall q Hq). specialize (Hc' q Hq).
  unfold item_before, ranks_before in *. lia.
Qed.

(** The sorted items of the counting dictionary are a ranking of the
    languages. *)
Lemma sorted_languages_ranking (repos : list Repo.t) :
  is_language_ranking repos (map fst (Py.sorted_desc snd (count_languages repos))).
Proof.
  rewrite count_languages_fold.
  destruct (counted_all (known_languages repos)) as (Hnd & Hkeys & Hvals & Hord).
  set (d := fold_left count_language (known_languages repos) []) in *.
  pose proof (sorted_desc_perm snd d) as Hperm.
  assert (Hpk : Permutation (map fst (Py.sorted_desc snd d)) (Py.keys d))
    by (apply Permutation_map; exact Hperm).
  split; [|split].
  - apply (Permutation_NoDup (Permutation_sym Hpk)). exact Hnd.
  - intros lang. rewrite <- Hkeys. split; intros H.
    + apply (Permutation_in _ Hpk). exact H.
    + apply (Permutation_in _ (Permutation_sym Hpk)). exact H.
  - apply ranking_of_items; [|apply sorted_desc_sorted; exact Hord].
    apply Forall_forall. intros [lang n] Hin.
    apply (Permutation_in _ Hperm) in Hin. cbn. apply (Hvals _ _ Hin).
Qed.

(** There is one ranking only. *)
Lemma ranks_before_asym (langs : list string) (a b : string) :
  ranks_before langs a b -> ranks_before langs b a -> False.
Proof. unfold ranks_before. lia. Qed.

Lemma language_ranking_unique (repos : list Repo.t) (l1 l2 : list string) :
  is_language_ranking repos l1 -> is_language_ranking repos l2 -> l1 = l2.
Proof.
  intros (Hnd1 & Hin1 & Hs1) (Hnd2 & Hin2 & Hs2).
  assert (Hsame : forall x, In x l1 <-> In x l2) by (intros x; rewrite Hin1, Hin2; tauto).
  clear Hin1 Hin2. revert l2 Hnd2 Hs2 Hsame.
  induction l1 as [|a l1 IH]; intros [|b l2] Hnd2 Hs2 Hsame.
  - reflexivity.
  - exfalso. apply (Hsame b). left. reflexivity.
  - exfalso. apply (Hsame a). left. reflexivity.
  - inversion Hnd1 as [|? ? Ha1 Hnd1']; subst. inversion Hnd2 as [|? ? Hb2 Hnd2']; subst.
    inversion Hs1 as [|? ? Hs1' Hall1]; subst. inversion Hs2 as [|? ? Hs2' Hall2]; subst.
    rewrite Forall_forall in Hall1, Hall2.
    assert (a = b).
    { destruct (string_dec a b) as [|Hne]; [assumption|exfalso].
      assert (In a l2)
        by (destruct (proj1 (Hsame a) (or_introl eq_refl)); [congruence|assumption]).
      assert (In b l1)
        by (destruct (proj2 (Hsame b) (or_introl eq_refl)); [congruence|assumption]).
      eapply ranks_before_asym; [apply Hall1|apply Hall2]; assumption. }
    subst b. f_equal. apply IH; try assumption.
    intros x. split; intros Hx.
    + destruct (proj1 (Hsame x) (or_intror Hx)) as [<-|?]; [contradiction|assumption].
    + destruct (proj2 (Hsame x) (or_intror Hx)) as [<-|?]; [contradiction|assumption].
Qed.

Lemma append_assoc (a b c : string) : ((a ++ b) ++ c = a ++ (b ++ c))%string.
Proof. induction a as [|x a IH]; cbn; [reflexivity|]. rewrite IH. reflexivity. Qed.

Lemma append_empty_r (a : string) : (a ++ "" = a)%string.
Proof. induction a as [|x a IH]; cbn; [reflexivity|]. rewrite IH. reflexivity. Qed.

Lemma known_languages_truthy (repos : list Repo.t) (lang : string) :
  In lang (known_languages repos) -> Py.truthy lang = true.
Proof.
  unfold known_languages. rewrite in_flat_map. intros [repo [_ Hin]].
  unfold known_language in Hin.
  destruct (Repo.language repo) as [l|]; [|destruct Hin].
  destruct (Py.truthy l) eqn:Ht; [|destruct Hin].
  destruct Hin as [<-|[]]. exact Ht.
Qed.

Lemma truthy_join (sep x : string) (rest : list string) :
  Py.truthy x = true -> Py.truthy (Py.join sep (x :: rest)) = true.
Proof.
  destruct x as [|c x]; [discriminate|]. intros _.
  destruct rest; reflexivity.
Qed.

Lemma basic_description_fallback (opts : SummaryOptions) (category : string)
    (repos : list Repo.t) :
  _generate_basic_description opts category repos
  = fallback_description opts category repos
      (map fst (Py.sorted_desc snd (count_languages repos))).
Proof.
  unfold _generate_basic_description, fallback_description.
  rewrite <- firstn_map.
  destruct (sorted_languages_ranking repos) as (_ & Hin & _).
  destruct (map fst (Py.sorted_desc snd (count_languages repos))) as [|lang ranking].
  - cbn [firstn Py.join Py.truthy String.eqb negb nonempty].
    destruct (include_stats opts); cbn [andb];
      [destruct (0 <? sum_stars repos)%Z|];
      rewrite ?append_assoc, ?append_empty_r; reflexivity.
  - cbn [firstn nonempty]. rewrite truthy_join
      by (apply (known_languages_truthy repos), Hin; left; reflexivity).
    destruct (include_stats opts); cbn [andb];
      [destruct (0 <? sum_stars repos)%Z|];
      rewrite ?append_assoc, ?append_empty_r; reflexivity.
Qed.

(** C4.  The languages of a group have exactly one ranking by number of
    repositories with ties in the order of first encounter, and the basic
    description is "Auto-categorized {category} repositories ({count} repos)",
    followed by " - Main languages: " and the first three languages of the
    ranking, comma-joined, when there is a known language, and by
    " - Total stars: " and the sum with thousands separators when
    [include_stats] is set and the sum is positive.  [generate_ai_summary]
    returns it when [use_ai_summary] is off or the model call fails.  On the
    three repositories of the scenario it is the text the specification
    gives. *)
Theorem fallback_description_is_determined (opts : SummaryOptions) (category : string)
    (repos : list Repo.t) :
  exists ranking,
    is_language_ranking repos ranking
    /\ (forall other, is_language_ranking repos other -> other = ranking)
    /\ (nonempty ranking = true <-> exists repo lang, In repo repos /\ known_language repo = Some lang)
    /\ _generate_basic_description opts category repos
       = fallback_description opts category repos ranking
    /\ (forall st,
          summary_options (self st) = opts ->
          use_ai_summary opts = false
          \/ (exists e, fst (call_llm_with_config (summary_prompt category repos) (gateway st))
                        = Raise e) ->
          fst (generate_ai_summary category repos st)
          = Ok (fallback_description opts category repos ranking))
    /\ (include_stats opts = true ->
        _generate_basic_description opts "Tools" [Scenario.ax; Scenario.ay; Scenario.az]
        = "Auto-categorized Tools repositories (3 repos) - Main languages: Python, Go - Total stars: 16").
Proof.
  exists (map fst (Py.sorted_desc snd (count_languages repos))).
  pose proof (sorted_languages_ranking repos) as Hrank.
  split; [exact Hrank|].
  split; [intros other Hother; apply (language_ranking_unique repos); assumption|].
  split.
  { destruct Hrank as (_ & Hin & _).
    destruct (map fst (Py.sorted_desc snd (count_languages repos))) as [|lang ranking].
    - split; [discriminate|]. intros (repo & lang & Hrepo & Hlang). exfalso.
      apply (Hin lang). unfold known_languages. apply in_flat_map.
      exists repo. split; [exact Hrepo|]. rewrite Hlang. left. reflexivity.
    - split; [|reflexivity]. intros _.
      assert (Hl : In lang (known_languages repos)) by (apply Hin; left; reflexivity).
      unfold known_languages in Hl. apply in_flat_map in Hl.
      destruct Hl as [repo [Hrepo Hl]]. exists repo, lang. split; [exact Hrepo|].
      destruct (known_language repo) as [l|]; [|destruct Hl].
      destruct Hl as [<-|[]]. reflexivity. }
  split; [apply basic_description_fallback|].
  split.
  - intros st <- Hcase. rewrite generate_ai_summary_run. cbv zeta.
    rewrite <- basic_description_fallback.
    destruct (use_ai_summary (summary_options (self st))).
    + destruct Hcase as [?|[e He]]; [discriminate|]. cbn [fst]. rewrite He. reflexivity.
    + reflexivity.
  - intros Hstats. unfold _generate_basic_description. rewrite Hstats. reflexivity.
Qed.

(* ================================================================== *)
(** * Further properties of the code *)
(* ================================================================== *)

(** ** Grouping *)

Lemma find_rev_last {A : Type} (f : A -> bool) (l : list A) (x : A) :
  find f (rev (l ++ [x])) = if f x then Some x else find f (rev l).
Proof. rewrite rev_app_distr. reflexivity. Qed.

(** The lookup table holds, for a full name, the last starred repository of
    that name. *)
Lemma repo_map_last (starred : list Repo.t) (full_name : string) :
  Py.dict_get String.eqb full_name
    (fold_left (fun d r => Py.dict_set String.eqb (Repo.full_name r) r d) starred [])
  = starred_named starred full_name.
Proof.
  unfold starred_named.
  induction starred as [|r starred IH] using rev_ind; [reflexivity|].
  rewrite fold_left_app, find_rev_last. cbn [fold_left].
  destruct (String.eqb_spec (Repo.full_name r) full_name) as [<-|Hne].
  - apply dict_get_set_same.
  - rewrite dict_get_set_other by congruence. exact IH.
Qed.

Lemma members_cons (starred : list Repo.t) (k : string) (c : Classification.t string)
    (l : Py.dict string (Classification.t string)) (category : string) :
  members starred ((k, c) :: l) category
  = (if String.eqb (Classification.category c) category
     then match starred_named starred k with Some repo => [repo] | None => [] end
     else []) ++ members starred l category.
Proof. reflexivity. Qed.

(** X1.  The group of a category holds the starred repositories of the
    classification entries of that category, in the order of the entries; an
    entry whose repository is not starred adds nothing, and a category none of
    whose entries is starred has no group. *)
Theorem organize_groups_by_category
    (classification : Py.dict string (Classification.t string))
    (starred : list Repo.t) (category : string) :
  Py.dict_get String.eqb category
    (organize_repos_by_category String.eqb classification starred)
  = if nonempty (members starred classification category)
    then Some (members starred classification category)
    else None.
Proof.
  unfold organize_repos_by_category.
  match goal with
  | |- context [fold_left ?f starred []] => set (repo_map := fold_left f starred [])
  end.
  assert (G : forall l organized,
             Py.dict_get String.eqb category
               (fold_left
                  (fun organized kv =>
                     match Py.dict_get String.eqb (fst kv) repo_map with
                     | Some repo =>
                         Py.dict_set String.eqb (Classification.category (snd kv))
                           (match Py.dict_get String.eqb (Classification.category (snd kv))
                                    organized with
                            | Some g => g
                            | None => []
                            end ++ [repo]) organized
                     | None => organized
                     end) l organized)
             = match Py.dict_get String.eqb category organized with
               | Some g => Some (g ++ members starred l category)
               | None => if nonempty (members starred l category)
                         then Some (members starred l category) else None
               end).
  { induction l as [|[k c] l IH]; intros organized.
    - cbn. destruct (Py.dict_get String.eqb category organized);
        [rewrite app_nil_r|]; reflexivity.
    - cbn [fold_left fst snd]. rewrite IH. clear IH.
      rewrite !members_cons. unfold repo_map. rewrite repo_map_last.
      destruct (starred_named starred k) as [repo|].
      + destruct (String.eqb_spec (Classification.category c) category) as [->|Hne].
        * rewrite dict_get_set_same.
          destruct (Py.dict_get String.eqb category organized) as [g|];
            cbn [app nonempty]; [rewrite <- app_assoc|]; reflexivity.
        * rewrite dict_get_set_other by congruence. reflexivity.
      + destruct (String.eqb (Classification.category c) category); reflexivity. }
  rewrite G. reflexivity.
Qed.

Lemma concat_dict_set_group (d : Py.dict string (list Repo.t)) (k : string)
    (repo : Repo.t) :
  Permutation
    (List.concat (map snd (Py.dict_set String.eqb k
                        (match Py.dict_get String.eqb k d with
                         | Some g => g
                         | None => []
                         end ++ [repo]) d)))
    (List.concat (map snd d) ++ [repo]).
Proof.
  induction d as [|[k' g'] d IH]; cbn.
  - reflexivity.
  - destruct (String.eqb k' k); cbn.
    + rewrite <- !app_assoc. apply Permutation_app_head. apply Permutation_app_comm.
    + rewrite <- app_assoc. apply Permutation_app_head. exact IH.
Qed.

(** X2.  Grouping neither loses nor duplicates: the groups, taken together,
    hold the starred repository of every classification entry that has one,
    once per entry, and nothing else. *)
Theorem organize_keeps_every_repository
    (classification : Py.dict string (Classification.t string))
    (starred : list Repo.t) :
  let organized := organize_repos_by_category String.eqb classification starred in
  Permutation (List.concat (map snd organized)) (flat_map (entry_repo starred) classification)
  /\ list_sum (map (fun kv => List.length (snd kv)) organized)
     = List.length (filter (fun kv => match starred_named starred (fst kv) with
                                      | Some _ => true
                                      | None => false
                                      end) classification).
Proof.
  cbv zeta.
  assert (P : Permutation
                (List.concat (map snd (organize_repos_by_category String.eqb classification starred)))
                (flat_map (entry_repo starred) classification)).
  { unfold organize_repos_by_category.
    match goal with
    | |- context [fold_left ?f starred []] => set (repo_map := fold_left f starred [])
    end.
    assert (G : forall l organized,
               Permutation
                 (List.concat (map snd
                    (fold_left
                       (fun organized kv =>
                          match Py.dict_get String.eqb (fst kv) repo_map with
                          | Some repo =>
                              Py.dict_set String.eqb (Classification.category (snd kv))
                                (match Py.dict_get String.eqb
                                         (Classification.category (snd kv)) organized with
                                 | Some g => g
                                 | None => []
                                 end ++ [repo]) organized
                          | None => organized
                          end) l organized)))
                 (List.concat (map snd organized) ++ flat_map (entry_repo starred) l)).
    { induction l as [|[k c] l IH]; intros organized.
      - cbn. rewrite app_nil_r. reflexivity.
      - cbn [fold_left fst snd flat_map]. rewrite IH. clear IH.
        unfold entry_repo at 2. cbn [fst]. unfold repo_map. rewrite repo_map_last.
        destruct (starred_named starred k) as [repo|]; [|reflexivity].
        rewrite concat_dict_set_group. rewrite <- app_assoc. reflexivity. }
    exact (G classification []). }
  split; [exact P|].
  apply Permutation_length in P. rewrite length_concat, map_map in P. rewrite P.
  clear P. induction classification as [|[k c] l IH]; [reflexivity|].
  cbn [flat_map filter fst]. rewrite length_app, IH. unfold entry_repo. cbn [fst].
  destruct (starred_named starred k); reflexivity.
Qed.

(** ** Fetching the existing lists *)

(** X3.  [get_existing_lists] never raises and makes one host call.  When the
    host answers, the lists are returned as they came and the cache holds, for
    every name, the last list of that name (and only names that came); when the
    host call fails, the result is the empty list and the manager, with the
    cache of an earlier fetch, is left as it was. *)
Theorem get_existing_lists_refreshes_cache (st : State W) :
  trace (snd (get_existing_lists st)) = trace st ++ [GetUserLists]
  /\ summary_options (self (snd (get_existing_lists st))) = summary_options (self st)
  /\ (forall lists,
        fst (get_user_lists (gateway st)) = Ok lists ->
        fst (get_existing_lists st) = Ok lists
        /\ forall name,
             Py.dict_get String.eqb name (_list_cache (self (snd (get_existing_lists st))))
             = list_named lists name)
  /\ (forall e,
        fst (get_user_lists (gateway st)) = Raise e ->
        fst (get_existing_lists st) = Ok []
        /\ self (snd (get_existing_lists st)) = self st).
Proof.
  cbv beta iota zeta delta [get_existing_lists try_except bind call set_cache get_self
                            set_self ret].
  destruct (get_user_lists (gateway st)) as [[lists|e] w]; cbn [fst snd gateway trace self
    _list_cache summary_options].
  - split; [reflexivity|]. split; [reflexivity|]. split; [|intros e; discriminate].
    intros l [= <-]. split; [reflexivity|]. intros name. unfold list_named.
    induction lists as [|x lists IH] using rev_ind; [reflexivity|].
    rewrite fold_left_app, find_rev_last. cbn [fold_left].
    destruct (String.eqb_spec (RemoteList.name x) name) as [<-|Hne].
    + apply dict_get_set_same.
    + rewrite dict_get_set_other by congruence. exact IH.
  - split; [reflexivity|]. split; [reflexivity|]. split; [intros l; discriminate|].
    intros e' _. split; reflexivity.
Qed.

(** ** Creation that fails half way *)

(** X5.  When the host creates the list and then fails to attach the
    repositories, [create_or_update_list] reports the failure and the cache does
    not get the new list: the next call for the same name asks the host to
    create the list again. *)
Theorem failed_attachment_forgets_created_list (list_name description : string)
    (repo : Repo.t) (repos : list Repo.t) (st : State W) (new_list : RemoteList.t)
    (w1 w2 : W) (e : string) :
  Py.dict_get String.eqb list_name (_list_cache (self st)) = None ->
  create_star_list list_name description (gateway st) = (Ok new_list, w1) ->
  add_repos_to_list (RemoteList.id new_list) (map Repo.id (repo :: repos)) w1
  = (Raise e, w2) ->
  let st' := {| gateway := w2;
                trace := trace st ++ [CreateStarList list_name description;
                                      AddReposToList (RemoteList.id new_list)
                                        (map Repo.id (repo :: repos))];
                self := self st |} in
  create_or_update_list list_name description (repo :: repos) st
  = (Ok (error_result e), st')
  /\ exists calls,
       trace (snd (create_or_update_list list_name description (repo :: repos) st'))
       = trace st' ++ CreateStarList list_name description :: calls.
Proof.
  intros Habsent Hcreate Hadd st'.
  assert (Hfirst : create_or_update_list list_name description (repo :: repos) st
                   = (Ok (error_result e), st')).
  { rewrite (create_or_update_list_absent _ _ _ _ Habsent).
    unfold _create_new_list, try_except, bind, call, raise.
    rewrite Hcreate. cbn [nonempty gateway trace self]. rewrite Hadd.
    unfold st'. rewrite <- app_assoc. reflexivity. }
  split; [exact Hfirst|].
  assert (Habsent' : Py.dict_get String.eqb list_name (_list_cache (self st')) = None)
    by exact Habsent.
  rewrite (create_or_update_list_absent _ _ _ _ Habsent').
  unfold _create_new_list, try_except, bind, call, raise, ret, get_self, set_cache, set_self.
  destruct (create_star_list list_name description (gateway st')) as [[nl|e1] w3];
    cbn [nonempty gateway trace self].
  - destruct (add_repos_to_list _ _ w3) as [[[]|e2] w4]; cbn [snd trace];
      eexists; rewrite <- app_assoc; reflexivity.
  - cbn [snd trace]. eexists. reflexivity.
Qed.

(** ** The loops over the groups *)

(** A loop that assigns one entry per group, to categories that differ, ends
    with the categories as its keys, in the order of the groups. *)
Lemma fold_M_keys {V A : Type}
    (f : Py.dict string V -> string * A -> M (Py.dict string V)) (l : list (string * A)) :
  (forall acc x st, In x l ->
     exists v st', f acc x st = (Ok (Py.dict_set String.eqb (fst x) v acc), st')) ->
  forall (acc : Py.dict string V) (st : State W),
    NoDup (Py.keys acc ++ map fst l) ->
    exists out st',
      fold_M f l acc st = (Ok out, st') /\ Py.keys out = Py.keys acc ++ map fst l.
Proof.
  induction l as [|x l IH]; intros Hstep acc st Hnodup.
  - exists acc, st. cbn. rewrite app_nil_r. split; reflexivity.
  - destruct (Hstep acc x st (or_introl eq_refl)) as [v [st1 E]].
    rewrite fold_M_cons, E.
    assert (Habsent : Py.dict_get String.eqb (fst x) acc = None).
    { apply dict_get_none_keys. intros Hin. cbn [map] in Hnodup.
      apply NoDup_remove_2 in Hnodup. apply Hnodup. apply in_or_app. left. exact Hin. }
    rewrite (dict_set_absent _ _ _ Habsent).
    destruct (IH (fun acc' x' st' Hin => Hstep acc' x' st' (or_intror Hin))
                (acc ++ [(fst x, v)]) st1) as [out [st' [E' Hkeys]]].
    { unfold Py.keys. rewrite map_app. cbn [map fst]. rewrite <- app_assoc. exact Hnodup. }
    exists out, st'. split; [exact E'|].
    rewrite Hkeys. unfold Py.keys. rewrite map_app, <- app_assoc. reflexivity.
Qed.

(** One turn of the loop of [ManageStarListsNode.exec] on a group that is not
    empty records a result that carries the description decided for it. *)
Lemma manage_one_shape (is_dry_run : bool) (summaries : Py.dict string string)
    (results : Py.dict string OperationResult) (category : string) (group : list Repo.t)
    (st : State W) :
  group <> [] ->
  exists r st',
    manage_one is_dry_run summaries results (category, group) st
    = (Ok (Py.dict_set String.eqb category r results), st')
    /\ enhanced_description r
       = Some (match Py.dict_get String.eqb category summaries with
               | Some d => d
               | None => ""
               end).
Proof.
  intros Hne. unfold manage_one.
  destruct group as [|repo group]; [contradiction|]. cbn [nonempty negb].
  destruct is_dry_run.
  - eexists _, _. split; reflexivity.
  - unfold try_except, bind, ret.
    destruct (create_or_update_list_total category
                (match Py.dict_get String.eqb category summaries with
                 | Some d => d
                 | None => ""
                 end) (repo :: group) st) as [r Hr].
    destruct (create_or_update_list _ _ _ st) as [res st1]. cbn [fst] in Hr. subst res.
    eexists _, _. split; reflexivity.
Qed.

Lemma manage_all_values (is_dry_run : bool) (summaries : Py.dict string string)
    (l : Py.dict string (list Repo.t)) :
  Forall (fun kv => snd kv <> []) l ->
  forall (results : Py.dict string OperationResult) (st : State W) out st',
    fold_M (manage_one is_dry_run summaries) l results st = (Ok out, st') ->
    forall category r,
      In (category, r) out ->
      In (category, r) results
      \/ enhanced_description r
         = Some (match Py.dict_get String.eqb category summaries with
                 | Some d => d
                 | None => ""
                 end).
Proof.
  induction 1 as [|[c group] l Hne Hall IH]; intros results st out st' E category r Hin.
  - cbn in E. injection E as <- <-. left. exact Hin.
  - rewrite fold_M_cons in E.
    destruct (manage_one_shape is_dry_run summaries results c group st Hne)
      as [r1 [st1 [E1 Hd]]].
    rewrite E1 in E.
    destruct (IH _ _ _ _ E category r Hin) as [Hold|Hnew]; [|right; exact Hnew].
    apply in_dict_set in Hold. destruct Hold as [[-> ->]|Hold]; [right; exact Hd|left; exact Hold].
Qed.

(** X4.  [ManageStarListsNode.exec] never raises, whatever the host and the
    model do, in a dry run or not.  It records one summary and one result for
    every group, in the order of the groups, and every result, also that of a
    group whose host call failed, carries the summary decided for its
    category. *)
Theorem reconciliation_reports_every_group
    (classification : Py.dict string (Classification.t string)) (starred : list Repo.t)
    (is_dry_run : bool) (cfg : Config) (st : State W) :
  exists out st',
    manage_exec classification starred is_dry_run cfg st = (Ok out, st')
    /\ organized_repos out = organize_repos_by_category String.eqb classification starred
    /\ Py.keys (enhanced_summaries out) = Py.keys (organized_repos out)
    /\ Py.keys (operation_results out) = Py.keys (organized_repos out)
    /\ forall category r,
         In (category, r) (operation_results out) ->
         exists d,
           Py.dict_get String.eqb category (enhanced_summaries out) = Some d
           /\ enhanced_description r = Some d.
Proof.
  unfold manage_exec.
  set (organized := organize_repos_by_category String.eqb classification starred).
  assert (Hnodup : NoDup (Py.keys (@nil (string * string)) ++ map fst organized))
    by exact (organize_keys_nodup classification starred).
  assert (Hnodup' : NoDup (Py.keys (@nil (string * OperationResult)) ++ map fst organized))
    by exact (organize_keys_nodup classification starred).
  assert (Hgroups : Forall (fun kv : string * list Repo.t => snd kv <> []) organized).
  { eapply Forall_impl; [|exact (organize_groups String.eqb classification starred)].
    intros kv [Hne _]. exact Hne. }
  unfold bind at 1. unfold set_self at 1.
  set (st0 := {| gateway := gateway st; trace := trace st; self := new_manager |}).
  unfold bind at 1.
  assert (Hopts : exists st1,
             (if has_overrides (config_summary_options cfg)
              then set_summary_options (config_summary_options cfg)
              else ret tt) st0 = (Ok tt, st1)).
  { destruct (has_overrides (config_summary_options cfg));
      cbv [set_summary_options bind get_self set_self ret]; eexists; reflexivity. }
  destruct Hopts as [st1 ->].
  unfold bind at 1.
  destruct (get_existing_lists_shape st1) as [lists [st2 [-> _]]].
  unfold bind at 1.
  destruct (fold_M_keys (complete_one lists) organized
              (fun acc x s _ =>
                 let '(c, g) as x' := x return
                   exists v s', complete_one lists acc x' s
                                = (Ok (Py.dict_set String.eqb (fst x') v acc), s') in
                 match complete_one_shape lists acc c g s with
                 | ex_intro _ v (ex_intro _ s' (ex_intro _ _ (conj E _))) =>
                     ex_intro _ v (ex_intro _ s' E)
                 end)
              [] st2 Hnodup) as [summaries [st3 [Esum Hkeys]]].
  unfold complete_list_summaries. rewrite Esum.
  unfold bind at 1.
  destruct (fold_M_keys (manage_one is_dry_run summaries) organized) with (acc := @nil (string * OperationResult)) (st := st3)
    as [results [st4 [Eres Hkeys']]].
  { intros acc [c g] s Hin.
    assert (Hne : g <> []).
    { rewrite Forall_forall in Hgroups. exact (Hgroups _ Hin). }
    destruct (manage_one_shape is_dry_run summaries acc c g s Hne) as [r [s' [E _]]].
    exists r, s'. exact E. }
  { exact Hnodup'. }
  rewrite Eres. unfold ret.
  eexists _, _. split; [reflexivity|]. cbn [organized_repos enhanced_summaries operation_results].
  split; [reflexivity|]. split; [exact Hkeys|]. split; [exact Hkeys'|].
  intros category r Hin.
  destruct (manage_all_values is_dry_run summaries organized Hgroups [] st3 results st4 Eres
              category r Hin) as [[]|Hd].
  assert (Hmem : In category (Py.keys summaries)).
  { change (Py.keys summaries = map fst organized) in Hkeys.
    change (Py.keys results = map fst organized) in Hkeys'.
    rewrite Hkeys, <- Hkeys'. unfold Py.keys. change category with (fst (category, r)). apply in_map. exact Hin. }
  destruct (Py.dict_get String.eqb category summaries) as [d|] eqn:Eget.
  - exists d. split; [reflexivity|exact Hd].
  - apply dict_get_none_keys in Eget. contradiction.
Qed.

(** ** The classification mapping *)

Lemma keys_dict_set {V : Type} (d : Py.dict string V) (k : string) (v : V) :
  Py.keys (Py.dict_set String.eqb k v d)
  = if Py.dict_mem String.eqb k d then Py.keys d else Py.keys d ++ [k].
Proof.
  unfold Py.dict_mem. destruct (Py.dict_get String.eqb k d) as [v0|] eqn:E.
  - exact (keys_dict_set_present d k v v0 E).
  - rewrite (dict_set_absent d k v E). unfold Py.keys. rewrite map_app. reflexivity.
Qed.

Lemma dict_mem_keys {V : Type} (d : Py.dict string V) (k : string) :
  Py.dict_mem String.eqb k d = true <-> In k (Py.keys d).
Proof.
  unfold Py.dict_mem. destruct (Py.dict_get String.eqb k d) eqn:E.
  - split; [intros _|reflexivity].
    destruct (in_dec string_dec k (Py.keys d)) as [Hin|Hout]; [exact Hin|].
    apply dict_get_none_keys in Hout. congruence.
  - apply dict_get_none_keys in E. split; [discriminate|contradiction].
Qed.

Lemma dict_set_keys_nodup {V : Type} (d : Py.dict string V) (k : string) (v : V) :
  NoDup (Py.keys d) -> NoDup (Py.keys (Py.dict_set String.eqb k v d)).
Proof.
  intros Hnodup. rewrite keys_dict_set.
  destruct (Py.dict_mem String.eqb k d) eqn:E; [exact Hnodup|].
  apply NoDup_app; [exact Hnodup|repeat constructor; intros []|].
  intros x Hx [<-|[]]. apply dict_mem_keys in Hx. congruence.
Qed.

Lemma dict_set_length {V : Type} (d : Py.dict string V) (k : string) (v : V) :
  List.length (Py.dict_set String.eqb k v d) <= S (List.length d).
Proof.
  rewrite <- (length_map fst (Py.dict_set String.eqb k v d)).
  fold (Py.keys (Py.dict_set String.eqb k v d)). rewrite keys_dict_set.
  destruct (Py.dict_mem String.eqb k d); unfold Py.keys.
  - rewrite length_map. lia.
  - rewrite length_app, length_map. cbn. lia.
Qed.

Lemma assign_all_keys {V : Type} (l : list (string * V)) :
  forall d : Py.dict string V,
    NoDup (Py.keys d) ->
    NoDup (Py.keys (assign_all l d))
    /\ (forall k, In k (Py.keys (assign_all l d)) <-> In k (map fst l) \/ In k (Py.keys d))
    /\ List.length (assign_all l d) <= List.length d + List.length l.
Proof.
  induction l as [|[k v] l IH]; intros d Hnodup.
  - cbn. split; [exact Hnodup|]. split; [|lia]. intros k. tauto.
  - rewrite assign_all_cons.
    destruct (IH _ (dict_set_keys_nodup d k v Hnodup)) as [Hn [Hk Hl]].
    split; [exact Hn|]. split.
    + intros k0. rewrite Hk, keys_dict_set. cbn [map fst In].
      destruct (Py.dict_mem String.eqb k d) eqn:E.
      * apply dict_mem_keys in E. split; [tauto|].
        intros [[<-|H]|H]; tauto.
      * rewrite in_app_iff. cbn [In]. tauto.
    + pose proof (dict_set_length d k v). cbn [List.length]. lia.
Qed.

Lemma count_categories_ok (results : list (Classification.t yaml)) :
  (forall result, In result results -> hashable (Classification.category result) = true) ->
  count_categories results = Ok tt.
Proof.
  induction results as [|result results IH]; intros Hall; [reflexivity|].
  cbn [count_categories]. rewrite (Hall result (or_introl eq_refl)).
  apply IH. intros r Hin. apply Hall. right. exact Hin.
Qed.

Lemma count_categories_raises (results : list (Classification.t yaml))
    (result : Classification.t yaml) :
  In result results ->
  hashable (Classification.category result) = false ->
  exists e, count_categories results = Raise e.
Proof.
  induction results as [|r results IH]; intros Hin Hbad; [destruct Hin|].
  cbn [count_categories]. destruct (hashable (Classification.category r)) eqn:Hr.
  - destruct Hin as [->|Hin]; [congruence|]. exact (IH Hin Hbad).
  - eexists. reflexivity.
Qed.

(** X6.  The batch classification never raises, and the mapping [post] stores
    from its results has exactly one entry for every full name of a starred
    repository that is not excluded: no repository that is kept goes without a
    classification, also when the model fails for it, and a full name starred
    twice keeps one entry.  The stage returns that mapping when every category
    in it can key a dictionary; when the model gave a list or a mapping as the
    category of some repository, [post] raises while counting the categories,
    after all the model calls have been made. *)
Theorem every_kept_repository_is_classified (shared : Shared) (st : State W) :
  exists exec_res_list st',
    map_M analyze_exec (analyze_prep shared) st = (Ok exec_res_list, st')
    /\ NoDup (Py.keys (analyze_post exec_res_list))
    /\ (forall name,
          In name (Py.keys (analyze_post exec_res_list))
          <-> exists repo,
                In repo (starred_repos shared)
                /\ not_excluded (config shared) repo = true
                /\ Repo.full_name repo = name)
    /\ List.length (analyze_post exec_res_list)
       <= List.length (filter (not_excluded (config shared)) (starred_repos shared))
    /\ ((forall name result,
           In (name, result) (analyze_post exec_res_list) ->
           hashable (Classification.category result) = true) ->
        analyze_run shared st = (Ok (analyze_post exec_res_list), st'))
    /\ (forall name result,
          In (name, result) (analyze_post exec_res_list) ->
          hashable (Classification.category result) = false ->
          exists e, analyze_run shared st = (Raise e, st')).
Proof.
  exists (batch_results (analyze_prep shared) st), (batch_state (analyze_prep shared) st).
  split; [apply batch_run|].
  assert (Hrun : analyze_run shared st
                 = match count_categories
                           (map snd (analyze_post (batch_results (analyze_prep shared) st)))
                   with
                   | Ok _ => (Ok (analyze_post (batch_results (analyze_prep shared) st)),
                              batch_state (analyze_prep shared) st)
                   | Raise e => (Raise e, batch_state (analyze_prep shared) st)
                   end).
  { unfold analyze_run, bind. rewrite batch_run. cbv zeta.
    destruct (count_categories _); reflexivity. }
  rewrite Hrun. clear Hrun.
  set (stored := analyze_post (batch_results (analyze_prep shared) st)).
  assert (Hstored : stored = assign_all (batch_results (analyze_prep shared) st) [])
    by apply analyze_post_assign.
  destruct (assign_all_keys (batch_results (analyze_prep shared) st) [] (NoDup_nil _))
    as [Hn [Hk Hl]].
  rewrite <- Hstored in Hn, Hk, Hl.
  split; [exact Hn|]. split; [|split; [|split]].
  - intros name. rewrite Hk, batch_results_names. cbn [Py.keys map In].
    unfold analyze_prep. rewrite map_map. cbn [item_name].
    rewrite in_map_iff. split.
    + intros [[repo [<- Hin]]|[]]. apply filter_In in Hin. destruct Hin as [Hin Hkeep].
      exists repo. split; [exact Hin|]. split; [exact Hkeep|reflexivity].
    + intros [repo [Hin [Hkeep <-]]]. left. exists repo. split; [reflexivity|].
      apply filter_In. split; [exact Hin|exact Hkeep].
  - cbn [List.length] in Hl. rewrite Nat.add_0_l in Hl.
    assert (E : List.length (batch_results (analyze_prep shared) st)
                = List.length (filter (not_excluded (config shared)) (starred_repos shared))).
    { rewrite <- (length_map fst), batch_results_names, length_map.
      unfold analyze_prep. rewrite length_map. reflexivity. }
    rewrite <- E. exact Hl.
  - intros Hall. rewrite count_categories_ok; [reflexivity|].
    intros result Hin. apply in_map_iff in Hin. destruct Hin as [[name r] [<- Hin]].
    exact (Hall name r Hin).
  - intros name result Hin Hbad.
    destruct (count_categories_raises (map snd stored) result) as [e He]; [|exact Hbad|].
    + change result with (snd (name, result)). apply in_map. exact Hin.
    + rewrite He. exists e. reflexivity.
Qed.

(** ** The summaries *)

Lemma truthy_false (s : string) : Py.truthy s = false -> s = "".
Proof.
  unfold Py.truthy. intros H. apply negb_false_iff in H. apply String.eqb_eq. exact H.
Qed.

(** One turn of the loop of [complete_list_summaries] records the summary of
    its category, makes at most one call, to the model, and none when the
    manager does not use the model. *)
Lemma complete_one_calls (existing_lists : list RemoteList.t)
    (summaries : Py.dict string string) (category : string) (group : list Repo.t)
    (st : State W) :
  exists v st' calls,
    complete_one existing_lists summaries (category, group) st
    = (Ok (Py.dict_set String.eqb category v summaries), st')
    /\ self st' = self st
    /\ trace st' = trace st ++ calls
    /\ Forall (fun c => is_llm c = true) calls
    /\ List.length calls <= 1
    /\ (use_ai_summary (summary_options (self st)) = false ->
        st' = st
        /\ v = offline_summary (summary_options (self st)) existing_lists (category, group)).
Proof.
  pose proof truthy_false as Hempty.
  unfold complete_one.
  destruct (find (fun lst => RemoteList.name lst =? category) existing_lists)
    as [existing_list|] eqn:Efind.
  - unfold bind at 1, get_self at 1.
    destruct (Py.truthy (get_or "" (RemoteList.description existing_list))) eqn:Et;
      destruct (auto_complete (summary_options (self st))) eqn:Ea;
      destruct (enhance_existing (summary_options (self st))) eqn:Ee;
      cbn [negb andb]; unfold bind, ret;
      rewrite ?generate_ai_summary_run, ?enhance_existing_description_run; cbv zeta;
      destruct (use_ai_summary (summary_options (self st))) eqn:Eu;
      try match goal with
          | |- context [if negb (?a =? ?b) then _ else _] => destruct (negb (a =? b))
          end;
      first
        [ solve [ eexists _, _, []; rewrite app_nil_r;
                  split; [reflexivity|]; split; [reflexivity|]; split; [reflexivity|];
                  split; [constructor|]; split; [cbn; lia|];
                  intros Hoff;
                  first [ discriminate Hoff
                        | split; [reflexivity|];
                          unfold offline_summary; cbn [fst snd]; rewrite Efind;
                          unfold cached_description; rewrite Et, ?Ea;
                          first [reflexivity | exact (Hempty _ Et)] ] ]
        | solve [ eexists _, _, [LlmCall _];
                  split; [reflexivity|]; split; [reflexivity|]; split; [reflexivity|];
                  split; [repeat constructor|]; split; [cbn; lia|];
                  intros Hoff; discriminate Hoff ] ].
  - unfold bind, ret. rewrite generate_ai_summary_run. cbv zeta.
    destruct (use_ai_summary (summary_options (self st))) eqn:Eu.
    + eexists _, _, [LlmCall _].
      split; [reflexivity|]. split; [reflexivity|]. split; [reflexivity|].
      split; [repeat constructor|]. split; [cbn; lia|]. intros Hoff; discriminate Hoff.
    + eexists _, _, []. rewrite app_nil_r.
      split; [reflexivity|]. split; [reflexivity|]. split; [reflexivity|].
      split; [constructor|]. split; [cbn; lia|]. intros _. split; [reflexivity|].
      unfold offline_summary. cbn [fst snd]. rewrite Efind. reflexivity.
Qed.

Lemma complete_all_calls (existing_lists : list RemoteList.t)
    (l : Py.dict string (list Repo.t)) :
  forall (acc : Py.dict string string) (st : State W),
    NoDup (Py.keys acc ++ map fst l) ->
    exists out st' calls,
      fold_M (complete_one existing_lists) l acc st = (Ok out, st')
      /\ Py.keys out = Py.keys acc ++ map fst l
      /\ self st' = self st
      /\ trace st' = trace st ++ calls
      /\ Forall (fun c => is_llm c = true) calls
      /\ List.length calls <= List.length l
      /\ (use_ai_summary (summary_options (self st)) = false ->
          st' = st
          /\ out = acc ++ map (fun kv => (fst kv,
                                          offline_summary (summary_options (self st))
                                            existing_lists kv)) l).
Proof.
  induction l as [|[category group] l IH]; intros acc st Hnodup.
  - exists acc, st, []. cbn. rewrite !app_nil_r.
    do 4 (split; [reflexivity|]). split; [constructor|]. split; [constructor|].
    intros _. split; reflexivity.
  - destruct (complete_one_calls existing_lists acc category group st)
      as (v & st1 & calls1 & E1 & Hself1 & Htrace1 & Hllm1 & Hlen1 & Hoff1).
    rewrite fold_M_cons, E1.
    assert (Habsent : Py.dict_get String.eqb category acc = None).
    { apply dict_get_none_keys. intros Hin. cbn [map fst] in Hnodup.
      apply NoDup_remove_2 in Hnodup. apply Hnodup. apply in_or_app. left. exact Hin. }
    rewrite (dict_set_absent _ _ _ Habsent).
    destruct (IH (acc ++ [(category, v)]) st1)
      as (out & st' & calls & E & Hkeys & Hself & Htrace & Hllm & Hlen & Hoff).
    { unfold Py.keys. rewrite map_app. cbn [map fst]. rewrite <- app_assoc. exact Hnodup. }
    exists out, st', (calls1 ++ calls).
    split; [exact E|]. split.
    { rewrite Hkeys. unfold Py.keys. rewrite map_app, <- app_assoc. reflexivity. }
    split; [congruence|]. split.
    { rewrite Htrace, Htrace1, app_assoc. reflexivity. }
    split; [apply Forall_app; split; assumption|]. split.
    { rewrite length_app. cbn [List.length]. lia. }
    intros Hu. destruct (Hoff1 Hu) as [-> ->].
    destruct (Hoff Hu) as [-> ->]. split; [reflexivity|].
    cbn [map fst]. rewrite <- app_assoc. reflexivity.
Qed.

(** X7.  [complete_list_summaries] never raises and decides one summary for
    every category, in the order of the categories.  The only calls it makes go
    to the model, at most one per category, and the manager is left as it was.
    When the manager does not use the model it makes no call at all, and every
    summary is the one decided offline: the description the first list of that
    name has, or the basic description when there is no such list or, with
    [auto_complete], when its description is empty. *)
Theorem summaries_cost_at_most_one_model_call (existing_lists : list RemoteList.t)
    (repos_by_category : Py.dict string (list Repo.t)) (st : State W) :
  NoDup (Py.keys repos_by_category) ->
  exists summaries st' calls,
    complete_list_summaries existing_lists repos_by_category st = (Ok summaries, st')
    /\ Py.keys summaries = Py.keys repos_by_category
    /\ self st' = self st
    /\ trace st' = trace st ++ calls
    /\ Forall (fun c => is_llm c = true) calls
    /\ List.length calls <= List.length repos_by_category
    /\ (use_ai_summary (summary_options (self st)) = false ->
        st' = st
        /\ summaries
           = map (fun kv => (fst kv,
                             offline_summary (summary_options (self st)) existing_lists kv))
               repos_by_category).
Proof.
  intros Hnodup. exact (complete_all_calls existing_lists repos_by_category [] st Hnodup).
Qed.

(** ** The batch operations of the manager *)

(** X9.  [execute_batch_operations] never raises and never calls the host.  In
    a dry run every group that is not empty gets the dry-run result with its
    full names.  Otherwise every such group gets a failure: the description is
    asked from [_generate_list_description], which the class does not have,
    and the attribute error is recorded as the error of the group. *)
Theorem batch_operations_fail_outside_dry_run
    (organized : Py.dict string (list Repo.t)) (is_dry_run : bool) (st : State W) :
  execute_batch_operations organized is_dry_run st
  = (Ok (assign_all
           (map (fun kv => (fst kv,
                            if is_dry_run then batch_dry_run_result (snd kv)
                            else error_result no_generate_list_description))
              (filter (fun kv => nonempty (snd kv)) organized))
           []),
     st).
Proof.
  unfold execute_batch_operations. generalize (@nil (string * OperationResult)) as results.
  induction organized as [|[category group] organized IH]; intros results; [reflexivity|].
  rewrite fold_M_cons. cbn [filter snd].
  destruct group as [|repo group]; cbn [nonempty].
  - cbn [execute_one nonempty negb]. unfold ret. apply IH.
  - cbn [map fst snd]. rewrite assign_all_cons, <- IH.
    destruct is_dry_run; reflexivity.
Qed.

(** ** The statistics of a group *)

Lemma stats_fold (repos : list Repo.t) :
  forall (languages : Py.dict string nat) (stars : Z) (topics : Py.dict string nat),
    fold_left stats_step repos (languages, stars, topics)
    = (fold_left (fun languages repo =>
                    match known_language repo with
                    | Some lang => count_language languages lang
                    | None => languages
                    end) repos languages,
       fold_left (fun acc repo => (acc + match Repo.stargazers_count repo with
                                         | Some n => n
                                         | None => 0
                                         end)%Z) repos stars,
       fold_left count_language (flat_map Repo.topics repos) topics).
Proof.
  induction repos as [|repo repos IH]; intros languages stars topics; [reflexivity|].
  cbn [fold_left flat_map stats_step]. rewrite IH, fold_left_app. reflexivity.
Qed.

Lemma dict_set_total (d : Py.dict string nat) (k : string) (v : nat) :
  list_sum (map snd (Py.dict_set String.eqb k v d))
  + match Py.dict_get String.eqb k d with Some n => n | None => 0 end
  = list_sum (map snd d) + v.
Proof.
  induction d as [|[k' n] d IH]; [cbn; lia|].
  cbn [Py.dict_get Py.dict_set]. destruct (k' =? k)%string.
  - unfold list_sum. cbn [map snd fold_right]. lia.
  - unfold list_sum in *. cbn [map snd fold_right]. lia.
Qed.

Lemma count_language_total (d : Py.dict string nat) (k : string) :
  list_sum (map snd (count_language d k)) = S (list_sum (map snd d)).
Proof.
  unfold count_language.
  pose proof (dict_set_total d k
                (match Py.dict_get String.eqb k d with Some n => n | None => 0 end + 1)).
  lia.
Qed.

Lemma count_all_total (ks : list string) :
  forall d : Py.dict string nat,
    list_sum (map snd (fold_left count_language ks d))
    = list_sum (map snd d) + List.length ks.
Proof.
  induction ks as [|k ks IH]; intros d; cbn [fold_left List.length]; [lia|].
  rewrite IH, count_language_total. lia.
Qed.

Lemma firstn_incl {A : Type} (n : nat) (l : list A) (x : A) :
  In x (firstn n l) -> In x l.
Proof.
  intros Hin. rewrite <- (firstn_skipn n l). apply in_or_app. left. exact Hin.
Qed.

(** X10.  The statistics [_get_repository_stats] puts in the enhancement
    prompt are those of the basic description: the total of stars is the same,
    the top languages are the first three of the ranking of the languages, each
    with its number of repositories, the counts of the languages add up to the
    number of repositories that have a language and those of the topics to the
    number of topics of the repositories. *)
Theorem repository_stats_agree (repos : list Repo.t) :
  let stats := _get_repository_stats repos in
  stats_count stats = List.length repos
  /\ stats_total_stars stats = sum_stars repos
  /\ list_sum (map snd (stats_languages stats)) = List.length (known_languages repos)
  /\ list_sum (map snd (stats_topics stats)) = List.length (flat_map Repo.topics repos)
  /\ (exists ranking,
        is_language_ranking repos ranking
        /\ map fst (stats_top_languages stats) = firstn 3 ranking)
  /\ (forall lang n,
        In (lang, n) (stats_top_languages stats) ->
        n = repo_count (known_languages repos) lang)
  /\ List.length (stats_top_languages stats) <= 3
  /\ List.length (stats_top_topics stats) <= 5.
Proof.
  unfold _get_repository_stats. rewrite stats_fold.
  fold (count_languages repos). fold (sum_stars repos).
  cbn [stats_count stats_total_stars stats_languages stats_topics stats_top_languages
       stats_top_topics].
  split; [reflexivity|]. split; [reflexivity|]. split.
  { rewrite count_languages_fold, count_all_total. reflexivity. }
  split; [rewrite count_all_total; reflexivity|]. split.
  { exists (map fst (Py.sorted_desc snd (count_languages repos))).
    split; [apply sorted_languages_ranking|]. symmetry. apply firstn_map. }
  split.
  { intros lang n Hin. apply firstn_incl in Hin.
    apply (Permutation_in _ (sorted_desc_perm snd (count_languages repos))) in Hin.
    rewrite count_languages_fold in Hin.
    destruct (counted_all (known_languages repos)) as (_ & _ & Hcount & _).
    exact (Hcount lang n Hin). }
  split; apply firstn_le_length.
Qed.

(** ** The mode and the prompt *)

(** X11.  [ModeDecisionNode.exec] never raises, and the classifier is asked
    to choose among existing categories only when the mode requested is
    "existing_lists" and the host returned at least one list: the categories
    are then the names of these lists.  In every other case, also when the
    lists could not be fetched, the prompt is the one of the automatic
    categorization. *)
Theorem existing_lists_mode_needs_lists (requested : string) (repo_info : Repo.t)
    (st : State W) :
  exists decision st',
    mode_decision_exec requested st = (Ok decision, st')
    /\ build_prompt {| analyzer_categories := decided_categories decision |}
         repo_info (decided_mode decision)
       = match (if String.eqb requested "existing_lists"
                then fst (get_user_lists (gateway st))
                else Ok []) with
         | Ok (lst :: lists) =>
             _build_existing_categories_prompt (map RemoteList.name (lst :: lists))
               (get_or "" (Repo.name repo_info)) (get_or "" (Repo.description repo_info))
               (get_or "" (Repo.language repo_info)) (Repo.topics repo_info) ""
         | _ =>
             _build_auto_categorization_prompt
               (get_or "" (Repo.name repo_info)) (get_or "" (Repo.description repo_info))
               (get_or "" (Repo.language repo_info)) (Repo.topics repo_info) ""
         end.
Proof.
  unfold mode_decision_exec.
  destruct (String.eqb_spec requested "existing_lists") as [->|Hne].
  - cbv beta iota zeta delta [get_existing_lists try_except bind call set_cache get_self
                              set_self ret].
    cbn [gateway trace self].
    destruct (get_user_lists (gateway st)) as [[lists|e] w]; cbn [fst];
      eexists _, _; (split; [reflexivity|]); cbn [decided_categories decided_mode];
      unfold build_prompt; cbn [analyzer_categories].
    + destruct lists; reflexivity.
    + reflexivity.
  - eexists _, _. split; [reflexivity|]. reflexivity.
Qed.

(** ** The lists a live run creates *)

Lemma get_existing_lists_run (st : State W) :
  exists st',
    get_existing_lists st = (Ok (fetched_lists st), st')
    /\ trace st' = trace st ++ [GetUserLists]
    /\ summary_options (self st') = summary_options (self st)
    /\ forall name,
         Py.dict_get String.eqb name (_list_cache (self st'))
         = match fst (get_user_lists (gateway st)) with
           | Ok lists => list_named lists name
           | Raise _ => Py.dict_get String.eqb name (_list_cache (self st))
           end.
Proof.
  unfold fetched_lists.
  cbv beta iota zeta delta [get_existing_lists try_except bind call set_cache get_self
                            set_self ret].
  destruct (get_user_lists (gateway st)) as [[lists|e] w];
    cbn [fst snd gateway trace self _list_cache summary_options];
    eexists; (split; [reflexivity|]); cbn [trace self _list_cache summary_options];
    (split; [reflexivity|]); (split; [reflexivity|]); intros name; [|reflexivity].
  unfold list_named.
  induction lists as [|x lists IH] using rev_ind; [reflexivity|].
  rewrite fold_left_app, find_rev_last. cbn [fold_left].
  destruct (String.eqb_spec (RemoteList.name x) name) as [<-|Hne].
  - apply dict_get_set_same.
  - rewrite dict_get_set_other by congruence. exact IH.
Qed.

Lemma in_filter_create (calls : list Call) (c : Call) :
  In c calls -> is_create c = true -> In c (filter is_create calls).
Proof. intros Hin Hc. apply filter_In. split; assumption. Qed.

(** A call creates a list exactly when the cache does not have its name, and
    the cache changes at that name only. *)
Lemma create_or_update_list_creates (list_name description : string)
    (group : list Repo.t) (st : State W) :
  let out := create_or_update_list list_name description group st in
  exists calls,
    trace (snd out) = trace st ++ calls
    /\ filter is_create calls
       = (if Py.dict_mem String.eqb list_name (_list_cache (self st))
          then [] else [CreateStarList list_name description])
    /\ (forall name, name <> list_name ->
          Py.dict_get String.eqb name (_list_cache (self (snd out)))
          = Py.dict_get String.eqb name (_list_cache (self st))).
Proof.
  cbv zeta. unfold Py.dict_mem.
  destruct (Py.dict_get String.eqb list_name (_list_cache (self st))) as [l|] eqn:H.
  - rewrite (create_or_update_list_present _ _ _ _ _ H).
    destruct (update_existing_list_calls l description group st)
      as (calls & Ht & Hs & _ & Hc & _).
    cbv zeta in Ht, Hs.
    destruct (_update_existing_list l description group st) as [[r|e] st'];
      cbn [snd] in *; exists calls; (split; [exact Ht|]); (split; [exact Hc|]);
      intros name _; rewrite Hs; reflexivity.
  - rewrite (create_or_update_list_absent _ _ _ _ H).
    destruct (create_new_list_calls list_name description group st)
      as (calls & Ht & Hc & _ & Hraise & Hok).
    cbv zeta in Ht, Hraise, Hok.
    destruct (_create_new_list list_name description group st) as [[r|e] st'];
      cbn [fst snd] in *; exists calls; (split; [exact Ht|]); (split; [exact Hc|]);
      intros name Hne.
    + destruct (Hok r eq_refl) as (new_list & _ & Hcache & _).
      rewrite Hcache. apply dict_get_set_other. exact Hne.
    + rewrite (Hraise e eq_refl). reflexivity.
Qed.

Lemma manage_one_creates (summaries : Py.dict string string)
    (results : Py.dict string OperationResult) (category : string) (group : list Repo.t)
    (st : State W) :
  group <> [] ->
  exists out st' calls,
    manage_one false summaries results (category, group) st = (Ok out, st')
    /\ trace st' = trace st ++ calls
    /\ filter is_create calls
       = (if Py.dict_mem String.eqb category (_list_cache (self st))
          then [] else [CreateStarList category (decided_description summaries category)])
    /\ (forall name, name <> category ->
          Py.dict_get String.eqb name (_list_cache (self st'))
          = Py.dict_get String.eqb name (_list_cache (self st))).
Proof.
  intros Hne. unfold manage_one.
  destruct group as [|repo group]; [contradiction|]. cbn [nonempty negb].
  fold (decided_description summaries category).
  unfold try_except, bind, ret.
  destruct (create_or_update_list_creates category (decided_description summaries category)
              (repo :: group) st) as (calls & Ht & Hc & Hcache).
  cbv zeta in Ht, Hcache.
  destruct (create_or_update_list category (decided_description summaries category)
              (repo :: group) st) as [[r|e] st1];
    cbn [snd] in *; eexists _, _, calls; (split; [reflexivity|]);
    (split; [exact Ht|]); (split; [exact Hc|]); exact Hcache.
Qed.

Lemma manage_all_creates (summaries : Py.dict string string)
    (l : Py.dict string (list Repo.t)) :
  NoDup (Py.keys l) ->
  Forall (fun kv => snd kv <> []) l ->
  forall (results : Py.dict string OperationResult) (st : State W),
  exists out st' calls,
    fold_M (manage_one false summaries) l results st = (Ok out, st')
    /\ trace st' = trace st ++ calls
    /\ filter is_create calls
       = map (fun kv => CreateStarList (fst kv) (decided_description summaries (fst kv)))
           (filter (fun kv => negb (Py.dict_mem String.eqb (fst kv) (_list_cache (self st))))
              l)
    /\ (forall name, ~ In name (Py.keys l) ->
          Py.dict_get String.eqb name (_list_cache (self st'))
          = Py.dict_get String.eqb name (_list_cache (self st))).
Proof.
  induction l as [|[category group] l IH]; intros Hnodup Hall results st.
  - exists results, st, []. cbn. rewrite app_nil_r. repeat split.
  - unfold Py.keys in Hnodup. cbn [map fst] in Hnodup.
    apply NoDup_cons_iff in Hnodup. destruct Hnodup as [Hfresh Hnodup].
    apply Forall_cons_iff in Hall. destruct Hall as [Hne Hall]. cbn [snd] in Hne.
    destruct (manage_one_creates summaries results category group st Hne)
      as (out1 & st1 & calls1 & E1 & Ht1 & Hc1 & Hcache1).
    destruct (IH Hnodup Hall out1 st1) as (out & st' & calls & E & Ht & Hc & Hcache).
    exists out, st', (calls1 ++ calls).
    split; [rewrite fold_M_cons, E1; exact E|].
    split; [rewrite Ht, Ht1, app_assoc; reflexivity|].
    split.
    + rewrite filter_app, Hc1, Hc. cbn [filter fst].
      assert (Hsame : filter (fun kv : string * list Repo.t =>
                                negb (Py.dict_mem String.eqb (fst kv) (_list_cache (self st1))))
                        l
                      = filter (fun kv : string * list Repo.t =>
                                  negb (Py.dict_mem String.eqb (fst kv)
                                          (_list_cache (self st)))) l).
      { apply filter_ext_in. intros [k g] Hin. cbn [fst]. unfold Py.dict_mem.
        rewrite Hcache1; [reflexivity|].
        intros ->. apply Hfresh. unfold Py.keys.
        change category with (fst (category, g)). apply in_map. exact Hin. }
      rewrite Hsame.
      destruct (Py.dict_mem String.eqb category (_list_cache (self st))); reflexivity.
    + intros name Hout. cbn [Py.keys map fst In] in Hout.
      rewrite Hcache by tauto. apply Hcache1. intros ->. tauto.
Qed.

Lemma filter_create_llm (calls : list Call) :
  Forall (fun c => is_llm c = true) calls -> filter is_create calls = [].
Proof.
  induction 1 as [|c calls Hc _ IH]; [reflexivity|].
  cbn [filter]. rewrite IH. destruct c; first [discriminate Hc | reflexivity].
Qed.

(** X8.  A run that is not a dry run asks the host to create a list exactly
    for the groups whose category is not the name of a list it fetched, once
    per group and in the order of the groups, with the summary decided for the
    category as description.  No list is created for a category the host
    already has; when the lists cannot be fetched, every group is created. *)
Theorem live_run_creates_the_missing_lists
    (classification : Py.dict string (Classification.t string)) (starred : list Repo.t)
    (cfg : Config) (st : State W) :
  exists out st' calls,
    manage_exec classification starred false cfg st = (Ok out, st')
    /\ trace st' = trace st ++ calls
    /\ filter is_create calls
       = map (fun kv => CreateStarList (fst kv)
                          (decided_description (enhanced_summaries out) (fst kv)))
           (filter (fun kv => negb (is_listed (fetched_lists st) (fst kv)))
              (organized_repos out)).
Proof.
  unfold manage_exec.
  set (organized := organize_repos_by_category String.eqb classification starred).
  pose proof (organize_keys_nodup classification starred) as Hnodup.
  fold organized in Hnodup.
  assert (Hgroups : Forall (fun kv : string * list Repo.t => snd kv <> []) organized).
  { eapply Forall_impl; [|exact (organize_groups String.eqb classification starred)].
    intros kv [Hne _]. exact Hne. }
  unfold bind at 1. unfold set_self at 1.
  set (st0 := {| gateway := gateway st; trace := trace st; self := new_manager |}).
  unfold bind at 1.
  assert (Hopts : exists m,
             (if has_overrides (config_summary_options cfg)
              then set_summary_options (config_summary_options cfg)
              else ret tt) st0
             = (Ok tt, {| gateway := gateway st; trace := trace st; self := m |})
             /\ _list_cache m = []).
  { destruct (has_overrides (config_summary_options cfg));
      cbv [set_summary_options bind get_self set_self ret]; eexists;
      split; reflexivity. }
  destruct Hopts as (m & -> & Hempty).
  set (st1 := {| gateway := gateway st; trace := trace st; self := m |}).
  unfold bind at 1.
  destruct (get_existing_lists_run st1) as (st2 & E2 & Ht2 & _ & Hcache2).
  rewrite E2.
  assert (Hlisted : forall name,
             Py.dict_mem String.eqb name (_list_cache (self st2))
             = is_listed (fetched_lists st) name).
  { intros name. unfold Py.dict_mem, is_listed, fetched_lists. rewrite Hcache2.
    cbn [st1 gateway self]. rewrite Hempty.
    destruct (fst (get_user_lists (gateway st))); reflexivity. }
  unfold bind at 1. unfold complete_list_summaries.
  destruct (complete_all_calls (fetched_lists st1) organized [] st2 Hnodup)
    as (summaries & st3 & calls3 & E3 & _ & Hs3 & Ht3 & Hllm3 & _).
  rewrite E3. unfold bind at 1.
  destruct (manage_all_creates summaries organized Hnodup Hgroups [] st3)
    as (results & st4 & calls4 & E4 & Ht4 & Hc4 & _).
  rewrite E4. unfold ret.
  exists {| organized_repos := organized; operation_results := results;
            enhanced_summaries := summaries |}, st4, ([GetUserLists] ++ calls3 ++ calls4).
  split; [reflexivity|]. split.
  { rewrite Ht4, Ht3, Ht2. cbn [st1 trace]. rewrite <- !app_assoc. reflexivity. }
  cbn [enhanced_summaries organized_repos].
  rewrite !filter_app, (filter_create_llm calls3 Hllm3), Hc4. cbn [filter is_create app].
  f_equal. apply filter_ext. intros kv. rewrite Hs3, Hlisted. reflexivity.
Qed.

(** ** The repositories a live run attaches *)

Lemma create_new_list_adds (list_name description : string) (group : list Repo.t)
    (st : State W) :
  exists calls,
    trace (snd (_create_new_list list_name description group st)) = trace st ++ calls
    /\ forall lid ids, In (AddReposToList lid ids) calls -> ids = map Repo.id group.
Proof.
  run_manager.
  destruct (create_star_list list_name description (gateway st)) as [[new_list|e] w];
    cbn [gateway trace self fst snd].
  - destruct group as [|repo group];
      cbn [nonempty map gateway trace self _list_cache summary_options fst snd].
    + exists [CreateStarList list_name description]. split; [reflexivity|].
      intros lid ids [H|[]]. discriminate H.
    + destruct (add_repos_to_list _ _ w) as [[[]|e] w'];
        cbn [gateway trace self _list_cache summary_options fst snd];
        exists [CreateStarList list_name description;
                AddReposToList (RemoteList.id new_list) (Repo.id repo :: map Repo.id group)];
        (split; [rewrite <- app_assoc; reflexivity|]);
        intros lid ids [H|[H|[]]]; first [discriminate H | injection H as _ <-; reflexivity].
  - exists [CreateStarList list_name description]. split; [reflexivity|].
    intros lid ids [H|[]]. discriminate H.
Qed.

Lemma create_or_update_list_adds (list_name description : string) (group : list Repo.t)
    (st : State W) :
  exists calls,
    trace (snd (create_or_update_list list_name description group st)) = trace st ++ calls
    /\ forall lid ids, In (AddReposToList lid ids) calls -> ids = map Repo.id group.
Proof.
  destruct (Py.dict_get String.eqb list_name (_list_cache (self st))) as [l|] eqn:H.
  - rewrite (create_or_update_list_present _ _ _ _ _ H).
    destruct (update_existing_list_calls l description group st)
      as (calls & Ht & _ & _ & _ & Hadd & _).
    cbv zeta in Ht.
    exists calls. split.
    + destruct (_update_existing_list l description group st) as [[r|e] st']; exact Ht.
    + intros lid ids Hin. specialize (Hadd _ Hin eq_refl). injection Hadd as _ ->.
      reflexivity.
  - rewrite (create_or_update_list_absent _ _ _ _ H).
    destruct (create_new_list_adds list_name description group st) as (calls & Ht & Hadd).
    exists calls. split; [|exact Hadd].
    destruct (_create_new_list list_name description group st) as [[r|e] st']; exact Ht.
Qed.

Lemma manage_all_adds (summaries : Py.dict string string)
    (l : Py.dict string (list Repo.t)) :
  forall (results : Py.dict string OperationResult) (st : State W),
  exists out st' calls,
    fold_M (manage_one false summaries) l results st = (Ok out, st')
    /\ trace st' = trace st ++ calls
    /\ forall lid ids,
         In (AddReposToList lid ids) calls ->
         exists category group, In (category, group) l /\ ids = map Repo.id group.
Proof.
  induction l as [|[category group] l IH]; intros results st.
  - exists results, st, []. cbn. rewrite app_nil_r. split; [reflexivity|].
    split; [reflexivity|]. intros lid ids [].
  - rewrite fold_M_cons.
    assert (Hstep : exists out1 st1 calls1,
               manage_one false summaries results (category, group) st = (Ok out1, st1)
               /\ trace st1 = trace st ++ calls1
               /\ forall lid ids, In (AddReposToList lid ids) calls1 ->
                                  ids = map Repo.id group).
    { unfold manage_one. destruct group as [|repo group]; cbn [nonempty negb].
      - exists results, st, []. rewrite app_nil_r. split; [reflexivity|].
        split; [reflexivity|]. intros lid ids [].
      - fold (decided_description summaries category). unfold try_except, bind, ret.
        destruct (create_or_update_list_adds category
                    (decided_description summaries category) (repo :: group) st)
          as (calls & Ht & Hadd).
        destruct (create_or_update_list category (decided_description summaries category)
                    (repo :: group) st) as [[r|e] st1];
          cbn [snd] in Ht; eexists _, _, calls; (split; [reflexivity|]);
          (split; [exact Ht|exact Hadd]). }
    destruct Hstep as (out1 & st1 & calls1 & E1 & Ht1 & Hadd1).
    rewrite E1.
    destruct (IH out1 st1) as (out & st' & calls & E & Ht & Hadd).
    exists out, st', (calls1 ++ calls).
    split; [exact E|]. split; [rewrite Ht, Ht1, app_assoc; reflexivity|].
    intros lid ids Hin. apply in_app_or in Hin. destruct Hin as [Hin|Hin].
    + exists category, group. split; [left; reflexivity|exact (Hadd1 _ _ Hin)].
    + destruct (Hadd _ _ Hin) as (c & g & Hg & Hids).
      exists c, g. split; [right; exact Hg|exact Hids].
Qed.

(** X19.  Whatever the host and the model do, a run that is not a dry run
    attaches repositories group by group: every call that adds repositories to
    a list carries the identifiers of all the repositories of one group, in the
    order of the group, never a part of a group nor repositories of two
    groups. *)
Theorem live_run_attaches_whole_groups
    (classification : Py.dict string (Classification.t string)) (starred : list Repo.t)
    (cfg : Config) (st : State W) :
  exists out st' calls,
    manage_exec classification starred false cfg st = (Ok out, st')
    /\ trace st' = trace st ++ calls
    /\ forall lid ids,
         In (AddReposToList lid ids) calls ->
         exists category group,
           In (category, group) (organized_repos out) /\ ids = map Repo.id group.
Proof.
  unfold manage_exec.
  set (organized := organize_repos_by_category String.eqb classification starred).
  pose proof (organize_keys_nodup classification starred) as Hnodup.
  fold organized in Hnodup.
  unfold bind at 1. unfold set_self at 1.
  set (st0 := {| gateway := gateway st; trace := trace st; self := new_manager |}).
  unfold bind at 1.
  assert (Hopts : exists m,
             (if has_overrides (config_summary_options cfg)
              then set_summary_options (config_summary_options cfg)
              else ret tt) st0
             = (Ok tt, {| gateway := gateway st; trace := trace st; self := m |})).
  { destruct (has_overrides (config_summary_options cfg));
      cbv [set_summary_options bind get_self set_self ret]; eexists; reflexivity. }
  destruct Hopts as (m & ->).
  set (st1 := {| gateway := gateway st; trace := trace st; self := m |}).
  unfold bind at 1.
  destruct (get_existing_lists_run st1) as (st2 & E2 & Ht2 & _).
  rewrite E2. unfold bind at 1. unfold complete_list_summaries.
  destruct (complete_all_calls (fetched_lists st1) organized [] st2 Hnodup)
    as (summaries & st3 & calls3 & E3 & _ & _ & Ht3 & Hllm3 & _).
  rewrite E3. unfold bind at 1.
  destruct (manage_all_adds summaries organized [] st3)
    as (results & st4 & calls4 & E4 & Ht4 & Hadd4).
  rewrite E4. unfold ret.
  exists {| organized_repos := organized; operation_results := results;
            enhanced_summaries := summaries |}, st4, ([GetUserLists] ++ calls3 ++ calls4).
  split; [reflexivity|]. split.
  { rewrite Ht4, Ht3, Ht2. cbn [st1 trace]. rewrite <- !app_assoc. reflexivity. }
  cbn [organized_repos]. intros lid ids Hin.
  apply in_app_or in Hin. destruct Hin as [[H|[]]|Hin]; [discriminate H|].
  apply in_app_or in Hin. destruct Hin as [Hin|Hin]; [|exact (Hadd4 _ _ Hin)].
  rewrite Forall_forall in Hllm3. specialize (Hllm3 _ Hin). discriminate Hllm3.
Qed.

End Program.

(* ================================================================== *)
(** * Further properties of the response parser *)
(* ================================================================== *)

Lemma contains_unfold (sub s : string) :
  Py.contains sub s
  = prefix sub s || match s with
                    | EmptyString => false
                    | String _ s' => Py.contains sub s'
                    end.
Proof. destruct s; reflexivity. Qed.

Lemma prefix_empty (s : string) : prefix "" s = true.
Proof. destruct s; reflexivity. Qed.

Lemma prefix_cons (c : ascii) (a b : string) :
  prefix (String c a) (String c b) = prefix a b.
Proof. cbn [prefix]. destruct (ascii_dec c c); [reflexivity|congruence]. Qed.

Lemma contains_lstrip (sub s : string) :
  Py.contains sub (Py.lstrip s) = true -> Py.contains sub s = true.
Proof.
  induction s as [|c s IH]; [trivial|].
  cbn [Py.lstrip]. destruct (Py.isspace c); [|trivial].
  intros H. rewrite contains_unfold, (IH H). apply orb_true_r.
Qed.

Lemma prefix_rstrip (s : string) : prefix (Py.rstrip s) s = true.
Proof.
  induction s as [|c s IH]; [reflexivity|].
  cbn [Py.rstrip]. destruct (Py.rstrip s) as [|d r].
  - destruct (Py.isspace c); [reflexivity|]. rewrite prefix_cons. apply prefix_empty.
  - rewrite prefix_cons. exact IH.
Qed.

Lemma contains_prefix (sub p : string) :
  forall s, Py.contains sub p = true -> prefix p s = true -> Py.contains sub s = true.
Proof.
  induction p as [|c p IH]; intros s Hsub Hp; rewrite contains_unfold in Hsub;
    apply orb_true_iff in Hsub; destruct Hsub as [Hhead|Htail].
  - rewrite contains_unfold, (prefix_trans _ _ _ Hhead Hp). reflexivity.
  - discriminate Htail.
  - rewrite contains_unfold, (prefix_trans _ _ _ Hhead Hp). reflexivity.
  - destruct s as [|d s]; [discriminate Hp|].
    cbn [prefix] in Hp. destruct (ascii_dec c d); [|discriminate Hp].
    rewrite contains_unfold, (IH s Htail Hp). apply orb_true_r.
Qed.

Lemma contains_strip (sub s : string) :
  Py.contains sub s = false -> Py.contains sub (Py.strip s) = false.
Proof.
  intros Hfree. destruct (Py.contains sub (Py.strip s)) eqn:E; [|reflexivity].
  unfold Py.strip in E.
  pose proof (contains_prefix sub _ _ E (prefix_rstrip (Py.lstrip s))) as H.
  apply contains_lstrip in H. congruence.
Qed.

Lemma before_first_free (a : ascii) (sep' s : string) :
  Py.contains (String a sep') (before_first (String a sep') s) = false.
Proof.
  induction s as [|c s IH]; cbn [before_first].
  - destruct (prefix (String a sep') ""); reflexivity.
  - destruct (prefix (String a sep') (String c s)) eqn:Hp; [reflexivity|].
    rewrite contains_unfold, IH, orb_false_r.
    destruct (prefix (String a sep') (String c (before_first (String a sep') s))) eqn:Hq;
      [|reflexivity].
    assert (H : prefix (String a sep') (String c s) = true).
    { eapply prefix_trans; [exact Hq|]. rewrite prefix_cons. apply before_first_prefix. }
    congruence.
Qed.

(** X18.  Locating the payload never fails, and the text handed to the YAML
    loader never holds a code fence, whatever the response: the loader sees
    what is inside the block, not its delimiters nor what follows it. *)
Theorem loader_input_has_no_fence (response : string) :
  exists part,
    yaml_part response = Ok part
    /\ Py.contains fence part = false
    /\ Py.contains yaml_tag part = false.
Proof.
  exists (payload response). split; [apply yaml_part_payload|].
  assert (Hfence : Py.contains fence (payload response) = false).
  { unfold payload, fence.
    destruct (after_first "```yaml" response) as [rest|].
    - apply contains_strip, before_first_free.
    - destruct (after_first "```" response) as [rest|] eqn:E.
      + apply contains_strip, before_first_free.
      + apply contains_strip. rewrite contains_after_first, E. reflexivity. }
  split; [exact Hfence|].
  destruct (Py.contains yaml_tag (payload response)) eqn:Htag; [|reflexivity].
  assert (H : Py.contains fence (payload response) = true).
  { clear Hfence. induction (payload response) as [|c s IH]; [discriminate Htag|].
    rewrite contains_unfold in Htag. apply orb_true_iff in Htag.
    rewrite contains_unfold. apply orb_true_iff. destruct Htag as [Hhead|Htail].
    - left. apply (prefix_trans fence yaml_tag); [reflexivity|exact Hhead].
    - right. exact (IH Htail). }
  congruence.
Qed.

(* ================================================================== *)
(** * Properties of the clients and of the settings *)
(* ================================================================== *)

(** ** The starred repositories *)

Section Starred.

Context {W : Type} (get_page : string -> Z -> Z -> W -> Result (list Repo.t) * W).

(** A turn that goes on has added a page that is not empty and left fewer than
    1000 repositories: with [1000 - length repos] turns left, the loop ends. *)
Lemma starred_loop_ends (endpoint : string) (per_page : Z) (fuel : nat) :
  forall (page : Z) (repos : list Repo.t) (w : W),
    1000 <= List.length repos + fuel ->
    1 <= fuel ->
    exists out,
      GitHubClient.starred_loop get_page fuel endpoint per_page page repos w = Some out
      /\ forall fuel',
           fuel <= fuel' ->
           GitHubClient.starred_loop get_page fuel' endpoint per_page page repos w = Some out.
Proof.
  induction fuel as [|fuel IH]; intros page repos w Hsize Hfuel; [lia|].
  cbn [GitHubClient.starred_loop].
  destruct (get_page endpoint per_page page w) as [[[|repo page_repos]|e] w'] eqn:E.
  - eexists. split; [reflexivity|]. intros [|fuel'] Hle; [lia|].
    cbn [GitHubClient.starred_loop]. rewrite E. reflexivity.
  - cbv zeta.
    destruct ((Z.of_nat (List.length (repo :: page_repos)) <? per_page)%Z
              || (1000 <=? List.length (repos ++ repo :: page_repos))%nat) eqn:Hbreak.
    + eexists. split; [reflexivity|]. intros [|fuel'] Hle; [lia|].
      cbn [GitHubClient.starred_loop]. rewrite E. cbv zeta. rewrite Hbreak. reflexivity.
    + pose proof Hbreak as Hb. apply orb_false_iff in Hb. destruct Hb as [_ Hlen].
      apply Nat.leb_gt in Hlen. rewrite length_app in Hlen. cbn [List.length] in Hlen.
      destruct (IH (page + 1)%Z (repos ++ repo :: page_repos) w') as [out [Hout Hmore]].
      { rewrite length_app. cbn [List.length]. lia. }
      { lia. }
      exists out. split; [exact Hout|]. intros [|fuel'] Hle; [lia|].
      cbn [GitHubClient.starred_loop]. rewrite E. cbv zeta. rewrite Hbreak.
      apply Hmore. lia.
  - eexists. split; [reflexivity|]. intros [|fuel'] Hle; [lia|].
    cbn [GitHubClient.starred_loop]. rewrite E. reflexivity.
Qed.

(** X12.  [get_starred_repos] ends whatever the host answers and whatever the
    page size: it makes at most 1000 requests, since every turn that goes on
    has added at least one repository and left fewer than 1000.  More turns
    than that change nothing. *)
Theorem starred_fetch_ends (username : option string) (per_page : Z) (w : W) :
  exists out,
    GitHubClient.get_starred_repos get_page 1000 username per_page w = Some out
    /\ forall fuel,
         1000 <= fuel ->
         GitHubClient.get_starred_repos get_page fuel username per_page w = Some out.
Proof.
  unfold GitHubClient.get_starred_repos.
  apply starred_loop_ends; cbn [List.length]; lia.
Qed.

Lemma starred_loop_honoured (endpoint : string) (per_page : Z) :
  (0 < per_page)%Z ->
  GitHubClient.honours get_page per_page ->
  forall (fuel : nat) (page : Z) (repos : list Repo.t) (w : W),
    (per_page | Z.of_nat (List.length repos))%Z ->
    List.length repos < 1000 ->
    (1000 <= Z.of_nat (List.length repos) + per_page * Z.of_nat fuel)%Z ->
    exists out,
      GitHubClient.starred_loop get_page fuel endpoint per_page page repos w = Some out
      /\ forall repos' w',
           out = (Ok repos', w') ->
           (Z.of_nat (List.length repos') < 1000 + per_page)%Z
           /\ ((per_page | 1000)%Z -> List.length repos' <= 1000).
Proof.
  intros Hpos Hhon.
  induction fuel as [|fuel IH]; intros page repos w Hdiv Hlt Hfuel; [lia|].
  cbn [GitHubClient.starred_loop].
  destruct (get_page endpoint per_page page w) as [[[|repo page_repos]|e] w'] eqn:E.
  - eexists. split; [reflexivity|]. intros repos' w'' [= <- _]. split; lia.
  - pose proof (Hhon _ _ _ _ _ E) as Hpage. cbv zeta.
    assert (Hgrow : Z.of_nat (List.length (repos ++ repo :: page_repos))
                    = (Z.of_nat (List.length repos)
                       + Z.of_nat (List.length (repo :: page_repos)))%Z).
    { rewrite length_app. lia. }
    destruct ((Z.of_nat (List.length (repo :: page_repos)) <? per_page)%Z
              || (1000 <=? List.length (repos ++ repo :: page_repos))%nat) eqn:Hbreak.
    + eexists. split; [reflexivity|]. intros repos' w'' [= <- _].
      split; [lia|]. intros [m Hm]. destruct Hdiv as [k Hk].
      assert (Hkm : (k < m)%Z) by nia.
      assert (Hnext : (k * per_page + per_page <= m * per_page)%Z) by nia.
      lia.
    + apply orb_false_iff in Hbreak. destruct Hbreak as [Hshort Hlen].
      apply Z.ltb_ge in Hshort. apply Nat.leb_gt in Hlen.
      apply IH; [|exact Hlen|lia].
      rewrite Hgrow. apply Z.divide_add_r; [exact Hdiv|].
      replace (Z.of_nat (List.length (repo :: page_repos))) with per_page by lia.
      apply Z.divide_refl.
  - eexists. split; [reflexivity|]. intros repos' w'' [=].
Qed.

(** X13.  When the host returns at most [per_page] repositories for a page,
    [get_starred_repos] ends within [1000 / per_page] requests, rounded up, and
    returns fewer than [1000 + per_page] repositories, at most 1000 when
    [per_page] divides 1000: with the page size of 100 that the fetch stage
    uses, ten requests and at most 1000 repositories, so that the repositories
    starred beyond the first thousand are never seen. *)
Theorem starred_fetch_is_bounded (username : option string) (per_page : Z) (fuel : nat)
    (w : W) :
  (0 < per_page)%Z ->
  GitHubClient.honours get_page per_page ->
  (1000 <= per_page * Z.of_nat fuel)%Z ->
  exists out,
    GitHubClient.get_starred_repos get_page fuel username per_page w = Some out
    /\ forall repos w',
         out = (Ok repos, w') ->
         (Z.of_nat (List.length repos) < 1000 + per_page)%Z
         /\ ((per_page | 1000)%Z -> List.length repos <= 1000).
Proof.
  intros Hpos Hhon Hfuel. unfold GitHubClient.get_starred_repos.
  apply starred_loop_honoured;
    first [assumption | apply Z.divide_0_r | cbn [List.length]; lia].
Qed.

End Starred.

(** ** The model client *)

Section Llm.

Context {C W : Type} (environ : CallLlm.Environ) (OpenAI : string -> string -> Result C)
  (create : C -> CallLlm.Request -> W -> Result (option string) * W).

Lemma py_or_truthy (a b : option string) (s : string) :
  CallLlm.py_or a b = Some s -> b = None -> Py.truthy s = true.
Proof.
  unfold CallLlm.py_or. intros H ->. destruct a as [x|]; [|discriminate].
  destruct (Py.truthy x) eqn:E; [|discriminate]. injection H as <-. exact E.
Qed.

Lemma py_or_given (s : string) (b : option string) :
  s <> "" -> CallLlm.py_or (Some s) b = Some s.
Proof.
  intros Hne. unfold CallLlm.py_or, Py.truthy.
  destruct (String.eqb_spec s ""); [contradiction|reflexivity].
Qed.

(** X14.  The client cache is keyed by the first eight characters of the API
    key and the base URL: once a client has been returned for a key, a call with
    another key that starts with the same eight characters, for the same base
    URL, returns that client, built with the first key; no client is built with
    the second key. *)
Theorem client_cache_ignores_key_tail (key1 key2 : string) (base_url : option string)
    (p p1 : @CallLlm.Process C W) (client : C) :
  key1 <> "" ->
  key2 <> "" ->
  substring 0 8 key1 = substring 0 8 key2 ->
  CallLlm.get_llm_client environ OpenAI (Some key1) base_url p = (Ok client, p1) ->
  CallLlm.get_llm_client environ OpenAI (Some key2) base_url p1 = (Ok client, p1).
Proof.
  intros H1 H2 Hprefix. unfold CallLlm.get_llm_client.
  rewrite (py_or_given key1 _ H1), (py_or_given key2 _ H2).
  rewrite (py_or_given key1 _ H1), (py_or_given key2 _ H2).
  unfold CallLlm.cache_key. rewrite <- Hprefix.
  set (k := (substring 0 8 key1 ++ "_" ++ _)%string).
  destruct (Py.dict_get String.eqb k (CallLlm._client_cache p)) as [c|] eqn:Hget.
  - intros [= <- <-]. rewrite Hget. reflexivity.
  - destruct (OpenAI key1 _) as [c|e]; [|discriminate].
    intros [= <- <-]. cbn [CallLlm._client_cache].
    rewrite dict_get_set_same. reflexivity.
Qed.

(** X15.  [call_llm] never returns an empty text: the text it returns is the
    content of the first choice of the one request it made, which carries the
    prompt and never a [max_tokens] of zero.  Without an API key, given or in
    the environment, it raises before any request, leaving the cache and the
    service as they were. *)
Theorem call_llm_returns_content (prompt : string) (model api_key base_url : option string)
    (max_tokens : option Z) (temperature : option float) (p : @CallLlm.Process C W) :
  (forall content p',
     CallLlm.call_llm environ OpenAI create prompt model api_key base_url max_tokens
       temperature p = (Ok content, p') ->
     content <> ""
     /\ exists client request w,
          create client request w = (Ok (Some content), CallLlm.service p')
          /\ CallLlm.request_content request = prompt
          /\ CallLlm.request_temperature request = temperature
          /\ CallLlm.request_max_tokens request <> Some 0%Z)
  /\ (CallLlm.py_or (CallLlm.py_or api_key (CallLlm.OPENAI_API_KEY environ)) None = None ->
      CallLlm.call_llm environ OpenAI create prompt model api_key base_url max_tokens
        temperature p = (Raise CallLlm.key_required, p)).
Proof.
  split.
  - intros content p'. unfold CallLlm.call_llm.
    destruct (CallLlm.get_llm_client environ OpenAI api_key base_url p) as [[client|e] p1];
      [|discriminate].
    match goal with
    | |- context [create client ?r ?w] =>
        remember r as request eqn:Hrequest;
        destruct (create client request w) as [[answer|e] w'] eqn:E
    end; [|discriminate].
    destruct (CallLlm.py_or answer None) as [text|] eqn:Hanswer; [|discriminate].
    intros [= <- <-]. cbn [CallLlm.service].
    pose proof (py_or_truthy _ _ _ Hanswer eq_refl) as Htruthy.
    split.
    + intros ->. discriminate Htruthy.
    + exists client, request, (CallLlm.service p1).
      assert (answer = Some text) as <-.
      { unfold CallLlm.py_or in Hanswer. destruct answer as [x|]; [|discriminate].
        destruct (Py.truthy x); [exact Hanswer|discriminate]. }
      split; [exact E|]. rewrite Hrequest.
      split; [reflexivity|]. split; [reflexivity|].
      cbn [CallLlm.request_max_tokens]. unfold CallLlm.given_max_tokens.
      destruct max_tokens as [n|]; [|discriminate].
      destruct (Z.eqb_spec n 0); [discriminate|]. congruence.
  - intros Hkey. unfold CallLlm.call_llm, CallLlm.get_llm_client. rewrite Hkey. reflexivity.
Qed.



End Llm.

(** ** The excluded repositories *)

Lemma split_free (sep : N) (name : Text.t) :
  Text.holds sep name = false -> Text.split sep name = [name].
Proof.
  induction name as [|c name IH]; intros Hfree; [reflexivity|].
  cbn [Text.holds existsb] in Hfree. apply orb_false_iff in Hfree.
  destruct Hfree as [Hc Hfree]. cbn [Text.split].
  rewrite N.eqb_sym, Hc, (IH Hfree). reflexivity.
Qed.

Lemma split_at_sep (sep : N) (name rest : Text.t) :
  Text.holds sep name = false ->
  Text.split sep (name ++ sep :: rest) = name :: Text.split sep rest.
Proof.
  induction name as [|c name IH]; intros Hfree.
  - cbn [app Text.split]. rewrite N.eqb_refl. reflexivity.
  - cbn [Text.holds existsb] in Hfree. apply orb_false_iff in Hfree.
    destruct Hfree as [Hc Hfree].
    change ((c :: name) ++ sep :: rest) with (c :: (name ++ sep :: rest)).
    cbn [Text.split]. rewrite N.eqb_sym, Hc, (IH Hfree). reflexivity.
Qed.

Lemma split_join (sep : N) (name : Text.t) (names : list Text.t) :
  Forall (fun n => Text.holds sep n = false) (name :: names) ->
  Text.split sep (Text.join sep (name :: names)) = name :: names.
Proof.
  revert name. induction names as [|next names IH]; intros name Hfree.
  - apply Forall_inv in Hfree. cbn [Text.join]. apply split_free. exact Hfree.
  - pose proof (Forall_inv Hfree) as Hname. apply Forall_inv_tail in Hfree.
    change (Text.join sep (name :: next :: names))
      with (name ++ sep :: Text.join sep (next :: names)).
    rewrite (split_at_sep sep name _ Hname), (IH next Hfree). reflexivity.
Qed.

(** X17.  The full names given with [--exclude-repo] come back from the
    environment as they were given: joined with commas into [EXCLUDE_REPOS]
    and split again by [Config.load_config], names that hold no comma give the
    list of the names, stripped, without those that are empty or white space.
    So a full name given without white space around it is in the list computed
    for the excluded repositories, whatever the environment held before. *)
Theorem excluded_names_round_trip (name : Text.t) (names : list Text.t)
    (environ : option Text.t) :
  Forall (fun n => Text.holds Text.comma n = false) (name :: names) ->
  Settings.exclude_repos_of (Settings.exclude_repos_env (name :: names) environ)
  = map Text.strip (filter (fun n => Text.truthy (Text.strip n)) (name :: names))
  /\ forall n,
       In n (name :: names) -> Text.strip n = n -> n <> [] ->
       In n (Settings.exclude_repos_of (Settings.exclude_repos_env (name :: names) environ)).
Proof.
  intros Hfree.
  assert (E : Settings.exclude_repos_of (Settings.exclude_repos_env (name :: names) environ)
              = map Text.strip (filter (fun n => Text.truthy (Text.strip n)) (name :: names))).
  { unfold Settings.exclude_repos_of, Settings.exclude_repos_env.
    rewrite (split_join Text.comma name names Hfree). reflexivity. }
  split; [exact E|].
  intros n Hin Hstrip Hne. rewrite E. apply in_map_iff. exists n. split; [exact Hstrip|].
  apply filter_In. split; [exact Hin|]. rewrite Hstrip.
  destruct n; [contradiction|reflexivity].
Qed.

(* ================================================================== *)
(** * The properties on the scenarios *)
(* ================================================================== *)

(** The model call fails for "a/y" only: it gets the sentinel, and "a/x" and
    "a/z" get what their own answers say. *)
Lemma classifier_failure_is_isolated_witness :
  failure_detail (GW := Scenario.gateways Scenario.flaky []) (LIB := Scenario.library)
    (PR := Scenario.prompts) (Scenario.item_of Scenario.ay) 0%Z
  = Some "Analysis failed: timeout"
  /\ fst (map_M
            (analyze_exec (GW := Scenario.gateways Scenario.flaky [])
               (LIB := Scenario.library) (PR := Scenario.prompts))
            (map Scenario.item_of [Scenario.ax; Scenario.ay; Scenario.az]) Scenario.start)
     = Ok [("a/x", Classification.mk (YStr "Tools") (YStr "No reason provided") 0.5%float);
           ("a/y", Classification.mk (YStr "Uncategorized")
                     (YStr "Analysis failed: timeout") 0.1%float);
           ("a/z", Classification.mk (YStr "Tools") (YStr "No reason provided") 0.5%float)].
Proof.
  split; [reflexivity|].
  pose proof (classifier_failure_is_isolated
                (GW := Scenario.gateways Scenario.flaky [])
                (LIB := Scenario.library) (PR := Scenario.prompts)
                [Scenario.item_of Scenario.ax] [Scenario.item_of Scenario.az]
                Scenario.ay [] "auto" Scenario.cfg Scenario.start
                "Analysis failed: timeout" eq_refl) as T.
  cbv zeta in T. destruct T as (_ & _ & _ & _ & _ & _ & T & _).
  apply (f_equal fst) in T.
  etransitivity; [exact T|reflexivity].
Defined.

(** A dry run over the three repositories, all in "Tools": no mutating call,
    and the result lists the three full names. *)
Lemma dry_run_purity_witness :
  exists out st',
    manage_exec (GW := Scenario.gateways Scenario.timeout []) (PR := Scenario.prompts)
      Scenario.all_tools [Scenario.ax; Scenario.ay; Scenario.az] true Scenario.cfg
      Scenario.start = (Ok out, st')
    /\ filter mutating (trace st') = []
    /\ exists r,
         Py.dict_get String.eqb "Tools" (operation_results out) = Some r
         /\ action r = Some "dry_run"
         /\ repos_count r = Some 3
         /\ repos r = Some ["a/x"; "a/y"; "a/z"].
Proof.
  destruct (dry_run_purity (GW := Scenario.gateways Scenario.timeout [])
              (PR := Scenario.prompts)
              Scenario.all_tools [Scenario.ax; Scenario.ay; Scenario.az] Scenario.cfg
              Scenario.start)
    as (out & st' & calls & Hrun & Horg & Htr & Hmut & Hres).
  exists out, st'. split; [exact Hrun|]. split.
  - rewrite Htr. apply filter_mutating_none. exact Hmut.
  - destruct (Hres "Tools" [Scenario.ax; Scenario.ay; Scenario.az]) as [_ (r & Hr & _ & Ha & Hc & Hn)].
    + rewrite Horg. left. reflexivity.
    + exists r. repeat split; assumption.
Defined.


(** The fallback description of the scenario, reached because the model call
    fails. *)
Lemma fallback_description_is_determined_witness :
  fst (call_llm_with_config (Gateways := Scenario.gateways Scenario.timeout [])
         (summary_prompt (Prompts := Scenario.prompts) "Tools"
            [Scenario.ax; Scenario.ay; Scenario.az]) 0%Z) = Raise "timeout"
  /\ fst (generate_ai_summary (GW := Scenario.gateways Scenario.timeout [])
            (PR := Scenario.prompts) "Tools" [Scenario.ax; Scenario.ay; Scenario.az]
            Scenario.start)
     = Ok "Auto-categorized Tools repositories (3 repos) - Main languages: Python, Go - Total stars: 16".
Proof.
  split; [reflexivity|].
  destruct (fallback_description_is_determined
              (GW := Scenario.gateways Scenario.timeout []) (PR := Scenario.prompts)
              default_summary_options "Tools" [Scenario.ax; Scenario.ay; Scenario.az])
    as (ranking & _ & _ & _ & Hbasic & Hgen & _).
  rewrite (Hgen Scenario.start eq_refl
             (or_intror (ex_intro _ "timeout" eq_refl))).
  rewrite <- Hbasic. reflexivity.
Defined.

(** A response with a tagged block that gives a category only. *)
Lemma parse_ai_response_policy_witness :
  yaml_safe_load (Library := Scenario.library) (payload Scenario.tools_response)
  = Ok (YMap [(YStr "category", YStr "Tools")])
  /\ _parse_ai_response (LIB := Scenario.library) Scenario.tools_response
     = Classification.mk (YStr "Tools") (YStr "No reason provided") 0.5%float.
Proof.
  split; [reflexivity|].
  destruct (parse_ai_response_policy (LIB := Scenario.library) Scenario.tools_response)
    as (_ & _ & _ & _ & H).
  destruct (H [(YStr "category", YStr "Tools")] (YStr "Tools") eq_refl eq_refl)
    as (Hok & _).
  exact (Hok 0.5%float eq_refl).
Defined.

(** The list "Web" keeps "old desc" when enhancement is disabled, and no
    description is pushed. *)
Lemma description_pushed_when_nonempty_and_different_witness :
  enhance_existing (summary_options (self Scenario.keeping)) = false
  /\ complete_list_summaries (GW := Scenario.gateways Scenario.timeout [Scenario.web])
       (PR := Scenario.prompts) [Scenario.web] [("Web", [Scenario.ax])] Scenario.keeping
     = (Ok [("Web", "old desc")], Scenario.keeping)
  /\ exists calls,
       trace (snd (_update_existing_list
                     (GW := Scenario.gateways Scenario.timeout [Scenario.web])
                     Scenario.web "old desc" [Scenario.ax] Scenario.keeping))
       = trace Scenario.keeping ++ calls
       /\ filter is_update calls = []
       /\ filter is_add calls = [AddReposToList 7 [1%Z]].
Proof.
  split; [reflexivity|].
  destruct (description_pushed_when_nonempty_and_different
              (GW := Scenario.gateways Scenario.timeout [Scenario.web])
              (PR := Scenario.prompts)
              Scenario.web "old desc" [Scenario.ax] Scenario.keeping)
    as [_ H].
  destruct (H eq_refl) as [Hsum (calls & Ht & Hu & Hok)].
  split; [exact Hsum|].
  exists calls. split; [exact Ht|]. split; [exact Hu|].
  exact (proj2 (Hok _ eq_refl)).
Defined.

(** "a/y" is excluded: it is not classified and has no entry. *)
Lemma excluded_repos_are_left_out_witness :
  In "a/y" (exclude_repos (config Scenario.shared))
  /\ exists exec_res_list st',
       map_M (analyze_exec (GW := Scenario.gateways Scenario.flaky [])
                (LIB := Scenario.library) (PR := Scenario.prompts))
         (analyze_prep Scenario.shared) Scenario.start
       = (Ok exec_res_list, st')
       /\ trace st' = [LlmCall "classify a/x"; LlmCall "classify a/z"]
       /\ Py.dict_get String.eqb "a/y" (analyze_post exec_res_list) = None.
Proof.
  split; [left; reflexivity|].
  destruct (excluded_repos_are_left_out
              (GW := Scenario.gateways Scenario.flaky []) (LIB := Scenario.library)
              (PR := Scenario.prompts) Scenario.shared Scenario.start "a/y"
              (or_introl eq_refl))
    as [_ (exec_res_list & st' & Hrun & Htr & Hnone & _)].
  exists exec_res_list, st'. split; [exact Hrun|]. split; [exact Htr|exact Hnone].
Defined.

(** The enhancement call for "Web" fails: "old desc" is kept. *)
Lemma failed_enhancement_keeps_description_witness :
  fst (call_llm_with_config (Gateways := Scenario.gateways Scenario.timeout [Scenario.web])
         (enhance_prompt (Prompts := Scenario.prompts) "old desc" "Web" [Scenario.ax]) 0%Z)
  = Raise "timeout"
  /\ exists summaries st',
       complete_list_summaries (GW := Scenario.gateways Scenario.timeout [Scenario.web])
         (PR := Scenario.prompts) [Scenario.web] [("Web", [Scenario.ax])] Scenario.start
       = (Ok summaries, st')
       /\ Py.dict_get String.eqb "Web" summaries = Some "old desc".
Proof.
  split; [reflexivity|].
  assert (Hne : cached_description Scenario.web <> "") by discriminate.
  exact (failed_enhancement_keeps_description
           (GW := Scenario.gateways Scenario.timeout [Scenario.web])
           (PR := Scenario.prompts)
           [Scenario.web] [] [] "Web" [Scenario.ax] Scenario.web
           Scenario.start Scenario.start [] "timeout"
           eq_refl Hne eq_refl (fun H : False => H) eq_refl eq_refl).
Defined.

(** An empty decided description for the cached list "Web". *)
Lemma empty_description_is_never_pushed_witness :
  Py.dict_get String.eqb "Web" (_list_cache (self Scenario.keeping)) = Some Scenario.web
  /\ exists calls,
       trace (snd (create_or_update_list
                     (GW := Scenario.gateways Scenario.timeout [Scenario.web])
                     "Web" "" [Scenario.ax] Scenario.keeping))
       = trace Scenario.keeping ++ calls
       /\ filter is_update calls = [].
Proof.
  split; [reflexivity|].
  destruct (empty_description_is_never_pushed
              (GW := Scenario.gateways Scenario.timeout [Scenario.web])
              Scenario.web [Scenario.ax] Scenario.keeping)
    as (_ & _ & H).
  exact (H "Web" eq_refl).
Defined.

(** ** Where the code departs from the specification *)

(** C6 as stated fails.  The list "Web" exists with description "old desc";
    the model answers the enhancement request with white space, so the decided
    description is empty: it differs from the cached one, and yet no
    [update_star_list] call is made. *)
Lemma differing_description_not_pushed :
  exists out st',
    manage_exec (GW := Scenario.gateways Scenario.blank [Scenario.web])
      (PR := Scenario.prompts) Scenario.one_web [Scenario.ax] false Scenario.cfg
      Scenario.start = (Ok out, st')
    /\ Py.dict_get String.eqb "Web" (enhanced_summaries out) = Some ""
    /\ Py.dict_get String.eqb "Web" (_list_cache (self st')) = Some Scenario.web
    /\ ~ ((exists c, In c (trace st') /\ is_update c = true)
          <-> "" <> cached_description Scenario.web).
Proof.
  eexists _, _. split; [vm_compute; reflexivity|].
  split; [reflexivity|]. split; [reflexivity|].
  intros [_ H]. destruct H as (c & Hin & Hc); [discriminate|].
  cbn in Hin. destruct Hin as [<-|[<-|[<-|[]]]]; discriminate.
Qed.

(** C5 as stated fails.  The payload is a mapping and has the key "category",
    but its confidence is the word "high", which float() rejects: the parser
    takes the failure path and the result is the sentinel. *)
Lemma unparsable_confidence_takes_failure_path :
  yaml_safe_load (Library := Scenario.library) (payload Scenario.vague_response)
  = Ok (YMap [(YStr "category", YStr "Tools"); (YStr "confidence", YStr "high")])
  /\ yaml_get "category" [(YStr "category", YStr "Tools"); (YStr "confidence", YStr "high")]
     = Some (YStr "Tools")
  /\ _parse_ai_response (LIB := Scenario.library) Scenario.vague_response
     = sentinel
         "Failed to parse AI response: could not convert string to float: 'high'"
  /\ Classification.category
       (_parse_ai_response (LIB := Scenario.library) Scenario.vague_response)
     <> YStr "Tools".
Proof.
  split; [reflexivity|]. split; [reflexivity|]. split; [reflexivity|]. discriminate.
Qed.

(** C9 as stated fails.  The model gives a confidence of 1.5: the classifier
    returns it as it is. *)
Lemma confidence_out_of_range :
  exists r st',
    analyze_repository (GW := Scenario.gateways Scenario.overconfident [])
      (LIB := Scenario.library) (PR := Scenario.prompts)
      Scenario.ax [] "auto" Scenario.start = (Ok r, st')
    /\ Classification.confidence r = 1.5%float
    /\ in_unit_interval (Classification.confidence r) = false.
Proof.
  eexists _, _. split; [vm_compute; reflexivity|]. split; reflexivity.
Qed.

(** ** The scenario of the specification, run *)

(** The three repositories, all classified as "Tools", no existing list, no AI
    summary: the list is created with the expected description and the three
    repositories are attached. *)
Example tools_scenario_run :
  fst (manage_exec (GW := Scenario.gateways Scenario.timeout []) (PR := Scenario.prompts)
         Scenario.all_tools [Scenario.ax; Scenario.ay; Scenario.az] false
         {| exclude_repos := []; dry_run := false;
            config_summary_options :=
              {| o_auto_complete := None; o_enhance_existing := None;
                 o_use_ai_summary := Some false; o_include_stats := Some true |} |}
         Scenario.start)
  = Ok {| organized_repos := [("Tools", [Scenario.ax; Scenario.ay; Scenario.az])];
          operation_results :=
            [("Tools",
              {| success := true; action := Some "created"; list_id := Some 0%Z;
                 repos_added := Some 3; repos_count := None; repos := None;
                 error := None;
                 enhanced_description :=
                   Some "Auto-categorized Tools repositories (3 repos) - Main languages: Python, Go - Total stars: 16" |})];
          enhanced_summaries :=
            [("Tools",
              "Auto-categorized Tools repositories (3 repos) - Main languages: Python, Go - Total stars: 16")] |}.
Proof. reflexivity. Qed.

(* ================================================================== *)
(** * The further properties on the scenarios *)
(* ================================================================== *)

(** The host creates "Tools" and refuses the repositories: the failure is
    reported, and the next call creates "Tools" again. *)
Lemma failed_attachment_forgets_created_list_witness :
  let st' := {| gateway := 1%Z;
                trace := [CreateStarList "Tools" "tools"; AddReposToList 0 [1%Z]];
                self := new_manager |} in
  create_or_update_list (GW := Cases.refusing) "Tools" "tools" [Scenario.ax] Scenario.start
  = (Ok (error_result "rate limit"), st')
  /\ exists calls,
       trace (snd (create_or_update_list (GW := Cases.refusing) "Tools" "tools"
                     [Scenario.ax] st'))
       = trace st' ++ CreateStarList "Tools" "tools" :: calls.
Proof.
  exact (failed_attachment_forgets_created_list (GW := Cases.refusing)
           "Tools" "tools" Scenario.ax [] Scenario.start
           (RemoteList.mk 0 "Tools" (Some "tools")) 1%Z 1%Z "rate limit"
           eq_refl eq_refl eq_refl).
Defined.

(** Two categories, one of them an existing list: two summaries and at most
    two calls. *)
Lemma summaries_cost_at_most_one_model_call_witness :
  exists summaries st' calls,
    complete_list_summaries (GW := Scenario.gateways Scenario.timeout [Scenario.web])
      (PR := Scenario.prompts) [Scenario.web]
      [("Web", [Scenario.ax]); ("Tools", [Scenario.az])] Scenario.start
    = (Ok summaries, st')
    /\ Py.keys summaries = ["Web"; "Tools"]
    /\ trace st' = trace Scenario.start ++ calls
    /\ List.length calls <= 2.
Proof.
  destruct (summaries_cost_at_most_one_model_call
              (GW := Scenario.gateways Scenario.timeout [Scenario.web])
              (PR := Scenario.prompts) [Scenario.web]
              [("Web", [Scenario.ax]); ("Tools", [Scenario.az])] Scenario.start)
    as (summaries & st' & calls & E & Hk & _ & Ht & _ & Hl & _).
  { constructor; [|constructor; [intros []|constructor]].
    intros [H|[]]. discriminate H. }
  exists summaries, st', calls.
  split; [exact E|]. split; [exact Hk|]. split; [exact Ht|exact Hl].
Defined.

(** Three starred repositories served in pages of two: two requests, three
    repositories. *)
Lemma starred_fetch_is_bounded_witness :
  GitHubClient.honours Cases.pages 2
  /\ GitHubClient.get_starred_repos Cases.pages 500 None 2 0
     = Some (Ok [Scenario.ax; Scenario.ay; Scenario.az], 2)
  /\ exists out,
       GitHubClient.get_starred_repos Cases.pages 500 None 2 0 = Some out
       /\ forall repos w',
            out = (Ok repos, w') ->
            (Z.of_nat (List.length repos) < 1000 + 2)%Z
            /\ ((2 | 1000)%Z -> List.length repos <= 1000).
Proof.
  assert (H : GitHubClient.honours Cases.pages 2).
  { intros endpoint page w page_repos w' E. unfold Cases.pages in E.
    injection E as <- _.
    destruct (page =? 1)%Z; [cbn; lia|]. destruct (page =? 2)%Z; cbn; lia. }
  split; [exact H|]. split; [reflexivity|].
  apply (starred_fetch_is_bounded Cases.pages None 2 500 0); [lia|exact H|lia].
Defined.

(** Two keys of the same project: the client of the first serves the
    second. *)
Lemma client_cache_ignores_key_tail_witness :
  let p1 := {| CallLlm._client_cache :=
                 [("sk-proj-_https://api.openai.com/v1", "sk-proj-first")];
               CallLlm.service := 0 |} in
  CallLlm.get_llm_client Cases.no_environ Cases.client_of (Some "sk-proj-first") None
    Cases.fresh = (Ok "sk-proj-first", p1)
  /\ CallLlm.get_llm_client Cases.no_environ Cases.client_of (Some "sk-proj-second") None
       p1 = (Ok "sk-proj-first", p1).
Proof.
  split; [reflexivity|].
  apply (client_cache_ignores_key_tail Cases.no_environ Cases.client_of
           "sk-proj-first" "sk-proj-second" None Cases.fresh);
    [discriminate|discriminate|reflexivity|reflexivity].
Defined.

(** Three options on the command line: one is a no-break space, and one ends
    with an ideographic space. *)
Lemma excluded_names_round_trip_witness :
  Settings.exclude_repos_of
    (Settings.exclude_repos_env
       [Text.of_string "a/y"; [160%N]; Text.of_string "b/z" ++ [12288%N]]
       (Some (Text.of_string "old/one")))
  = [Text.of_string "a/y"; Text.of_string "b/z"].
Proof.
  destruct (excluded_names_round_trip (Text.of_string "a/y")
              [[160%N]; Text.of_string "b/z" ++ [12288%N]]
              (Some (Text.of_string "old/one"))) as [E _].
  { repeat constructor. }
  rewrite E. reflexivity.
Defined.

(** The model gives a list as the category of "a/x" and of "a/z": both calls
    are made, and the stage raises in [post]. *)
Lemma every_kept_repository_is_classified_witness :
  exists e st',
    analyze_run (GW := Scenario.gateways Cases.listing []) (LIB := Cases.listing_library)
      (PR := Scenario.prompts) Scenario.shared Scenario.start = (Raise e, st')
    /\ e = "unhashable type: 'list'"
    /\ trace st' = [LlmCall "classify a/x"; LlmCall "classify a/z"].
Proof.
  destruct (every_kept_repository_is_classified
              (GW := Scenario.gateways Cases.listing []) (LIB := Cases.listing_library)
              (PR := Scenario.prompts) Scenario.shared Scenario.start)
    as (exec_res_list & st' & Hexec & _ & _ & _ & _ & Hraise).
  vm_compute in Hexec. injection Hexec as <- <-.
  destruct (Hraise "a/x"
              (Classification.mk (YSeq [YStr "a"; YStr "b"]) (YStr "No reason provided")
                 0.5%float)
              (or_introl eq_refl) eq_refl) as [e He].
  exists e. eexists. split; [exact He|].
  vm_compute in He. injection He as <-. split; reflexivity.
Defined.
